(** * pLGG_Predict_Status: a shallow embedding of [main-resnet.py]

    The script trains a 3D residual network on paired imaging volumes.
    This development embeds the parts of the script that its specification
    talks about: label derivation, the dataset adapter, the network
    builder, the evaluation routine, the training loop and the per-trial
    driver code (seeding, data preparation, dataset split).

    Conventions.
    - A Python [int] is a [Z]. The width multiplier of the network is a
      binary64 [float], and the widths are computed in binary64
      arithmetic as the interpreter does. The other Python [float]s
      (losses, scores, the dropout probability) are exact rationals [Q];
      the split sizes are cross-checked against their binary64
      computation at the end of the split section.
    - A Python [dict] is a [gmap]; a Python [list] is a [list].
    - A call that can raise returns a [result]; the exception classes are
      the ones the interpreter or the libraries raise at that point. *)

From Stdlib Require Import ZArith QArith Qabs Qround Lia List Permutation.
From Stdlib Require Import PrimFloat FloatOps Uint63 SpecFloat.
From stdpp Require Import gmap strings list fin_maps.
Import ListNotations.

Local Open Scope Z_scope.

(** ** Exceptions *)

Inductive exn : Set :=
| AssertionError
| IndexError
| KeyError
| TypeError
| ValueError
| ZeroDivisionError
| UnboundLocalError
| OverflowError
| RuntimeError.

Inductive result (A : Type) : Type :=
| Ok (a : A)
| Raise (e : exn).

Arguments Ok {A} a.
Arguments Raise {A} e.

Definition rbind {A B : Type} (c : result A) (k : A -> result B) : result B :=
  match c with
  | Ok a => k a
  | Raise e => Raise e
  end.

Notation "'let*' x ':=' c 'in' k" := (rbind c (fun x => k))
  (at level 10, x pattern, c at level 100, k at level 200).

(** [xs[i]] for a non-negative index: [IndexError] past the end. *)
Definition py_index {A : Type} (xs : list A) (i : nat) : result A :=
  match nth_error xs i with
  | Some x => Ok x
  | None => Raise IndexError
  end.

(** [d[k]] on a dict: [KeyError] on a missing key. *)
Definition py_getitem `{Countable K} {V : Type} (d : gmap K V) (k : K) : result V :=
  match d !! k with
  | Some v => Ok v
  | None => Raise KeyError
  end.

(** [int(x)] on a float truncates toward zero. *)
Definition py_int (q : Q) : Z :=
  if Qle_bool 0 q then Qfloor q else Qceiling q.

(** [float(x)] for a Python [int], as the interpreter converts the
    integer operand of a product with a float: the nearest binary64
    number, ties to even; [OverflowError] when [x] is too large for
    one. *)
Definition py_float_of_int (x : Z) : result float :=
  match binary_normalize prec emax x 0 false with
  | S754_infinity _ => Raise OverflowError
  | sf => Ok (SF2Prim sf)
  end.

(** [int(f)] for a binary64 float: truncation toward zero;
    [ValueError] on a NaN and [OverflowError] on an infinity. *)
Definition py_int_of_float (f : float) : result Z :=
  match Prim2SF f with
  | S754_zero _ => Ok 0
  | S754_finite s m e =>
      let magnitude := if 0 <=? e then Z.pos m * 2 ^ e else Z.pos m / 2 ^ (- e) in
      Ok (if s then - magnitude else magnitude)
  | S754_infinity _ => Raise OverflowError
  | S754_nan => Raise ValueError
  end.

(** The number a finite float stands for (0 for an infinity or a NaN). *)
Definition float_value (f : float) : Q :=
  match Prim2SF f with
  | S754_finite s m e =>
      let magnitude := if 0 <=? e then inject_Z (Z.pos m * 2 ^ e)
                       else Z.pos m # Pos.pow 2 (Z.to_pos (- e)) in
      if s then (- magnitude)%Q else magnitude
  | _ => 0%Q
  end.

(** [[f(x) for x in xs]] for an [f] that can raise: the first failure
    ends the comprehension. *)
Fixpoint comprehension {A B : Type} (f : A -> result B) (xs : list A) : result (list B) :=
  match xs with
  | [] => Ok []
  | x :: rest =>
      let* y := f x in
      let* ys := comprehension f rest in
      Ok (y :: ys)
  end.

(** ** Label derivation ([create_label], [process_excel]) *)

Module Labels.

(** A numeric spreadsheet cell: a number, or missing (NaN). *)
Inductive cell : Set :=
| Num (z : Z)
| NaN.

(** [c == 1]; a comparison with NaN is false. *)
Definition eq_one (c : cell) : bool :=
  match c with
  | Num z => z =? 1
  | NaN => false
  end.

Definition create_label (mutation fusion : cell) : option Z :=
  if eq_one mutation then Some 1
  else if eq_one fusion then Some 0
  else None.

(** A row of the sheet, after the unused columns are dropped: the patient
    code, the two indicator columns and the remaining feature columns. *)
Record row : Set := {
  code : cell;
  braf_v600e_final : cell;
  braf_fusion_final : cell;
  features : list cell
}.

Definition isnan (c : cell) : bool :=
  match c with
  | NaN => true
  | Num _ => false
  end.

(** [df["code"].isin(exclusions)] *)
Definition isin (c : cell) (exclusions : list Z) : bool :=
  match c with
  | Num z => existsb (Z.eqb z) exclusions
  | NaN => false
  end.

(** [int(x)] on a patient code. *)
Definition int_of_cell (c : cell) : Z :=
  match c with
  | Num z => z
  | NaN => 0
  end.

(** The rows that survive [process_excel], each with its label: rows with
    a missing code are dropped, then the excluded patients, then the rows
    whose label is undefined. *)
Definition labelled_rows (df_data : list row) (exclusions : list Z) : list (row * Z) :=
  let data_new := List.filter (fun r => negb (isnan (code r))) df_data in
  let data_new := List.filter (fun r => negb (isin (code r) exclusions)) data_new in
  let with_label := List.map (fun r => (r, create_label (braf_v600e_final r) (braf_fusion_final r))) data_new in
  flat_map (fun rl => match snd rl with
                      | Some l => [(fst rl, l)]
                      | None => []
                      end) with_label.

(** [dict(zip(keys, values))]: a later pair overwrites an earlier one. *)
Definition dict_of_pairs {V : Type} (kvs : list (Z * V)) : gmap Z V :=
  fold_left (fun d kv => <[fst kv := snd kv]> d) kvs ∅.

(** [process_excel], on a sheet with at least one row that is kept and
    labelled: the two mappings it returns. (When no kept row has a label
    the label column holds only [None] and [np.isnan] raises a type
    error before any mapping is built; the properties below are about the
    rows that are kept with a label.) *)
Definition process_excel (df_data : list row) (exclusions : list Z)
  : gmap Z (list cell) * gmap Z Z :=
  let kept := labelled_rows df_data exclusions in
  let patient_codes := List.map (fun rl => int_of_cell (code (fst rl))) kept in
  let training_labels := dict_of_pairs (combine patient_codes (List.map snd kept)) in
  let radiomic_features :=
    dict_of_pairs (List.map (fun rl => (int_of_cell (code (fst rl)), features (fst rl))) kept) in
  (radiomic_features, training_labels).

End Labels.

(** ** The dataset adapter ([CNNDataset]) and image loading *)

(** [xs[i]] for a Python int: a negative index counts from the end. *)
Definition py_list_getitem {A : Type} (xs : list A) (i : Z) : result A :=
  let n := Z.of_nat (length xs) in
  if i <? 0
  then (if - n <=? i then py_index xs (Z.to_nat (n + i)) else Raise IndexError)
  else py_index xs (Z.to_nat i).

Module CNNDataset.

Section Adapter.

(** The Python objects stored per patient (arrays, tensors, labels). *)
Context {obj : Type}.

(** What the data mapping holds under a patient id: the adapter
    subscripts it with a string ([... ["input"]]), which a dict
    supports and a list does not. [load_image_data] stores a list. *)
Inductive entry : Type :=
| EList (xs : list obj)
| EDict (d : gmap string obj).

(** [e[k]] for a string key [k]. *)
Definition entry_getitem_str (e : entry) (k : string) : result obj :=
  match e with
  | EDict d => py_getitem d k
  | EList _ => Raise TypeError
  end.

(** [e[i]] for a non-negative integer constant [i]. *)
Definition entry_getitem_int (e : entry) (i : nat) : result obj :=
  match e with
  | EList xs => py_index xs i
  | EDict _ => Raise KeyError
  end.

Record t : Type := __init__ {
  data : gmap Z entry;
  patient_ids : list Z
}.

Definition __len__ (self : t) : Z :=
  Z.of_nat (length (patient_ids self)).

Definition __getitem__ (self : t) (idx : Z) : result (obj * obj) :=
  let* pid := py_list_getitem (patient_ids self) idx in
  let* e := py_getitem (data self) pid in
  let* input := entry_getitem_str e "input" in
  let* pid' := py_list_getitem (patient_ids self) idx in
  let* e' := py_getitem (data self) pid' in
  let* label := entry_getitem_str e' "label" in
  Ok (input, label).

End Adapter.

Arguments entry obj : clear implicits.
Arguments t obj : clear implicits.

End CNNDataset.

(** ** Data preparation in the main script *)

Module Prepare.

Import CNNDataset.

(** A 3D array of floats. *)
Definition volume : Type := list (list (list Q)).

(** [np.multiply(a, b)] on two arrays of the same shape. *)
Definition np_multiply (a b : volume) : volume :=
  zip_with (zip_with (zip_with Qmult)) a b.

(** [t.unsqueeze(0)]: a leading channel axis of size one. *)
Definition unsqueeze0 (v : volume) : list volume := [v].

(** [dirs[:limit]] behind [if limit:]; [limit=False] and [limit=0] keep
    every directory. *)
Definition apply_limit {A : Type} (limit : Z) (dirs : list A) : list A :=
  if limit =? 0 then dirs
  else if 0 <? limit then firstn (Z.to_nat limit) dirs
  else firstn (length dirs - Z.to_nat (- limit)) dirs.

(** [load_image_data]: [tree] is the image directory as [os.walk] and
    [glob] see it, one pair per patient directory (already in the sorted
    order [dirs.sort(key=int)] gives): the patient number and the arrays
    of its [.npy] files in glob order. *)
Definition load_image_data (tree : list (Z * list volume)) (patients : list Z) (limit : Z)
  : result (gmap Z (entry volume) * list Z) :=
  let dirs := List.filter (fun d => existsb (Z.eqb (fst d)) patients) tree in
  let dirs := apply_limit limit dirs in
  let* data_images :=
    fold_left (fun acc d =>
                 let* data_images := acc in
                 let* f0 := py_index (snd d) 0 in
                 let* f1 := py_index (snd d) 1 in
                 Ok (<[fst d := EList [f0; f1]]> data_images))
              dirs (Ok ∅) in
  Ok (data_images, List.map fst dirs).

(** Lines 591-593 of the script: [data = {}] and the loop that computes
    [input] for each patient. The loop assigns the local variable [input]
    and nothing else; the state after the loop is the dict [data] and the
    last value of [input]. *)
Definition prepare_cnn_data (images : gmap Z (entry volume)) (patients_used : list Z)
  : result (gmap Z (entry (list volume)) * option (list volume)) :=
  fold_left (fun acc each_patient =>
               let* st := acc in
               let* e0 := py_getitem images each_patient in
               let* a := entry_getitem_int e0 0 in
               let* e1 := py_getitem images each_patient in
               let* b := entry_getitem_int e1 1 in
               Ok (fst st, Some (unsqueeze0 (np_multiply a b))))
            patients_used (Ok (∅, None)).

(** Two arrays of one shape, which is what [np.multiply] is given when
    the two files of a patient hold volumes of the same grid. *)
Definition same_shape (a b : volume) : Prop :=
  Forall2 (fun x y => Forall2 (fun u v => length u = length v) x y) a b.

(** Line 624 of the script: the dataset every trial builds. *)
Definition trial_dataset (images : gmap Z (entry volume)) (patients_used : list Z)
  : CNNDataset.t volume :=
  CNNDataset.__init__ images patients_used.

End Prepare.

(** ** The network builder ([BasicBlock], [Bottleneck], [ResNet],
       [generate_model]) *)

Module Network.

Inductive block_class : Set :=
| BasicBlock
| Bottleneck.

(** The class attribute [expansion]. *)
Definition expansion (block : block_class) : Z :=
  match block with
  | BasicBlock => 1
  | Bottleneck => 4
  end.

(** An [nn.Conv3d] layer (bias is always off in this script). *)
Record Conv3d : Set := {
  in_channels : Z;
  out_channels : Z;
  kernel_size : Z * Z * Z;
  conv_stride : Z * Z * Z;
  padding : Z * Z * Z
}.

Definition conv3x3x3 (in_planes out_planes stride : Z) : Conv3d :=
  {| in_channels := in_planes;
     out_channels := out_planes;
     kernel_size := (3, 3, 3);
     conv_stride := (stride, stride, stride);
     padding := (1, 1, 1) |}.

Definition conv1x1x1 (in_planes out_planes stride : Z) : Conv3d :=
  {| in_channels := in_planes;
     out_channels := out_planes;
     kernel_size := (1, 1, 1);
     conv_stride := (stride, stride, stride);
     padding := (0, 0, 0) |}.

(** What [_make_layer] may pass as [downsample]. *)
Inductive shortcut : Set :=
| PartialDownsampleBasicBlock (planes stride : Z)
    (* partial(self._downsample_basic_block, planes=..., stride=...) *)
| SequentialProjection (conv : Conv3d) (bn : Z).
    (* nn.Sequential(conv1x1x1(...), nn.BatchNorm3d(...)) *)

(** A block object, as its class and the arguments of its constructor. *)
Record Block : Set := {
  blk_class : block_class;
  blk_in_planes : Z;
  blk_planes : Z;
  blk_stride : Z;
  blk_downsample : option shortcut
}.

(** The convolutions [__init__] creates, in attribute order
    ([conv1], [conv2] and, for the bottleneck, [conv3]). *)
Definition block_convs (b : Block) : list Conv3d :=
  match blk_class b with
  | BasicBlock =>
      [conv3x3x3 (blk_in_planes b) (blk_planes b) (blk_stride b);
       conv3x3x3 (blk_planes b) (blk_planes b) 1]
  | Bottleneck =>
      [conv1x1x1 (blk_in_planes b) (blk_planes b) 1;
       conv3x3x3 (blk_planes b) (blk_planes b) (blk_stride b);
       conv1x1x1 (blk_planes b) (blk_planes b * expansion Bottleneck) 1]
  end.

(** [ResNet._make_layer]; [in_planes] is [self.in_planes] on entry and
    the second component of the result is [self.in_planes] on exit. *)
Definition _make_layer (in_planes : Z) (block : block_class) (planes blocks : Z)
    (shortcut_type : string) (stride : Z) : list Block * Z :=
  let downsample :=
    if negb (stride =? 1) || negb (in_planes =? planes * expansion block)
    then
      if String.eqb shortcut_type "A"
      then Some (PartialDownsampleBasicBlock (planes * expansion block) stride)
      else Some (SequentialProjection
                   (conv1x1x1 in_planes (planes * expansion block) stride)
                   (planes * expansion block))
    else None in
  let first :=
    {| blk_class := block; blk_in_planes := in_planes; blk_planes := planes;
       blk_stride := stride; blk_downsample := downsample |} in
  let in_planes := planes * expansion block in
  (* for i in range(1, blocks): layers.append(block(self.in_planes, planes)) *)
  let rest :=
    repeat {| blk_class := block; blk_in_planes := in_planes; blk_planes := planes;
              blk_stride := 1; blk_downsample := None |}
           (Z.to_nat (blocks - 1)) in
  (first :: rest, in_planes).

(** The keyword arguments of [ResNet.__init__]. *)
Record kwargs : Set := {
  n_input_channels : Z;
  conv1_t_size : Z;
  conv1_t_stride : Z;
  no_max_pool : bool;
  shortcut_type : string;
  widen_factor : float;
  n_classes : Z
}.

Definition default_kwargs : kwargs :=
  {| n_input_channels := 3;
     conv1_t_size := 7;
     conv1_t_stride := 1;
     no_max_pool := false;
     shortcut_type := "B";
     widen_factor := 1%float;
     n_classes := 400 |}.

Record ResNet : Set := {
  depth_in_name : Z;          (* f"ResNet_pLGG_Classifer_depth{model_depth}" *)
  in_planes : Z;
  net_no_max_pool : bool;
  conv1 : Conv3d;
  bn1 : Z;
  layer1 : list Block;
  layer2 : list Block;
  layer3 : list Block;
  layer4 : list Block;
  fc : Z * Z;                 (* nn.Linear(in_features, out_features) *)
  dropout : Q
}.

Definition stages (net : ResNet) : list (list Block) :=
  [layer1 net; layer2 net; layer3 net; layer4 net].

(** [int(x * widen_factor)] for an [int] width [x] and the [float]
    multiplier: the product is taken in binary64 arithmetic, then
    truncated. *)
Definition scaled (widen_factor : float) (x : Z) : result Z :=
  let* fx := py_float_of_int x in
  py_int_of_float (fx * widen_factor)%float.

(** The parameters of a layer are allocated by [torch.empty], which
    raises a runtime error on a negative size. *)
Definition torch_sizes (sizes : list Z) : result unit :=
  if existsb (fun size => size <? 0) sizes then Raise RuntimeError else Ok tt.

(** [nn.Dropout(p)] raises a value error unless 0 <= p <= 1. *)
Definition Dropout_init (p : Q) : result Q :=
  if Qle_bool 0 p && Qle_bool p 1 then Ok p else Raise ValueError.

(** [ResNet.__init__]; [dropout_rate] is the module-level variable the
    constructor reads. The layers are created in the order of the source;
    [_make_layer] above gives the blocks of a stage, and the sizes its
    convolutions and normalisations allocate (the incoming channels, the
    width and the width times the expansion) are checked before it. *)
Definition ResNet_init (block : block_class) (layers block_inplanes : list Z)
    (model_depth : Z) (kw : kwargs) (dropout_rate : Q) : result ResNet :=
  let* block_inplanes := comprehension (scaled (widen_factor kw)) block_inplanes in
  let* in_planes0 := py_index block_inplanes 0 in
  let* _ := torch_sizes [n_input_channels kw; in_planes0; conv1_t_size kw] in
  let conv1 :=
    {| in_channels := n_input_channels kw;
       out_channels := in_planes0;
       kernel_size := (conv1_t_size kw, 7, 7);
       conv_stride := (conv1_t_stride kw, 2, 2);
       padding := (conv1_t_size kw / 2, 3, 3) |} in
  let* p0 := py_index block_inplanes 0 in
  let* n0 := py_index layers 0 in
  let* _ := torch_sizes [in_planes0; p0] in
  let '(l1, in_planes1) := _make_layer in_planes0 block p0 n0 (shortcut_type kw) 1 in
  let* p1 := py_index block_inplanes 1 in
  let* n1 := py_index layers 1 in
  let* _ := torch_sizes [in_planes1; p1] in
  let '(l2, in_planes2) := _make_layer in_planes1 block p1 n1 (shortcut_type kw) 2 in
  let* p2 := py_index block_inplanes 2 in
  let* n2 := py_index layers 2 in
  let* _ := torch_sizes [in_planes2; p2] in
  let '(l3, in_planes3) := _make_layer in_planes2 block p2 n2 (shortcut_type kw) 2 in
  let* p3 := py_index block_inplanes 3 in
  let* n3 := py_index layers 3 in
  let* _ := torch_sizes [in_planes3; p3] in
  let '(l4, in_planes4) := _make_layer in_planes3 block p3 n3 (shortcut_type kw) 2 in
  let* p3' := py_index block_inplanes 3 in
  let* _ := torch_sizes [p3' * expansion block; n_classes kw] in
  let* dropout := Dropout_init dropout_rate in
  Ok {| depth_in_name := model_depth;
        in_planes := in_planes4;
        net_no_max_pool := no_max_pool kw;
        conv1 := conv1;
        bn1 := in_planes0;
        layer1 := l1; layer2 := l2; layer3 := l3; layer4 := l4;
        fc := (p3' * expansion block, n_classes kw);
        dropout := dropout |}.

Definition supported_depths : list Z := [10; 18; 34; 50; 101; 152; 200].

(** [generate_model]: [Ok None] stands for returning [model = None]. *)
Definition generate_model (model_depth : Z) (inplanes : list Z) (kw : kwargs)
    (dropout_rate : Q) : result (option ResNet) :=
  if negb (existsb (Z.eqb model_depth) supported_depths) then Raise AssertionError
  else if model_depth =? 10 then
    let* model := ResNet_init BasicBlock [1; 1; 1; 1] inplanes model_depth kw dropout_rate in
    Ok (Some model)
  else if model_depth =? 18 then
    let* model := ResNet_init BasicBlock [2; 2; 2; 2] inplanes model_depth kw dropout_rate in
    Ok (Some model)
  else if model_depth =? 34 then
    let* model := ResNet_init BasicBlock [3; 4; 6; 3] inplanes model_depth kw dropout_rate in
    Ok (Some model)
  else if model_depth =? 50 then
    let* model := ResNet_init Bottleneck [3; 4; 6; 3] inplanes model_depth kw dropout_rate in
    Ok (Some model)
  else if model_depth =? 101 then
    let* model := ResNet_init Bottleneck [3; 4; 23; 3] inplanes model_depth kw dropout_rate in
    Ok (Some model)
  else if model_depth =? 152 then
    let* model := ResNet_init Bottleneck [3; 8; 36; 3] inplanes model_depth kw dropout_rate in
    Ok (Some model)
  else if model_depth =? 200 then
    let* model := ResNet_init Bottleneck [3; 24; 36; 3] inplanes model_depth kw dropout_rate in
    Ok (Some model)
  else Ok None.

End Network.

(** ** Metrics and the evaluation routine ([evaluate]) *)

(** [a / b] on floats: [ZeroDivisionError] on a zero divisor. *)
Definition py_truediv (a b : Q) : result Q :=
  if Qeq_bool b 0 then Raise ZeroDivisionError else Ok (a / b)%Q.

Definition Qsum (xs : list Q) : Q := fold_right Qplus 0%Q xs.

Module Metrics.

(** The scores of the examples whose label is, or is not, the positive
    class. *)
Definition scores_where (keep : Z -> bool) (y_true : list Z) (y_score : list Q) : list Q :=
  List.map snd (List.filter (fun ls => keep (fst ls)) (combine y_true y_score)).

(** One positive against one negative: 1 when the positive is ranked
    higher, 1/2 on a tie. *)
Definition pair_credit (p n : Q) : Q :=
  if Qeq_bool p n then (1 # 2)%Q
  else if Qle_bool p n then 0%Q else 1%Q.

(** [np.unique(y_true)], up to order: the distinct labels. *)
Definition classes (y_true : list Z) : list Z := List.nodup Z.eq_dec y_true.

(** [sklearn.metrics.roc_auc_score(y_true, y_score)] on integer labels
    and one score per label. With exactly two distinct labels the larger
    one is the positive class, and the result is the area under the ROC
    curve, which is the share of (positive, negative) pairs ranked
    correctly. Otherwise it raises [ValueError]: on no label, on a single
    class (in the releases of the library that raise there; later ones
    warn and return NaN), on three classes or more (the multiclass case,
    which needs an averaging option the script does not pass), and when
    the two arguments differ in length. *)
Definition roc_auc_score (y_true : list Z) (y_score : list Q) : result Q :=
  if negb (length y_true =? length y_score)%nat then Raise ValueError
  else
    match classes y_true with
    | [a; b] =>
        let pos_label := Z.max a b in
        let pos := scores_where (Z.eqb pos_label) y_true y_score in
        let neg := scores_where (fun l => negb (pos_label =? l)) y_true y_score in
        Ok (Qsum (List.map (fun p => Qsum (List.map (pair_credit p) neg)) pos)
            / inject_Z (Z.of_nat (length pos) * Z.of_nat (length neg)))%Q
    | _ => Raise ValueError
    end.

End Metrics.

Module Evaluation.

Import Metrics.

(** A batch: the input tensor and the label tensor. Labels and outputs
    are tensors of shape (B, 1) -- the routine reads [labels.tolist()[i][0]]
    and [outputs.tolist()[i][0]] -- and are held as their single column. *)
Definition batch (X : Type) : Type := X * list Z.

(** [(outputs > 0.0).squeeze().long()]: squeezing drops the axis of size
    one, so this is a tensor of shape (B,) (a scalar when B = 1, which
    the comparison below treats alike). *)
Definition thresholded (outputs : list Q) : list Z :=
  List.map (fun o => if Qle_bool o 0 then 0 else 1) outputs.

(** [pred != labels] for [pred] of shape (B,) and [labels] of shape
    (B, 1): the operands are broadcast to shape (B, B); entry (j, k)
    compares prediction k with label j. *)
Definition ne_broadcast (pred labels : list Z) : list (list bool) :=
  List.map (fun l => List.map (fun p => negb (p =? l)) pred) labels.

(** [int(corr.sum())] *)
Definition tensor_sum (corr : list (list bool)) : Z :=
  Z.of_nat (length (List.filter id (concat corr))).

Record locals : Type := {
  total_err : Q;
  total_loss : Q;
  total_epoch : Z;
  true_ : list Z;
  estimated : list Q;
  i : option nat      (* the loop variable [i]; unbound until a loop sets it *)
}.

Definition initial : locals :=
  {| total_err := 0; total_loss := 0; total_epoch := 0;
     true_ := []; estimated := []; i := None |}.

(** One round of [for i in range(len(labels.tolist()))]. *)
Definition collect (labels : list Z) (outputs : list Q)
    (acc : result (list Z * list Q * option nat)) (i : nat)
  : result (list Z * list Q * option nat) :=
  let* st := acc in
  let* l := py_index labels i in
  let* o := py_index outputs i in
  Ok (fst (fst st) ++ [l], snd (fst st) ++ [o], Some i).

Section Evaluate.

Context {X : Type}.
Variable net : X -> list Q.
Variable criterion : list Q -> list Q -> result Q.

(** The body of [for inputs, labels in loader]. *)
Definition evaluate_batch (st : locals) (b : batch X) : result locals :=
  let '(inputs, labels) := b in
  let outputs := net inputs in
  let* loss := criterion outputs (List.map inject_Z labels) in
  let corr := ne_broadcast (thresholded outputs) labels in
  let total_err := (total_err st + inject_Z (tensor_sum corr))%Q in
  let total_loss := (total_loss st + loss)%Q in
  let total_epoch := total_epoch st + Z.of_nat (length labels) in
  let* collected :=
    fold_left (collect labels outputs) (seq 0 (length labels))
              (Ok (true_ st, estimated st, i st)) in
  Ok {| total_err := total_err; total_loss := total_loss; total_epoch := total_epoch;
        true_ := fst (fst collected); estimated := snd (fst collected);
        i := snd collected |}.

(** [for inputs, labels in loader]. *)
Definition batch_loop (loader : list (batch X)) : result locals :=
  fold_left (fun acc b => let* st := acc in evaluate_batch st b) loader (Ok initial).

Definition evaluate (loader : list (batch X)) : result (Q * Q * Q) :=
  let* st := batch_loop loader in
  let* auc := roc_auc_score (true_ st) (estimated st) in
  let* err := py_truediv (total_err st) (inject_Z (total_epoch st)) in
  let* i := match i st with
            | Some i => Ok i
            | None => Raise UnboundLocalError
            end in
  let* loss := py_truediv (total_loss st) (inject_Z (Z.of_nat i + 1)) in
  Ok (err, loss, auc).

End Evaluate.

(** Two quantities used to state what [evaluate] returns: the size of
    the last batch that holds an example, and the number of
    (prediction, label) pairs of a batch that differ. *)
Definition last_batch_size {X : Type} (loader : list (batch X)) : option nat :=
  fold_left (fun acc b => match length (snd b) with
                          | O => acc
                          | S _ => Some (length (snd b))
                          end) loader None.

Definition pair_mismatches {X : Type} (net : X -> list Q) (b : batch X) : Z :=
  tensor_sum (ne_broadcast (thresholded (net (fst b))) (snd b)).

(** The outputs the inner loop pairs with the labels of a batch: one per
    label, from the front. *)
Definition paired_outputs {X : Type} (net : X -> list Q) (b : batch X) : list Q :=
  firstn (length (snd b)) (net (fst b)).

(** A loader whose labels are all 0 or 1, as [create_label] gives
    them. *)
Definition binary_labels {X : Type} (loader : list (batch X)) : Prop :=
  Forall (fun b => Forall (fun l => l = 0 \/ l = 1) (snd b)) loader.

End Evaluation.

(** ** The training loop ([train_net]) and the end of a trial *)

Module Training.

Import Metrics Evaluation.

(** The eight values the trial loop unpacks from [train_net]'s result:
    epoch, train_err, train_loss, train_auc, val_err, val_loss, val_auc,
    test_auc. *)
Definition report : Type := Z * Q * Q * Q * Q * Q * Q * Q.

(** The locals an epoch leaves behind. *)
Record epoch_locals : Type := {
  train_loss : Q;
  val_loss : Q;
  val_auc : Q;
  train_auc : Q
}.

Section TrainNet.

(** [X] is a batch of inputs; [model] is everything the loop mutates: the
    network's parameters, the optimizer and the generators. *)
Context {X model : Type}.

(** [torch.randn_like(inputs) * 0.1] added to [inputs]. *)
Variable add_noise : model -> X -> X * model.
(** [net(inputs)], in training mode ([true]) or evaluation mode. *)
Variable forward : bool -> model -> X -> list Q.
(** [optimizer.zero_grad(); loss.backward(); optimizer.step()]. *)
Variable optimizer_step : model -> X -> list Z -> model.
Variable scheduler_step : model -> model.
Variable criterion : list Q -> list Q -> result Q.

(** Module-level variables the function reads: the two loaders (the
    batches each yields in a given epoch) and the scheduler switch. *)
Variable train_dataloader : nat -> list (batch X).
Variable validation_dataloader : nat -> list (batch X).
Variable use_scheduler : bool.

Record train_locals : Type := {
  tr_model : model;
  tr_loss : Q;
  tr_batches : Z;
  training_true : list Z;
  training_estimated : list Q;
  tr_i : option nat
}.

(** The body of [for inputs, label in train_dataloader]. *)
Definition train_batch (batch_size : Z) (st : train_locals) (b : batch X)
  : result train_locals :=
  let '(inputs, label) := b in
  let '(inputs, m) := add_noise (tr_model st) inputs in
  let output := forward true m inputs in
  let* loss := criterion output (List.map inject_Z label) in
  let m := optimizer_step m inputs label in
  let m := if use_scheduler then scheduler_step m else m in
  let* collected :=
    fold_left (collect label output) (seq 0 (length label))
              (Ok (training_true st, training_estimated st, tr_i st)) in
  Ok {| tr_model := m;
        tr_loss := (tr_loss st + loss * inject_Z batch_size)%Q;
        tr_batches := tr_batches st + 1;
        training_true := fst (fst collected);
        training_estimated := snd (fst collected);
        tr_i := snd collected |}.

Record val_locals : Type := {
  v_loss : Q;
  v_batches : Z;
  validation_true : list Z;
  validation_estimated : list Q;
  v_i : option nat
}.

(** The body of [for inputs, label in validation_dataloader]. *)
Definition validation_batch (m : model) (batch_size : Z) (st : val_locals) (b : batch X)
  : result val_locals :=
  let '(inputs, label) := b in
  let output := forward false m inputs in
  let* collected :=
    fold_left (collect label output) (seq 0 (length label))
              (Ok (validation_true st, validation_estimated st, v_i st)) in
  let* loss := criterion output (List.map inject_Z label) in
  Ok {| v_loss := (v_loss st + loss * inject_Z batch_size)%Q;
        v_batches := v_batches st + 1;
        validation_true := fst (fst collected);
        validation_estimated := snd (fst collected);
        v_i := snd collected |}.

(** The body of [for epoch in range(num_epochs)]. *)
Definition run_epoch (batch_size : Z) (m : model) (i0 : option nat) (epoch : nat)
  : result (model * option nat * epoch_locals) :=
  let* tr :=
    fold_left (fun acc b => let* st := acc in train_batch batch_size st b)
              (train_dataloader epoch)
              (Ok {| tr_model := m; tr_loss := 0; tr_batches := 0;
                     training_true := []; training_estimated := []; tr_i := i0 |}) in
  let* train_loss :=
    py_truediv (tr_loss tr) (inject_Z (tr_batches tr * batch_size)) in
  let* va :=
    fold_left (fun acc b => let* st := acc in
                            validation_batch (tr_model tr) batch_size st b)
              (validation_dataloader epoch)
              (Ok {| v_loss := 0; v_batches := 0;
                     validation_true := []; validation_estimated := [];
                     v_i := tr_i tr |}) in
  let* val_loss :=
    py_truediv (v_loss va) (inject_Z (v_batches va * batch_size)) in
  let* val_auc := roc_auc_score (validation_true va) (validation_estimated va) in
  let* train_auc := roc_auc_score (training_true tr) (training_estimated tr) in
  Ok (tr_model tr, v_i va,
      {| train_loss := train_loss; val_loss := val_loss;
         val_auc := val_auc; train_auc := train_auc |}).

(** The epoch loop: the model, the loop variable [i] and the locals of
    the last epoch run (none before the first). *)
Definition run_epochs (batch_size : Z) (m : model) (num_epochs : nat)
  : result (model * option nat * option epoch_locals) :=
  fold_left (fun acc epoch =>
               let* st := acc in
               let* r := run_epoch batch_size (fst (fst st)) (snd (fst st)) epoch in
               Ok (fst r, Some (snd r)))
            (seq 0 num_epochs) (Ok (m, None, None)).

(** [train_net]: the mutated model and the value the call returns. The
    body ends after the epoch loop without a [return] statement, so the
    call returns [None]. [np.zeros(num_epochs)] on the first line raises
    [ValueError] for a negative size. *)
Definition train_net (m : model) (batch_size num_epochs : Z)
  : result (model * option report) :=
  if num_epochs <? 0 then Raise ValueError
  else
    let* st := run_epochs batch_size m (Z.to_nat num_epochs) in
    Ok (fst (fst st), None).

(** [a, b, c, d, e, f, g, h = value]: [None] cannot be unpacked. *)
Definition unpack8 (value : option report) : result report :=
  match value with
  | Some r => Ok r
  | None => Raise TypeError
  end.

(** Lines 649-673 of the trial loop: initialise the trackers, call
    [train_net], unpack its result and print it. The result is the tuple
    of values the [print] statement formats. *)
Definition train_and_report (m : model) (batch_size num_epochs : Z) : result report :=
  let lowest_val_loss_epoch := 0 in
  let best_training_auc : option Q := None in
  let best_val_auc : option Q := None in
  let best_test_auc : option Q := None in
  let* r := train_net m batch_size num_epochs in
  let* (epoch, train_err, train_loss, train_auc, val_err, val_loss, val_auc, test_auc) :=
    unpack8 (snd r) in
  Ok (epoch, train_err, train_loss, train_auc, val_err, val_loss, val_auc, test_auc).

(** What one pass of the training loop's body does to the model: the
    noise is drawn, the optimizer steps, and the scheduler steps when it
    is switched on. *)
Definition step_on_batch (m : model) (b : batch X) : model :=
  let '(inputs, label) := b in
  let '(inputs, m) := add_noise m inputs in
  let m := optimizer_step m inputs label in
  if use_scheduler then scheduler_step m else m.

End TrainNet.

End Training.

(** ** Seeding ([random_seed]) and the start of each trial *)

Module Seeding.

(** A pseudo-random generator is determined by the seed it was last
    given and the number of values drawn from it since. *)
Record generator : Set := {
  seed_of : Z;
  draws : nat
}.

Definition seeded (seed_value : Z) : generator :=
  {| seed_of := seed_value; draws := 0 |}.

Record generators : Set := {
  np_random : generator;      (* numpy *)
  torch_default : generator;  (* torch, CPU *)
  py_random : generator;      (* the random module *)
  torch_cuda : generator;     (* the accelerator *)
  deterministic_algorithms : bool;
  cudnn_benchmark : bool
}.

Definition random_seed (seed_value : Z) (use_cuda : bool) (g : generators) : generators :=
  let g := {| np_random := seeded seed_value;
              torch_default := seeded seed_value;
              py_random := seeded seed_value;
              torch_cuda := torch_cuda g;
              deterministic_algorithms := deterministic_algorithms g;
              cudnn_benchmark := cudnn_benchmark g |} in
  if use_cuda
  then {| np_random := np_random g;
          torch_default := torch_default g;
          py_random := py_random g;
          torch_cuda := seeded seed_value;
          deterministic_algorithms := true;
          cudnn_benchmark := false |}
  else g.

(** What one trial did with the generators before the dataset split. *)
Record trial_seeding : Set := {
  seeded_with : Z;            (* the argument of [random_seed] *)
  next_seed : Z;              (* the integer drawn afterwards *)
  seed_variable : Z;          (* [seed] when the split is made *)
  at_split : generators       (* the generators when the split is made *)
}.

Section Trials.

(** [random.randint(0, 1000)] as a function of the generator's state. *)
Variable randint_0_1000 : generator -> Z.
(** The rest of a trial (split, training, reporting) as it leaves the
    generators. *)
Variable rest_of_trial : generators -> generators.

(** Lines 618-622: the start of one iteration of the trial loop. *)
Definition seed_trial (g : generators) : trial_seeding :=
  let seed := 1 in
  let g := random_seed seed true g in
  let next_seed := randint_0_1000 (py_random g) in
  let g := {| np_random := np_random g;
              torch_default := torch_default g;
              py_random := {| seed_of := seed_of (py_random g);
                              draws := S (draws (py_random g)) |};
              torch_cuda := torch_cuda g;
              deterministic_algorithms := deterministic_algorithms g;
              cudnn_benchmark := cudnn_benchmark g |} in
  let seed' := next_seed in
  {| seeded_with := seed; next_seed := next_seed; seed_variable := seed'; at_split := g |}.

(** [for t in range(num_trials)]: the seeding record of every trial. *)
Fixpoint trials (num_trials : nat) (g : generators) : list trial_seeding :=
  match num_trials with
  | O => []
  | S n =>
      let s := seed_trial g in
      s :: trials n (rest_of_trial (at_split s))
  end.

End Trials.

(** The generators after [random_seed(1, True)] on line 538. *)
Definition at_startup : generators :=
  random_seed 1 true
    {| np_random := seeded 0; torch_default := seeded 0; py_random := seeded 0;
       torch_cuda := seeded 0; deterministic_algorithms := false;
       cudnn_benchmark := true |}.

End Seeding.

(** ** The dataset split of a trial *)

Module Split.

Definition train_size (len_dataset : Z) : Z :=
  py_int ((6 # 10) * inject_Z len_dataset).

Definition validation_size (len_dataset : Z) : Z :=
  py_int ((2 # 10) * inject_Z len_dataset).

Definition test_size (len_dataset : Z) : Z :=
  len_dataset - train_size len_dataset - validation_size len_dataset.

(** [xs[a:b]]: a negative bound counts from the end, and both bounds are
    clamped to the list. *)
Definition py_slice {A : Type} (xs : list A) (a b : Z) : list A :=
  let n := Z.of_nat (length xs) in
  let clamp i := if i <? 0 then Z.max 0 (i + n) else Z.min i n in
  firstn (Z.to_nat (clamp b - clamp a)) (skipn (Z.to_nat (clamp a)) xs).

(** [itertools.accumulate(lengths)]: the running sums. *)
Fixpoint accumulate_from (start : Z) (lengths : list Z) : list Z :=
  match lengths with
  | [] => []
  | l :: rest => (start + l) :: accumulate_from (start + l) rest
  end.

Definition sum_lengths (lengths : list Z) : Z := fold_right Z.add 0 lengths.

(** [torch.utils.data.random_split(dataset, lengths)]. A subset is the
    list of dataset positions it holds; [randperm n] is the permutation of
    [range(n)] the generator produces. *)
Definition random_split (len_dataset : Z) (lengths : list Z) (randperm : nat -> list nat)
  : result (list (list nat)) :=
  if negb (sum_lengths lengths =? len_dataset) then Raise ValueError
  else
    let indices := randperm (Z.to_nat (sum_lengths lengths)) in
    Ok (List.map (fun ol => py_slice indices (fst ol - snd ol) (fst ol))
                 (combine (accumulate_from 0 lengths) lengths)).

(** Lines 624-630: build the dataset and split it three ways. *)
Definition split_dataset {obj : Type} (images : gmap Z (CNNDataset.entry obj))
    (patients_used : list Z) (randperm : nat -> list nat)
  : result (list nat * list nat * list nat) :=
  let dataset := CNNDataset.__init__ images patients_used in
  let train_size := train_size (CNNDataset.__len__ dataset) in
  let validation_size := validation_size (CNNDataset.__len__ dataset) in
  let test_size := CNNDataset.__len__ dataset - train_size - validation_size in
  let* parts := random_split (CNNDataset.__len__ dataset)
                             [train_size; validation_size; test_size] randperm in
  match parts with
  | [train_dataset; validation_dataset; test_dataset] =>
      Ok (train_dataset, validation_dataset, test_dataset)
  | _ => Raise ValueError
  end.

(** The patients at the positions of a subset. *)
Definition patients_at (patients_used : list Z) (subset : list nat) : list Z :=
  omap (fun k => nth_error patients_used k) subset.

(** The same sizes computed in binary64 arithmetic, as the interpreter
    does: [int(0.6 * n)] and [int(0.2 * n)] with the doubles nearest to
    0.6 and 0.2. *)
Definition float_to_int (f : float) : Z :=
  match Prim2SF f with
  | SpecFloat.S754_finite s m e =>
      let magnitude := if 0 <=? e then Z.pos m * 2 ^ e else Z.pos m / 2 ^ (- e) in
      if s then - magnitude else magnitude
  | _ => 0
  end.

Definition train_size_binary64 (len_dataset : Z) : Z :=
  float_to_int (0x1.3333333333333p-1 * PrimFloat.of_uint63 (Uint63.of_Z len_dataset))%float.

Definition validation_size_binary64 (len_dataset : Z) : Z :=
  float_to_int (0x1.999999999999ap-3 * PrimFloat.of_uint63 (Uint63.of_Z len_dataset))%float.

End Split.

(** ** Tables of the specification

    These definitions follow the words of the specification, not the
    code; the properties below compare the code against them. *)

Module Spec.

(** Section 4.2: the fixed per-depth block counts per stage. *)
Definition depth_table : list (Z * list nat) :=
  [(10, [1; 1; 1; 1]%nat);
   (18, [2; 2; 2; 2]%nat);
   (34, [3; 4; 6; 3]%nat);
   (50, [3; 4; 6; 3]%nat);
   (101, [3; 4; 23; 3]%nat);
   (152, [3; 8; 36; 3]%nat);
   (200, [3; 24; 36; 3]%nat)].

(** Section 4.2: basic for depth <= 34, bottleneck otherwise. *)
Definition block_kind (depth : Z) : Network.block_class :=
  if depth <=? 34 then Network.BasicBlock else Network.Bottleneck.

(** Section 4.1: the basic block has two convolutions, the bottleneck
    block three. *)
Definition convolutions (kind : Network.block_class) : nat :=
  match kind with
  | Network.BasicBlock => 2
  | Network.Bottleneck => 3
  end.

(** Section 4.2: stride 1 for stage 1 and stride 2 for stages 2-4
    (stages are numbered from 0 here). *)
Definition stage_stride (stage : nat) : Z :=
  match stage with
  | O => 1
  | S _ => 2
  end.

(** Section 4.2: the base width times the width multiplier, rounded down
    to an integer. *)
Definition stage_width (base_width : Z) (width_multiplier : Q) : Z :=
  Qfloor (inject_Z base_width * width_multiplier).

(** The per-batch loss values of a pass over [loader]. *)
Definition batch_losses {X : Type} (net : X -> list Q)
    (criterion : list Q -> list Q -> result Q) (loader : list (Evaluation.batch X))
  : list (result Q) :=
  List.map (fun b => criterion (net (fst b)) (List.map inject_Z (snd b))) loader.

(** Section 4.5: the sum of the per-batch losses divided by the number of
    batches. *)
Definition mean_loss (batch_losses : list Q) : Q :=
  (Qsum batch_losses / inject_Z (Z.of_nat (length batch_losses)))%Q.

(** The fraction of examples whose label is 0. *)
Definition fraction_of_zero_labels (labels : list Z) : Q :=
  (inject_Z (Z.of_nat (length (List.filter (Z.eqb 0) labels)))
   / inject_Z (Z.of_nat (length labels)))%Q.

End Spec.

(** ** Concrete inputs *)

Module Examples.

(** A batch of inputs is represented by the number of examples in it. *)
Definition inputs : Type := nat.

(** A network whose head gives logit 0, hence output sigmoid(0) = 1/2,
    on every example. *)
Definition half_net (batch : inputs) : list Q := repeat (1 # 2)%Q batch.

(** [nn.L1Loss()]: the mean absolute difference over a batch. *)
Definition l1_loss (outputs targets : list Q) : result Q :=
  if negb (length outputs =? length targets)%nat then Raise ValueError
  else
    py_truediv (Qsum (zip_with (fun o t => Qabs (o - t)) outputs targets))
               (inject_Z (Z.of_nat (length outputs))).

(** Five examples in batches of two: the last batch holds one. *)
Definition loader_2_2_1 : list (Evaluation.batch inputs) :=
  [(2%nat, [0; 1]); (2%nat, [1; 1]); (1%nat, [0])].

(** One batch of two examples, one of each class. *)
Definition loader_2 : list (Evaluation.batch inputs) :=
  [(2%nat, [0; 1])].

(** A training run on [half_net]: noise, the optimizer and the scheduler
    leave the (trivial) model as it is. *)
Definition train_net :=
  Training.train_net (X := inputs) (model := unit)
    (fun m x => (x, m)) (fun _ _ x => half_net x) (fun m _ _ => m) (fun m => m)
    l1_loss (fun _ => loader_2) (fun _ => loader_2) false.

Definition train_and_report :=
  Training.train_and_report (X := inputs) (model := unit)
    (fun m x => (x, m)) (fun _ _ x => half_net x) (fun m _ _ => m) (fun m => m)
    l1_loss (fun _ => loader_2) (fun _ => loader_2) false.

(** The default keyword arguments with another width multiplier. *)
Definition widened (widen_factor : float) : Network.kwargs :=
  {| Network.n_input_channels := 3;
     Network.conv1_t_size := 7;
     Network.conv1_t_stride := 1;
     Network.no_max_pool := false;
     Network.shortcut_type := "B";
     Network.widen_factor := widen_factor;
     Network.n_classes := 400 |}.

(** The binary64 numbers nearest to 0.03 and to 0.57. *)
Definition three_hundredths : float := 0x1.eb851eb851eb8p-6%float.
Definition fifty_seven_hundredths : float := 0x1.23d70a3d70a3dp-1%float.

(** Two 1 x 1 x 2 volumes, the two files found for patient 1. *)
Definition channel_a : Prepare.volume := [[[2; 3]]]%Q.
Definition channel_b : Prepare.volume := [[[5; 7]]]%Q.
Definition tree : list (Z * list Prepare.volume) := [(1, [channel_a; channel_b])].

End Examples.

(** ** The forward passes, on tensor shapes

    A tensor is represented by its shape (the list of its sizes), which is
    what decides whether a layer accepts it and how the layers of a block
    fit together. A layer that raises gives [None]. *)

Module Forward.

Import Network.

Definition shape : Type := list Z.

Definition obind {A B : Type} (o : option A) (k : A -> option B) : option B :=
  match o with
  | Some a => k a
  | None => None
  end.

Notation "'let?' x ':=' c 'in' k" := (obind c (fun x => k))
  (at level 10, x pattern, c at level 100, k at level 200).

(** The length a sliding window (convolution or pooling) leaves of an
    axis of length [n], for kernel [k], stride [s] and padding [p]:
    floor((n + 2p - k) / s) + 1. The layer raises when the stride or the
    kernel is not positive or the padded axis is shorter than the
    kernel. *)
Definition window (n k s p : Z) : option Z :=
  if (0 <? s) && (0 <? k) && (k <=? n + 2 * p)
  then Some ((n + 2 * p - k) / s + 1)
  else None.

(** What a window of width 3 and padding 1, or of width 1 without
    padding, leaves of an axis of length [n] at stride [s]: the number of
    positions 0, s, 2s, ... below [n]. *)
Definition strided (s n : Z) : Z := (n - 1) / s + 1.

(** A batch size batch normalisation accepts whatever the other sizes
    are: any in evaluation mode, two or more in training mode. *)
Definition batch_accepted (training : bool) (n : Z) : Prop :=
  1 <= n /\ (training = true -> 2 <= n).

Definition windows (spatial : Z * Z * Z) (k s p : Z * Z * Z) : option (list Z) :=
  let '(d, h, w) := spatial in
  let '(kd, kh, kw) := k in
  let '(sd, sh, sw) := s in
  let '(pd, ph, pw) := p in
  let? d' := window d kd sd pd in
  let? h' := window h kh sh ph in
  let? w' := window w kw sw pw in
  Some [d'; h'; w'].

(** [nn.Conv3d] applied to a batched (5-D) or unbatched (4-D) input: the
    channel axis must hold [in_channels]. *)
Definition conv3d (c : Conv3d) (x : shape) : option shape :=
  match x with
  | [n; ch; d; h; w] =>
      if ch =? in_channels c
      then let? out := windows (d, h, w) (kernel_size c) (conv_stride c) (padding c) in
           Some (n :: out_channels c :: out)
      else None
  | [ch; d; h; w] =>
      if ch =? in_channels c
      then let? out := windows (d, h, w) (kernel_size c) (conv_stride c) (padding c) in
           Some (out_channels c :: out)
      else None
  | _ => None
  end.

(** [nn.BatchNorm3d(num_features)]: the input must be 5-D with
    [num_features] channels; in training mode it must hold more than one
    value per channel. *)
Definition batch_norm3d (training : bool) (num_features : Z) (x : shape) : option shape :=
  match x with
  | [n; ch; d; h; w] =>
      if negb (ch =? num_features) then None
      else if training && (n * (d * h * w) =? 1) then None
      else Some x
  | _ => None
  end.

(** [nn.MaxPool3d(kernel_size=3, stride=2, padding=1)] and
    [F.avg_pool3d(x, kernel_size=1, stride=stride)]. *)
Definition pool3d (k s p : Z) (x : shape) : option shape :=
  match x with
  | [n; ch; d; h; w] =>
      let? out := windows (d, h, w) (k, k, k) (s, s, s) (p, p, p) in
      Some (n :: ch :: out)
  | [ch; d; h; w] =>
      let? out := windows (d, h, w) (k, k, k) (s, s, s) (p, p, p) in
      Some (ch :: out)
  | _ => None
  end.

(** [out += residual]: the in-place sum keeps the shape of [out], and
    [residual] must broadcast to it: with the axes aligned at the end,
    each axis of [residual] is as long as that of [out] or has length 1. *)
Fixpoint broadcasts_rev (residual out : list Z) : bool :=
  match residual, out with
  | [], _ => true
  | _ :: _, [] => false
  | r :: residual', o :: out' => ((r =? o) || (r =? 1)) && broadcasts_rev residual' out'
  end.

Definition iadd (out residual : shape) : option shape :=
  if broadcasts_rev (rev residual) (rev out) then Some out else None.

(** [ResNet._downsample_basic_block(x, planes, stride)]: average pooling
    with a window of one, then zero channels appended up to [planes];
    [torch.zeros] raises on a negative size, and [out.size(4)] on an
    input that is not 5-D. *)
Definition _downsample_basic_block (x : shape) (planes stride : Z) : option shape :=
  let? out := pool3d 1 stride 0 x in
  match out with
  | [n; ch; d; h; w] =>
      if planes - ch <? 0 then None else Some [n; ch + (planes - ch); d; h; w]
  | _ => None
  end.

(** A shortcut applied to the block's input. *)
Definition apply_shortcut (training : bool) (sc : shortcut) (x : shape) : option shape :=
  match sc with
  | PartialDownsampleBasicBlock planes stride => _downsample_basic_block x planes stride
  | SequentialProjection conv bn =>
      let? out := conv3d conv x in
      batch_norm3d training bn out
  end.

(** [BasicBlock.forward] and [Bottleneck.forward]; ReLU keeps the
    shape. *)
Definition block_forward (training : bool) (b : Block) (x : shape) : option shape :=
  let residual := x in
  match blk_class b with
  | BasicBlock =>
      let? out := conv3d (conv3x3x3 (blk_in_planes b) (blk_planes b) (blk_stride b)) x in
      let? out := batch_norm3d training (blk_planes b) out in
      let? out := conv3d (conv3x3x3 (blk_planes b) (blk_planes b) 1) out in
      let? out := batch_norm3d training (blk_planes b) out in
      let? residual := match blk_downsample b with
                       | Some sc => apply_shortcut training sc x
                       | None => Some residual
                       end in
      iadd out residual
  | Bottleneck =>
      let? out := conv3d (conv1x1x1 (blk_in_planes b) (blk_planes b) 1) x in
      let? out := batch_norm3d training (blk_planes b) out in
      let? out := conv3d (conv3x3x3 (blk_planes b) (blk_planes b) (blk_stride b)) out in
      let? out := batch_norm3d training (blk_planes b) out in
      let? out := conv3d (conv1x1x1 (blk_planes b)
                                    (blk_planes b * expansion Bottleneck) 1) out in
      let? out := batch_norm3d training (blk_planes b * expansion Bottleneck) out in
      let? residual := match blk_downsample b with
                       | Some sc => apply_shortcut training sc x
                       | None => Some residual
                       end in
      iadd out residual
  end.

(** [nn.Sequential] over the blocks of a stage. *)
Definition sequential (training : bool) (layers : list Block) (x : shape) : option shape :=
  fold_left (fun acc b => let? y := acc in block_forward training b y) layers (Some x).

(** [nn.AdaptiveAvgPool3d((1, 1, 1))]: every axis but the first must
    be non-empty. *)
Definition adaptive_avg_pool3d (x : shape) : option shape :=
  match x with
  | [n; ch; d; h; w] =>
      if (0 <? ch) && (0 <? d) && (0 <? h) && (0 <? w)
      then Some [n; ch; 1; 1; 1] else None
  | [ch; d; h; w] =>
      if (0 <? d) && (0 <? h) && (0 <? w) then Some [ch; 1; 1; 1] else None
  | _ => None
  end.

(** [x.view(x.size(0), -1)]: the remaining sizes are multiplied; the
    size [-1] cannot be inferred for a tensor without elements. *)
Definition view_rows (x : shape) : option shape :=
  match x with
  | [] => None
  | n :: rest =>
      if (n =? 0) || (fold_right Z.mul 1 rest =? 0) then None
      else Some [n; fold_right Z.mul 1 rest]
  end.

(** [nn.Linear(in_features, out_features)] on the last axis. *)
Definition linear (fc : Z * Z) (x : shape) : option shape :=
  match rev x with
  | last :: front => if last =? fst fc then Some (rev (snd fc :: front)) else None
  | [] => None
  end.

(** [ResNet.forward]; dropout, ReLU and the sigmoid keep the shape. *)
Definition forward (training : bool) (net : ResNet) (x : shape) : option shape :=
  let? x := conv3d (conv1 net) x in
  let? x := batch_norm3d training (bn1 net) x in
  let? x := if net_no_max_pool net then Some x else pool3d 3 2 1 x in
  let? x := sequential training (layer1 net) x in
  let? x := sequential training (layer2 net) x in
  let? x := sequential training (layer3 net) x in
  let? x := sequential training (layer4 net) x in
  let? x := adaptive_avg_pool3d x in
  let? x := view_rows x in
  linear (fc net) x.

(** Line 636 of the script: the keyword arguments of the trial's call
    [generate_model(model_depth=18, inplanes=inplanes, n_classes=1039)]. *)
Definition trial_kwargs : kwargs :=
  {| n_input_channels := n_input_channels default_kwargs;
     conv1_t_size := conv1_t_size default_kwargs;
     conv1_t_stride := conv1_t_stride default_kwargs;
     no_max_pool := no_max_pool default_kwargs;
     shortcut_type := shortcut_type default_kwargs;
     widen_factor := widen_factor default_kwargs;
     n_classes := 1039 |}.

(** Lines 638-639 of the script: the first convolution and the
    classifier of the network are replaced. *)
Definition replace_conv1_and_fc (net : ResNet) : ResNet :=
  {| depth_in_name := depth_in_name net;
     in_planes := in_planes net;
     net_no_max_pool := net_no_max_pool net;
     conv1 := {| in_channels := 1; out_channels := 64;
                 kernel_size := (7, 7, 7);
                 conv_stride := (1, 2, 2);
                 padding := (3, 3, 3) |};
     bn1 := bn1 net;
     layer1 := layer1 net; layer2 := layer2 net;
     layer3 := layer3 net; layer4 := layer4 net;
     fc := (512, 1);
     dropout := dropout net |}.

End Forward.

(** ** Wiring of a network *)

Module Wiring.

Import Network.

(** The channels a block produces. *)
Definition produced (b : Block) : Z := blk_planes b * expansion (blk_class b).

(** A run of blocks is chained from [c] channels when each block expects
    the channels that reach it: [c] for the first, and what the block
    before produces for the others. *)
Fixpoint chained (c : Z) (blocks : list Block) : Prop :=
  match blocks with
  | [] => True
  | b :: rest => blk_in_planes b = c /\ chained (produced b) rest
  end.

(** The channels at the end of a run of blocks entered with [c]. *)
Definition channels_after (c : Z) (blocks : list Block) : Z :=
  fold_left (fun _ b => produced b) blocks c.

Definition all_blocks (net : ResNet) : list Block :=
  layer1 net ++ layer2 net ++ layer3 net ++ layer4 net.

(** Arguments every layer constructor [ResNet.__init__] calls accepts:
    positive channel counts (the input channels and the widths it uses,
    after the widening, which must give an integer for every width of the
    list), a positive temporal kernel size and stride for the first
    convolution, a positive number of classes and a dropout
    probability. *)
Definition constructible (kw : kwargs) (block_inplanes : list Z) (dropout_rate : Q)
  : Prop :=
  1 <= n_input_channels kw
  /\ 1 <= conv1_t_size kw
  /\ 1 <= conv1_t_stride kw
  /\ 1 <= n_classes kw
  /\ (exists widths,
        comprehension (scaled (widen_factor kw)) block_inplanes = Ok widths
        /\ Forall (fun width => 1 <= width) (firstn 4 widths))
  /\ (0 <= dropout_rate <= 1)%Q.

End Wiring.

(** * Properties *)

(** ** Label derivation *)

Lemma labelled_rows_label (df_data : list Labels.row) (exclusions : list Z)
    (r : Labels.row) (l : Z) :
  In (r, l) (Labels.labelled_rows df_data exclusions) ->
  Labels.create_label (Labels.braf_v600e_final r) (Labels.braf_fusion_final r) = Some l.
Proof.
  unfold Labels.labelled_rows.
  rewrite in_flat_map. intros [[r' o] [Hin Hout]].
  apply in_map_iff in Hin. destruct Hin as [r0 [Heq _]].
  inversion Heq; subst r' o; clear Heq.
  simpl in Hout.
  destruct (Labels.create_label _ _) as [l'|] eqn:E; simpl in Hout.
  - destruct Hout as [Hout|[]]. inversion Hout; subst. exact E.
  - destruct Hout.
Qed.

Lemma labelled_rows_complete (df_data : list Labels.row) (exclusions : list Z)
    (r : Labels.row) (l : Z) :
  In r df_data ->
  Labels.isnan (Labels.code r) = false ->
  Labels.isin (Labels.code r) exclusions = false ->
  Labels.create_label (Labels.braf_v600e_final r) (Labels.braf_fusion_final r) = Some l ->
  In (r, l) (Labels.labelled_rows df_data exclusions).
Proof.
  intros Hin Hnan Hex Hl. unfold Labels.labelled_rows.
  apply in_flat_map.
  exists (r, Some l). split.
  - apply in_map_iff. exists r. rewrite Hl. split; [reflexivity|].
    apply filter_In. split.
    + apply filter_In. split; [exact Hin|]. now rewrite Hnan.
    + now rewrite Hex.
  - simpl. now left.
Qed.

Lemma dict_of_pairs_lookup {V : Type} (kvs : list (Z * V)) (k : Z) (v : V) :
  Labels.dict_of_pairs kvs !! k = Some v -> In (k, v) kvs.
Proof.
  unfold Labels.dict_of_pairs.
  assert (G : forall (d : gmap Z V),
             fold_left (fun d kv => <[fst kv := snd kv]> d) kvs d !! k = Some v ->
             d !! k = Some v \/ In (k, v) kvs).
  { induction kvs as [|[k' v'] kvs IH]; intros d H; simpl in *.
    - now left.
    - destruct (IH _ H) as [H'|H'].
      + destruct (decide (k' = k)) as [->|Hne].
        * rewrite lookup_insert_eq in H'. inversion H'; subst. right; now left.
        * rewrite lookup_insert_ne in H' by exact Hne. now left.
      + right; now right. }
  intros H. destruct (G ∅ H) as [H'|H']; [|exact H'].
  rewrite lookup_empty in H'. discriminate.
Qed.

(** C7. Label derivation from the two indicator fields: mutation = 1
    gives label 1 whatever the fusion field holds (so also when fusion = 1);
    mutation = 0 with fusion = 1 gives label 0; mutation = 0 with
    fusion = 0 gives no label. [process_excel] keeps a row exactly when
    its code is present, not excluded, and its label is defined, so a row
    with mutation = 0 and fusion = 0 is dropped, and every entry of the
    returned label mapping is the label of a kept row. *)
Theorem create_label_table :
  (forall fusion, Labels.create_label (Labels.Num 1) fusion = Some 1)
  /\ Labels.create_label (Labels.Num 0) (Labels.Num 1) = Some 0
  /\ Labels.create_label (Labels.Num 0) (Labels.Num 0) = None
  /\ (forall df_data exclusions r l,
        In (r, l) (Labels.labelled_rows df_data exclusions) <->
        (In r df_data /\ Labels.isnan (Labels.code r) = false
         /\ Labels.isin (Labels.code r) exclusions = false
         /\ Labels.create_label (Labels.braf_v600e_final r)
                                (Labels.braf_fusion_final r) = Some l))
  /\ (forall df_data exclusions r l,
        Labels.braf_v600e_final r = Labels.Num 0 ->
        Labels.braf_fusion_final r = Labels.Num 0 ->
        ~ In (r, l) (Labels.labelled_rows df_data exclusions))
  /\ (forall df_data exclusions c l,
        snd (Labels.process_excel df_data exclusions) !! c = Some l ->
        exists r, In (r, l) (Labels.labelled_rows df_data exclusions)
                  /\ Labels.int_of_cell (Labels.code r) = c).
Proof.
  split; [reflexivity|]. split; [reflexivity|]. split; [reflexivity|].
  split; [|split].
  - intros df_data exclusions r l. split.
    + intros H. pose proof (labelled_rows_label _ _ _ _ H) as Hl.
      unfold Labels.labelled_rows in H.
      apply in_flat_map in H. destruct H as [[r' o] [Hin Hout]].
      apply in_map_iff in Hin. destruct Hin as [r0 [Heq Hf]].
      inversion Heq; subst r' o; clear Heq. simpl in Hout.
      destruct (Labels.create_label _ _); simpl in Hout; [|destruct Hout].
      destruct Hout as [Hout|[]]. inversion Hout; subst r0.
      apply filter_In in Hf. destruct Hf as [Hf Hex].
      apply filter_In in Hf. destruct Hf as [Hf Hnan].
      repeat split; try assumption.
      * now destruct (Labels.isnan (Labels.code r)).
      * now destruct (Labels.isin (Labels.code r) exclusions).
    + intros (Hin & Hnan & Hex & Hl). now apply labelled_rows_complete.
  - intros df_data exclusions r l Hm Hf H.
    apply labelled_rows_label in H. rewrite Hm, Hf in H. discriminate.
  - intros df_data exclusions c l H. simpl in H.
    apply dict_of_pairs_lookup in H.
    set (kept := Labels.labelled_rows df_data exclusions) in *.
    clearbody kept.
    induction kept as [|[r0 l0] kept IH]; simpl in H; [destruct H|].
    destruct H as [H|H].
    + inversion H; subst. exists r0. split; [now left|reflexivity].
    + destruct (IH H) as [r [Hr Hc]]. exists r. split; [now right|exact Hc].
Qed.

(** A table with the four indicator combinations, a missing code and an
    excluded patient: patient 3 (mutation = 0, fusion = 0) is dropped,
    patient 4 (both set) is kept with label 1, and the label mapping holds
    patient 2 with label 0. *)
Lemma create_label_table_witness :
  let mk c m f := {| Labels.code := c; Labels.braf_v600e_final := Labels.Num m;
                     Labels.braf_fusion_final := Labels.Num f; Labels.features := [] |} in
  let df := [mk (Labels.Num 1) 1 0; mk (Labels.Num 2) 0 1; mk (Labels.Num 3) 0 0;
             mk (Labels.Num 4) 1 1; mk Labels.NaN 1 0; mk (Labels.Num 9) 1 0] in
  ~ In (mk (Labels.Num 3) 0 0, 0) (Labels.labelled_rows df [9])
  /\ In (mk (Labels.Num 4) 1 1, 1) (Labels.labelled_rows df [9])
  /\ (snd (Labels.process_excel df [9]) !! 2 = Some 0
      /\ exists r, In (r, 0) (Labels.labelled_rows df [9])
                   /\ Labels.int_of_cell (Labels.code r) = 2).
Proof.
  intros mk df.
  destruct create_label_table as (_ & _ & _ & Hkept & Hdropped & Hmapping).
  split; [apply (Hdropped df [9] (mk (Labels.Num 3) 0 0) 0); reflexivity|].
  split.
  - apply (Hkept df [9] (mk (Labels.Num 4) 1 1) 1).
    repeat split; try reflexivity. vm_compute. tauto.
  - assert (H2 : snd (Labels.process_excel df [9]) !! 2 = Some 0)
      by (vm_compute; reflexivity).
    split; [exact H2|]. exact (Hmapping df [9] 2 0 H2).
Defined.

(** The whole label mapping of that table. *)
Example process_excel_example :
  let mk c m f := {| Labels.code := c; Labels.braf_v600e_final := Labels.Num m;
                     Labels.braf_fusion_final := Labels.Num f; Labels.features := [] |} in
  let df := [mk (Labels.Num 1) 1 0; mk (Labels.Num 2) 0 1; mk (Labels.Num 3) 0 0;
             mk (Labels.Num 4) 1 1; mk Labels.NaN 1 0; mk (Labels.Num 9) 1 0] in
  List.map (fun c => (c, snd (Labels.process_excel df [9]) !! c)) [1; 2; 3; 4; 9]
  = [(1, Some 1); (2, Some 0); (3, None); (4, Some 1); (9, None)].
Proof. vm_compute. reflexivity. Qed.

(** ** The dataset adapter *)

Lemma py_list_getitem_nat {A : Type} (xs : list A) (i : nat) (x : A) :
  nth_error xs i = Some x ->
  py_list_getitem xs (Z.of_nat i) = Ok x.
Proof.
  intros H. unfold py_list_getitem.
  destruct (Z.ltb_spec (Z.of_nat i) 0) as [Hneg|_]; [lia|].
  rewrite Nat2Z.id. unfold py_index. now rewrite H.
Qed.

(** C10. The adapter built from a data mapping and an ordered list of
    patient ids has length equal to the number of ids; indexed access at
    position [i] returns the (input, label) pair stored for the patient at
    list position [i], exactly as stored, whenever the lookups succeed;
    and it raises a key error when the id at that position is absent from
    the data mapping. *)
Theorem CNNDataset_contract (obj : Type) (data : gmap Z (CNNDataset.entry obj))
    (patient_ids : list Z) :
  let self := CNNDataset.__init__ data patient_ids in
  CNNDataset.__len__ self = Z.of_nat (length patient_ids)
  /\ (forall i pid d input label,
        nth_error patient_ids i = Some pid ->
        data !! pid = Some (CNNDataset.EDict d) ->
        d !! "input"%string = Some input ->
        d !! "label"%string = Some label ->
        CNNDataset.__getitem__ self (Z.of_nat i) = Ok (input, label))
  /\ (forall i pid,
        nth_error patient_ids i = Some pid ->
        data !! pid = None ->
        CNNDataset.__getitem__ self (Z.of_nat i) = Raise KeyError).
Proof.
  intros self. split; [reflexivity|]. split.
  - intros i pid d input label Hi Hd Hx Hl.
    unfold CNNDataset.__getitem__, self; simpl.
    rewrite (py_list_getitem_nat _ _ _ Hi). simpl.
    unfold py_getitem. rewrite Hd. simpl.
    unfold py_getitem. rewrite Hx. simpl. now rewrite Hl.
  - intros i pid Hi Hd.
    unfold CNNDataset.__getitem__, self; simpl.
    rewrite (py_list_getitem_nat _ _ _ Hi). simpl.
    unfold py_getitem. now rewrite Hd.
Qed.

(** The contract at a two-patient mapping: position 0 returns what is
    stored for patient 7, position 1 names a patient that is absent. *)
Lemma CNNDataset_contract_witness :
  let data : gmap Z (CNNDataset.entry Z) :=
    {[ 7 := CNNDataset.EDict (<["input"%string := 42]> {["label"%string := 1]}) ]} in
  let self := CNNDataset.__init__ data [7; 8] in
  CNNDataset.__len__ self = 2
  /\ CNNDataset.__getitem__ self 0 = Ok (42, 1)
  /\ CNNDataset.__getitem__ self 1 = Raise KeyError.
Proof.
  intros data self.
  pose proof (CNNDataset_contract Z data [7; 8]) as [Hlen [Hget Hkey]].
  split; [exact Hlen|]. split.
  - apply (Hget 0%nat 7 (<["input"%string := 42]> {["label"%string := 1]}) 42 1);
      vm_compute; reflexivity.
  - apply (Hkey 1%nat 8); vm_compute; reflexivity.
Defined.

(** ** The network builder *)

Lemma Forall_repeat_same {A : Type} (P : A -> Prop) (x : A) (n : nat) :
  P x -> Forall P (repeat x n).
Proof.
  intros Hx. induction n as [|n IH]; simpl; constructor; assumption.
Qed.

Lemma make_layer_length (in_planes : Z) (block : Network.block_class)
    (planes blocks : Z) (shortcut_type : string) (stride : Z) :
  length (fst (Network._make_layer in_planes block planes blocks shortcut_type stride))
  = S (Z.to_nat (blocks - 1)).
Proof.
  unfold Network._make_layer; simpl. now rewrite repeat_length.
Qed.

Lemma make_layer_class (in_planes : Z) (block : Network.block_class)
    (planes blocks : Z) (shortcut_type : string) (stride : Z) :
  Forall (fun b => Network.blk_class b = block)
         (fst (Network._make_layer in_planes block planes blocks shortcut_type stride)).
Proof.
  unfold Network._make_layer; simpl. constructor; [reflexivity|].
  now apply Forall_repeat_same.
Qed.

Lemma block_convs_length (b : Network.Block) :
  length (Network.block_convs b) = Spec.convolutions (Network.blk_class b).
Proof.
  unfold Network.block_convs. now destruct (Network.blk_class b).
Qed.

(** *** What the constructor needs and what it returns *)

Lemma comprehension_length {A B : Type} (f : A -> result B) (xs : list A) (ys : list B) :
  comprehension f xs = Ok ys -> length ys = length xs.
Proof.
  revert ys. induction xs as [|x xs IH]; intros ys H; simpl in H.
  - now injection H as <-.
  - destruct (f x) as [y|e]; cbn [rbind] in H; [|discriminate].
    destruct (comprehension f xs) as [ys'|e]; cbn [rbind] in H; [|discriminate].
    injection H as <-. simpl. now rewrite (IH ys' eq_refl).
Qed.

Lemma comprehension_nth {A B : Type} (f : A -> result B) (xs : list A) (ys : list B)
    (i : nat) (x : A) :
  comprehension f xs = Ok ys -> nth_error xs i = Some x ->
  exists y, f x = Ok y /\ nth_error ys i = Some y.
Proof.
  revert ys i. induction xs as [|x0 xs IH]; intros ys i H Hi.
  - destruct i; discriminate Hi.
  - simpl in H.
    destruct (f x0) as [y0|e] eqn:E0; cbn [rbind] in H; [|discriminate].
    destruct (comprehension f xs) as [ys'|e]; cbn [rbind] in H; [|discriminate].
    injection H as <-. destruct i as [|i]; simpl in Hi |- *.
    + injection Hi as <-. now exists y0.
    + exact (IH ys' i eq_refl Hi).
Qed.

Lemma comprehension_firstn {A B : Type} (f : A -> result B) (xs : list A) (ys : list B)
    (k : nat) :
  comprehension f xs = Ok ys -> comprehension f (firstn k xs) = Ok (firstn k ys).
Proof.
  revert ys k. induction xs as [|x xs IH]; intros ys k H; simpl in H.
  - injection H as <-. now destruct k.
  - destruct (f x) as [y|e] eqn:E; cbn [rbind] in H; [|discriminate].
    destruct (comprehension f xs) as [ys'|e]; cbn [rbind] in H; [|discriminate].
    injection H as <-. destruct k as [|k]; [reflexivity|].
    simpl. rewrite E. cbn [rbind]. now rewrite (IH ys' k eq_refl).
Qed.

Lemma torch_sizes_nonneg (sizes : list Z) :
  Forall (fun size => 0 <= size) sizes -> Network.torch_sizes sizes = Ok tt.
Proof.
  intros H. unfold Network.torch_sizes.
  destruct (existsb (fun size => size <? 0) sizes) eqn:E; [|reflexivity].
  apply existsb_exists in E. destruct E as [size [Hin Hneg]].
  rewrite List.Forall_forall in H. specialize (H size Hin).
  apply Z.ltb_lt in Hneg. lia.
Qed.

Lemma Dropout_init_Ok (p q : Q) :
  Network.Dropout_init p = Ok q -> q = p /\ (0 <= p <= 1)%Q.
Proof.
  unfold Network.Dropout_init.
  destruct (Qle_bool 0 p) eqn:E0; destruct (Qle_bool p 1) eqn:E1;
    simpl; intros H; try discriminate H.
  injection H as <-. apply Qle_bool_iff in E0, E1. now repeat split.
Qed.

Lemma Dropout_init_range (p : Q) :
  (0 <= p <= 1)%Q -> Network.Dropout_init p = Ok p.
Proof.
  intros [H0 H1]. unfold Network.Dropout_init.
  apply Qle_bool_iff in H0, H1. now rewrite H0, H1.
Qed.

Lemma expansion_pos (block : Network.block_class) : 1 <= Network.expansion block.
Proof. destruct block; simpl; lia. Qed.

(** Every field of a successfully built network. *)
Lemma ResNet_init_fields (block : Network.block_class) (layers block_inplanes : list Z)
    (model_depth : Z) (kw : Network.kwargs) (dropout_rate : Q) (net : Network.ResNet) :
  Network.ResNet_init block layers block_inplanes model_depth kw dropout_rate = Ok net ->
  exists w0 w1 w2 w3 ws n0 n1 n2 n3 ns,
    comprehension (Network.scaled (Network.widen_factor kw)) block_inplanes
    = Ok (w0 :: w1 :: w2 :: w3 :: ws)
    /\ layers = n0 :: n1 :: n2 :: n3 :: ns
    /\ let e := Network.expansion block in
       let st := Network.shortcut_type kw in
       Network.conv1 net
       = {| Network.in_channels := Network.n_input_channels kw;
            Network.out_channels := w0;
            Network.kernel_size := (Network.conv1_t_size kw, 7, 7);
            Network.conv_stride := (Network.conv1_t_stride kw, 2, 2);
            Network.padding := (Network.conv1_t_size kw / 2, 3, 3) |}
       /\ Network.bn1 net = w0
       /\ Network.net_no_max_pool net = Network.no_max_pool kw
       /\ Network.layer1 net = fst (Network._make_layer w0 block w0 n0 st 1)
       /\ Network.layer2 net = fst (Network._make_layer (w0 * e) block w1 n1 st 2)
       /\ Network.layer3 net = fst (Network._make_layer (w1 * e) block w2 n2 st 2)
       /\ Network.layer4 net = fst (Network._make_layer (w2 * e) block w3 n3 st 2)
       /\ Network.fc net = (w3 * e, Network.n_classes kw)
       /\ Network.in_planes net = w3 * e
       /\ Network.depth_in_name net = model_depth
       /\ Network.dropout net = dropout_rate.
Proof.
  intros Hinit. unfold Network.ResNet_init in Hinit.
  destruct (comprehension _ block_inplanes) as [widths|e] eqn:Hwidths;
    cbn [rbind] in Hinit; [|discriminate Hinit].
  destruct widths as [|w0 [|w1 [|w2 [|w3 ws]]]];
    destruct layers as [|n0 [|n1 [|n2 [|n3 ns]]]];
    unfold Network._make_layer in Hinit;
    cbn [py_index nth_error rbind] in Hinit;
    repeat (match type of Hinit with
            | context [Network.torch_sizes ?l] =>
                destruct (Network.torch_sizes l) as [[]|e];
                cbn [py_index nth_error rbind] in Hinit
            end);
    try discriminate Hinit.
  destruct (Network.Dropout_init dropout_rate) as [q|e] eqn:Hdrop;
    cbn [rbind] in Hinit; [|discriminate Hinit].
  apply Dropout_init_Ok in Hdrop. destruct Hdrop as [-> _].
  injection Hinit as <-.
  exists w0, w1, w2, w3, ws, n0, n1, n2, n3, ns.
  split; [reflexivity|]. split; [reflexivity|].
  cbv zeta. repeat split; reflexivity.
Qed.

(** With arguments its layers accept, the constructor returns a network
    on four or more widths and four or more block counts. *)
Lemma ResNet_init_succeeds (block : Network.block_class) (layers block_inplanes : list Z)
    (model_depth : Z) (kw : Network.kwargs) (dropout_rate : Q) :
  Wiring.constructible kw block_inplanes dropout_rate ->
  (4 <= length block_inplanes)%nat ->
  (4 <= length layers)%nat ->
  exists net,
    Network.ResNet_init block layers block_inplanes model_depth kw dropout_rate = Ok net.
Proof.
  intros (Hin & Ht & _ & Hcl & (widths & Hwidths & Hpos) & Hdrop) Hw Hl.
  pose proof (comprehension_length _ _ _ Hwidths) as Hlen.
  destruct widths as [|w0 [|w1 [|w2 [|w3 ws]]]]; simpl in Hlen; try lia.
  destruct layers as [|n0 [|n1 [|n2 [|n3 ns]]]]; simpl in Hl; try lia.
  cbn [firstn] in Hpos.
  inversion Hpos as [|? ? H0 Hpos1]; subst.
  inversion Hpos1 as [|? ? H1 Hpos2]; subst.
  inversion Hpos2 as [|? ? H2 Hpos3]; subst.
  inversion Hpos3 as [|? ? H3 _]; subst.
  pose proof (expansion_pos block) as He.
  unfold Network.ResNet_init. rewrite Hwidths.
  unfold Network._make_layer.
  cbn [py_index nth_error rbind].
  rewrite !torch_sizes_nonneg by (repeat constructor; nia).
  cbn [rbind]. rewrite (Dropout_init_range _ Hdrop). cbn [rbind].
  eexists. reflexivity.
Qed.

(** The constructor succeeds on four or more widths and four block
    counts, with arguments its layers accept, and its stages are the four
    [_make_layer] results. *)
Lemma ResNet_init_stages (block : Network.block_class) (n0 n1 n2 n3 : Z)
    (block_inplanes : list Z) (model_depth : Z) (kw : Network.kwargs) (dropout_rate : Q) :
  Wiring.constructible kw block_inplanes dropout_rate ->
  (4 <= length block_inplanes)%nat ->
  exists net,
    Network.ResNet_init block [n0; n1; n2; n3] block_inplanes model_depth kw dropout_rate
    = Ok net
    /\ List.map (@length _) (Network.stages net)
       = List.map (fun n => S (Z.to_nat (n - 1))) [n0; n1; n2; n3]
    /\ Forall (Forall (fun b => Network.blk_class b = block)) (Network.stages net).
Proof.
  intros Hc Hlen.
  destruct (ResNet_init_succeeds block [n0; n1; n2; n3] block_inplanes model_depth kw
              dropout_rate Hc Hlen ltac:(simpl; lia)) as [net Hnet].
  exists net. split; [exact Hnet|].
  destruct (ResNet_init_fields _ _ _ _ _ _ _ Hnet)
    as (w0 & w1 & w2 & w3 & ws & m0 & m1 & m2 & m3 & ms & _ & Hl & Hfields).
  injection Hl as <- <- <- <- <-.
  cbv zeta in Hfields.
  destruct Hfields as (_ & _ & _ & H1 & H2 & H3 & H4 & _).
  unfold Network.stages. rewrite H1, H2, H3, H4.
  unfold Network._make_layer. cbn [fst List.map length]. split.
  - now rewrite !repeat_length.
  - repeat constructor; now apply Forall_repeat_same.
Qed.

(** One row of the depth table: run the constructor on the row's block
    class and counts, then read the stages off its result. *)
Ltac depth_case block n0 n1 n2 n3 :=
  match goal with
  | Hc : Wiring.constructible ?kw ?inplanes ?dr,
    Hlen : (4 <= length ?inplanes)%nat,
    Hcls : forall net blk, _ -> _
    |- context [Network.generate_model ?d ?inplanes ?kw ?dr] =>
      destruct (ResNet_init_stages block n0 n1 n2 n3 inplanes d kw dr Hc Hlen)
        as [net [Hnet [Hcounts Hclass]]];
      exists net;
      change (Network.generate_model d inplanes kw dr)
        with (let* model := Network.ResNet_init block [n0; n1; n2; n3] inplanes d kw dr in
              Ok (Some model));
      rewrite Hnet; cbn [rbind];
      split; [reflexivity|]; split; [reflexivity|];
      split; [exact Hcounts|]; apply Hcls; exact Hclass
  end.

(** The script's keyword arguments, widths and dropout rate are ones the
    layers accept. *)
Lemma constructible_script :
  Wiring.constructible Network.default_kwargs [64; 128; 256; 512] (1 # 2).
Proof.
  unfold Wiring.constructible.
  repeat split; try (simpl; lia); try (vm_compute; discriminate).
  exists [64; 128; 256; 512]. split; [vm_compute; reflexivity|].
  repeat constructor; lia.
Qed.

(** C2. For every depth of the specification's table, [generate_model]
    builds a network with exactly four stages whose block counts are the
    table's, made of basic (two-convolution) blocks for depth <= 34 and of
    bottleneck (three-convolution) blocks otherwise; for every depth
    outside the table the construction fails (an assertion error). The
    network is built when the per-stage width list holds the four widths
    the constructor reads and the arguments are ones its layers accept
    (positive sizes, a dropout probability between 0 and 1). *)
Theorem generate_model_table (model_depth : Z) (inplanes : list Z)
    (kw : Network.kwargs) (dropout_rate : Q) :
  (forall counts,
      In (model_depth, counts) Spec.depth_table ->
      (4 <= length inplanes)%nat ->
      Wiring.constructible kw inplanes dropout_rate ->
      exists net,
        Network.generate_model model_depth inplanes kw dropout_rate = Ok (Some net)
        /\ length (Network.stages net) = 4%nat
        /\ List.map (@length _) (Network.stages net) = counts
        /\ Forall (Forall (fun b =>
                     Network.blk_class b = Spec.block_kind model_depth
                     /\ length (Network.block_convs b)
                        = Spec.convolutions (Spec.block_kind model_depth)))
                  (Network.stages net))
  /\ (~ In model_depth (List.map fst Spec.depth_table) ->
      Network.generate_model model_depth inplanes kw dropout_rate = Raise AssertionError).
Proof.
  split.
  - intros counts Hin Hlen Hc.
    assert (Hcls : forall net block,
               Forall (Forall (fun b => Network.blk_class b = block)) (Network.stages net) ->
               Forall (Forall (fun b => Network.blk_class b = block
                                        /\ length (Network.block_convs b)
                                           = Spec.convolutions block))
                      (Network.stages net)).
    { intros net block H. eapply List.Forall_impl; [|exact H].
      intros stage Hs. eapply List.Forall_impl; [|exact Hs].
      intros b Hb. split; [exact Hb|]. rewrite block_convs_length. now rewrite Hb. }
    simpl in Hin.
    destruct Hin as [Hin|[Hin|[Hin|[Hin|[Hin|[Hin|[Hin|[]]]]]]]];
      inversion Hin; subst model_depth counts; clear Hin.
    + depth_case Network.BasicBlock 1 1 1 1.
    + depth_case Network.BasicBlock 2 2 2 2.
    + depth_case Network.BasicBlock 3 4 6 3.
    + depth_case Network.Bottleneck 3 4 6 3.
    + depth_case Network.Bottleneck 3 4 23 3.
    + depth_case Network.Bottleneck 3 8 36 3.
    + depth_case Network.Bottleneck 3 24 36 3.
  - intros Hout. unfold Network.generate_model.
    destruct (existsb (Z.eqb model_depth) Network.supported_depths) eqn:E; [|reflexivity].
    exfalso. apply Hout.
    apply existsb_exists in E. destruct E as [d [Hd Heq]].
    apply Z.eqb_eq in Heq. subst d. exact Hd.
Qed.

(** The table at depth 18 with the script's widths, and the failure at
    depth 19. *)
Lemma generate_model_table_witness :
  (4 <= length [64; 128; 256; 512])%nat
  /\ (exists net,
        Network.generate_model 18 [64; 128; 256; 512] Network.default_kwargs (1 # 2)
        = Ok (Some net)
        /\ List.map (@length _) (Network.stages net) = [2; 2; 2; 2]%nat)
  /\ Network.generate_model 19 [64; 128; 256; 512] Network.default_kwargs (1 # 2)
     = Raise AssertionError.
Proof.
  assert (Hlen : (4 <= length [64; 128; 256; 512])%nat) by (simpl; lia).
  split; [exact Hlen|]. split.
  - destruct (proj1 (generate_model_table 18 [64; 128; 256; 512]
                       Network.default_kwargs (1 # 2)) [2; 2; 2; 2]%nat)
      as [net [Hnet [_ [Hcounts _]]]].
    + simpl. right; left; reflexivity.
    + exact Hlen.
    + exact constructible_script.
    + exists net. split; assumption.
  - apply (proj2 (generate_model_table 19 [64; 128; 256; 512]
                    Network.default_kwargs (1 # 2))).
    simpl. intros H. repeat (destruct H as [H|H]; [discriminate H|]). exact H.
Defined.

Lemma py_int_nonneg (q : Q) : (0 <= q)%Q -> py_int q = Qfloor q.
Proof.
  intros H. unfold py_int.
  apply Qle_bool_iff in H. now rewrite H.
Qed.

(** What [_make_layer] builds: a first block that carries the stride and
    the shortcut, then blocks of stride 1 without a shortcut, all of the
    requested width. *)
Lemma make_layer_shape (in_planes : Z) (block : Network.block_class)
    (planes blocks : Z) (shortcut_type : string) (stride : Z) :
  exists first rest,
    fst (Network._make_layer in_planes block planes blocks shortcut_type stride)
    = first :: rest
    /\ Forall (fun b => Network.blk_planes b = planes) (first :: rest)
    /\ Network.blk_in_planes first = in_planes
    /\ Network.blk_stride first = stride
    /\ (Network.blk_downsample first = None
        <-> stride = 1 /\ in_planes = planes * Network.expansion block)
    /\ Forall (fun b => Network.blk_stride b = 1 /\ Network.blk_downsample b = None
                        /\ Network.blk_in_planes b = planes * Network.expansion block)
              rest
    /\ snd (Network._make_layer in_planes block planes blocks shortcut_type stride)
       = planes * Network.expansion block.
Proof.
  unfold Network._make_layer. simpl.
  eexists. eexists. split; [reflexivity|]. simpl.
  split; [constructor; [reflexivity|now apply Forall_repeat_same]|].
  split; [reflexivity|]. split; [reflexivity|]. split.
  - destruct (Z.eqb_spec stride 1) as [Hs|Hs];
      destruct (Z.eqb_spec in_planes (planes * Network.expansion block)) as [Hp|Hp];
      simpl; try destruct (String.eqb shortcut_type "A");
      split; intros H; try discriminate H; try tauto;
      destruct H as [H1 H2]; contradiction.
  - split; [|reflexivity]. now apply Forall_repeat_same.
Qed.

(** [int] of a float that is not negative rounds its value down. *)
Lemma py_int_of_float_floor (f : float) (v : Z) :
  py_int_of_float f = Ok v -> (0 <= float_value f)%Q -> v = Qfloor (float_value f).
Proof.
  unfold py_int_of_float, float_value.
  destruct (Prim2SF f) as [sz|si| |s m e]; intros H Hpos; try discriminate H.
  - now injection H as <-.
  - injection H as <-.
    destruct (Z.leb_spec 0 e) as [He|He].
    + destruct s.
      * exfalso. assert (0 < Z.pos m * 2 ^ e) by (apply Z.mul_pos_pos; [lia|now apply Z.pow_pos_nonneg]).
        unfold Qle, Qopp, inject_Z in Hpos. simpl in Hpos. lia.
      * now rewrite Qfloor_Z.
    + destruct s.
      * exfalso. unfold Qle, Qopp in Hpos. simpl in Hpos. lia.
      * unfold Qfloor. f_equal.
        rewrite Pos2Z.inj_pow, Z2Pos.id by lia. reflexivity.
Qed.

(** C9, as the code has it. In a network the constructor built, stage
    [i] (0 to 3) is a non-empty list of blocks whose channel width is
    [int(base * widen_factor)] for the base width of stage [i], the
    product being taken in binary64 arithmetic and then truncated; this is
    the product of the two numbers rounded down whenever the binary64
    product is exact and not negative. Its first block has stride 1 for
    the first stage and stride 2 for the other three, and carries a
    shortcut projection exactly when one is required (the stride is not 1
    or the incoming width differs from the width times the expansion);
    every later block has stride 1 and no shortcut (the identity). *)
Theorem stage_construction (block : Network.block_class) (layers block_inplanes : list Z)
    (model_depth : Z) (kw : Network.kwargs) (dropout_rate : Q) (net : Network.ResNet) :
  Network.ResNet_init block layers block_inplanes model_depth kw dropout_rate = Ok net ->
  forall (i : nat) (stage : list Network.Block) (base : Z),
    nth_error (Network.stages net) i = Some stage ->
    nth_error block_inplanes i = Some base ->
    exists first rest width base_as_float,
      stage = first :: rest
      /\ py_float_of_int base = Ok base_as_float
      /\ py_int_of_float (base_as_float * Network.widen_factor kw)%float = Ok width
      /\ Forall (fun b => Network.blk_planes b = width) stage
      /\ ((float_value (base_as_float * Network.widen_factor kw)%float
           == inject_Z base * float_value (Network.widen_factor kw))%Q ->
          (0 <= inject_Z base * float_value (Network.widen_factor kw))%Q ->
          width = Spec.stage_width base (float_value (Network.widen_factor kw)))
      /\ Network.blk_stride first = Spec.stage_stride i
      /\ (Network.blk_downsample first = None
          <-> Network.blk_stride first = 1
              /\ Network.blk_in_planes first
                 = Network.blk_planes first * Network.expansion block)
      /\ Forall (fun b => Network.blk_stride b = 1 /\ Network.blk_downsample b = None) rest.
Proof.
  intros Hinit i stage base Hstage Hnth.
  destruct (ResNet_init_fields _ _ _ _ _ _ _ Hinit)
    as (w0 & w1 & w2 & w3 & ws & n0 & n1 & n2 & n3 & ns & Hws & _ & Hfields).
  cbv zeta in Hfields.
  destruct Hfields as (_ & _ & _ & H1 & H2 & H3 & H4 & _).
  destruct (comprehension_nth _ _ _ i base Hws Hnth) as (width & Hscaled & Hwidth).
  unfold Network.scaled in Hscaled.
  destruct (py_float_of_int base) as [base_as_float|e] eqn:Hfloat;
    cbn [rbind] in Hscaled; [|discriminate Hscaled].
  unfold Network.stages in Hstage.
  assert (Hcase : exists in_planes blocks,
             stage = fst (Network._make_layer in_planes block width blocks
                            (Network.shortcut_type kw) (Spec.stage_stride i))).
  { destruct i as [|[|[|[|i]]]]; simpl in Hstage, Hwidth.
    - injection Hstage as <-. injection Hwidth as <-. eexists _, _. exact H1.
    - injection Hstage as <-. injection Hwidth as <-. eexists _, _. exact H2.
    - injection Hstage as <-. injection Hwidth as <-. eexists _, _. exact H3.
    - injection Hstage as <-. injection Hwidth as <-. eexists _, _. exact H4.
    - destruct i; discriminate Hstage. }
  destruct Hcase as (in_planes & blocks & ->).
  destruct (make_layer_shape in_planes block width blocks
              (Network.shortcut_type kw) (Spec.stage_stride i))
    as (first & rest & Heq & Hplanes & Hfirst_in & Hstride & Hdown & Hrest & _).
  exists first, rest, width, base_as_float. rewrite Heq.
  split; [reflexivity|]. split; [reflexivity|]. split; [exact Hscaled|].
  split; [exact Hplanes|]. split; [|split; [|split]].
  - intros Hexact Hpos. unfold Spec.stage_width.
    rewrite <- Hexact in Hpos |- *.
    exact (py_int_of_float_floor _ _ Hscaled Hpos).
  - exact Hstride.
  - pose proof (List.Forall_inv Hplanes) as Hp1. simpl in Hp1.
    rewrite Hstride, Hfirst_in, Hp1. exact Hdown.
  - eapply List.Forall_impl; [|exact Hrest]. simpl; tauto.
Qed.

(** The depth-18 network of the script: its second stage has width 128,
    the exact product of 128 and the default multiplier 1.0, a first
    block of stride 2 with a projection, and one further block. *)
Lemma stage_construction_witness :
  exists net first rest,
    Network.ResNet_init Network.BasicBlock [2; 2; 2; 2] [64; 128; 256; 512] 18
      Network.default_kwargs (1 # 2) = Ok net
    /\ nth_error (Network.stages net) 1 = Some (first :: rest)
    /\ Network.blk_planes first = 128
    /\ Spec.stage_width 128 (float_value (Network.widen_factor Network.default_kwargs))
       = 128
    /\ Network.blk_stride first = 2
    /\ (Network.blk_downsample first = None
        <-> Network.blk_stride first = 1
            /\ Network.blk_in_planes first = Network.blk_planes first * 1)
    /\ Forall (fun b => Network.blk_stride b = 1 /\ Network.blk_downsample b = None) rest.
Proof.
  destruct (Network.ResNet_init Network.BasicBlock [2; 2; 2; 2] [64; 128; 256; 512] 18
              Network.default_kwargs (1 # 2)) as [net|e] eqn:Hinit;
    [|vm_compute in Hinit; discriminate Hinit].
  assert (Hstage : exists stage, nth_error (Network.stages net) 1 = Some stage).
  { vm_compute in Hinit. injection Hinit as <-. eexists. reflexivity. }
  destruct Hstage as [stage Hstage].
  destruct (stage_construction Network.BasicBlock [2; 2; 2; 2] [64; 128; 256; 512] 18
              Network.default_kwargs (1 # 2) net Hinit 1%nat stage 128
              Hstage eq_refl)
    as (first & rest & width & base_as_float & -> & Hfloat & Hwidth & Hplanes & Hexact
        & Hstride & Hdown & Hrest).
  assert (Hbase : base_as_float = 128%float)
    by (vm_compute in Hfloat; now injection Hfloat as <-).
  subst base_as_float.
  assert (H128 : width = 128) by (vm_compute in Hwidth; now injection Hwidth as <-).
  subst width.
  exists net, first, rest.
  split; [reflexivity|]. split; [exact Hstage|].
  split; [exact (List.Forall_inv Hplanes)|].
  split; [symmetry; apply Hexact; vm_compute; [reflexivity|discriminate]|].
  split; [exact Hstride|]. split; [exact Hdown|exact Hrest].
Defined.

(** C9, as the specification states it, fails on the code. With base
    width 100 and the multiplier 0.03, the binary64 number the interpreter
    holds for 0.03 is slightly less than 3/100, so the product rounded
    down is 2; the binary64 product rounds to 3.0 and the stage has width
    3. With the multiplier 0.57 the binary64 product is just below 57 and
    the stage has width 56, where 100 times 57/100 rounded down is 57. *)
Lemma stage_width_not_rounded_down :
  (exists net stage,
     Network.ResNet_init Network.BasicBlock [1; 1; 1; 1] [100; 100; 100; 100] 10
       (Examples.widened Examples.three_hundredths) (1 # 2) = Ok net
     /\ nth_error (Network.stages net) 0 = Some stage
     /\ stage <> []
     /\ Forall (fun b => Network.blk_planes b = 3) stage
     /\ Spec.stage_width 100 (float_value Examples.three_hundredths) = 2
     /\ ~ Forall (fun b => Network.blk_planes b
                           = Spec.stage_width 100 (float_value Examples.three_hundredths))
                 stage)
  /\ (exists net stage,
        Network.ResNet_init Network.BasicBlock [1; 1; 1; 1] [100; 100; 100; 100] 10
          (Examples.widened Examples.fifty_seven_hundredths) (1 # 2) = Ok net
        /\ nth_error (Network.stages net) 0 = Some stage
        /\ Forall (fun b => Network.blk_planes b = 56) stage
        /\ Spec.stage_width 100 (57 # 100) = 57).
Proof.
  split.
  - eexists _, _. split; [vm_compute; reflexivity|].
    split; [reflexivity|]. split; [discriminate|].
    split; [repeat constructor|]. split; [vm_compute; reflexivity|].
    intros H. apply List.Forall_inv in H. vm_compute in H. discriminate H.
  - eexists _, _. split; [vm_compute; reflexivity|].
    split; [reflexivity|]. split; [repeat constructor|].
    vm_compute. reflexivity.
Qed.

(** ** The dataset split *)

Lemma floor_tenths (t : positive) (n : Z) :
  0 <= n ->
  py_int ((Z.pos t # 10) * inject_Z n) = Z.pos t * n / 10.
Proof.
  intros Hn. rewrite py_int_nonneg.
  - unfold Qfloor, Qmult, inject_Z, Qnum, Qden.
    replace (10 * 1)%positive with 10%positive by reflexivity. reflexivity.
  - apply Qmult_le_0_compat; unfold Qle; simpl; lia.
Qed.

Lemma split_sizes_bounds (n : Z) :
  0 <= n ->
  0 <= Split.train_size n
  /\ 0 <= Split.validation_size n
  /\ 0 <= Split.test_size n
  /\ Split.train_size n = 6 * n / 10
  /\ Split.validation_size n = 2 * n / 10.
Proof.
  intros Hn. unfold Split.test_size, Split.train_size, Split.validation_size.
  rewrite !floor_tenths by exact Hn.
  pose proof (Z.div_mod (6 * n) 10 ltac:(lia)) as H6.
  pose proof (Z.mod_pos_bound (6 * n) 10 ltac:(lia)) as B6.
  pose proof (Z.div_mod (2 * n) 10 ltac:(lia)) as H2.
  pose proof (Z.mod_pos_bound (2 * n) 10 ltac:(lia)) as B2.
  repeat split; lia.
Qed.

(** A slice between two bounds inside the list. *)
Lemma py_slice_inside {A : Type} (xs : list A) (a b : nat) :
  (a <= b)%nat -> (b <= length xs)%nat ->
  Split.py_slice xs (Z.of_nat a) (Z.of_nat b) = firstn (b - a) (skipn a xs).
Proof.
  intros Hab Hb. unfold Split.py_slice.
  destruct (Z.ltb_spec (Z.of_nat a) 0) as [Ha0|_]; [lia|].
  destruct (Z.ltb_spec (Z.of_nat b) 0) as [Hb0|_]; [lia|].
  rewrite !Z.min_l by lia.
  rewrite <- Nat2Z.inj_sub by exact Hab.
  now rewrite !Nat2Z.id.
Qed.

(** [random_split] on three non-negative lengths that add up to the
    dataset's length cuts the permutation into three consecutive runs. *)
Lemma random_split_three (a b c : nat) (randperm : nat -> list nat) :
  length (randperm (a + b + c)%nat) = (a + b + c)%nat ->
  Split.random_split (Z.of_nat (a + b + c)) [Z.of_nat a; Z.of_nat b; Z.of_nat c] randperm
  = Ok [firstn a (randperm (a + b + c)%nat);
        firstn b (skipn a (randperm (a + b + c)%nat));
        skipn (a + b) (randperm (a + b + c)%nat)].
Proof.
  intros Hlen. unfold Split.random_split, Split.sum_lengths. simpl fold_right.
  replace (Z.of_nat a + (Z.of_nat b + (Z.of_nat c + 0))) with (Z.of_nat (a + b + c)) by lia.
  rewrite Z.eqb_refl. simpl negb. cbv iota.
  rewrite Nat2Z.id.
  set (idx := randperm (a + b + c)%nat) in *.
  simpl.
  replace (0 + Z.of_nat a - Z.of_nat a) with (Z.of_nat 0) by lia.
  replace (0 + Z.of_nat a) with (Z.of_nat a) by lia.
  replace (Z.of_nat a + Z.of_nat b - Z.of_nat b) with (Z.of_nat a) by lia.
  replace (Z.of_nat a + Z.of_nat b + Z.of_nat c - Z.of_nat c)
    with (Z.of_nat (a + b)) by lia.
  replace (Z.of_nat a + Z.of_nat b + Z.of_nat c) with (Z.of_nat (a + b + c)) by lia.
  replace (Z.of_nat a + Z.of_nat b) with (Z.of_nat (a + b)) by lia.
  rewrite !py_slice_inside by lia.
  simpl skipn.
  replace (a - 0)%nat with a by lia.
  replace (a + b - a)%nat with b by lia.
  replace (a + b + c - (a + b))%nat with c by lia.
  f_equal. f_equal. f_equal. f_equal.
  apply firstn_all2. rewrite length_skipn. lia.
Qed.

Lemma patients_at_seq (patients_used : list Z) :
  Split.patients_at patients_used (seq 0 (length patients_used)) = patients_used.
Proof.
  unfold Split.patients_at.
  assert (G : forall (pre : list Z),
             omap (fun k => nth_error (pre ++ patients_used) k)
                  (seq (length pre) (length patients_used)) = patients_used).
  { induction patients_used as [|p ps IH]; intros pre; [reflexivity|].
    simpl. rewrite nth_error_app2 by lia. rewrite Nat.sub_diag. simpl.
    f_equal. specialize (IH (pre ++ [p])).
    rewrite <- app_assoc, length_app in IH. simpl in IH.
    rewrite Nat.add_1_r in IH. exact IH. }
  exact (G []).
Qed.

(** C8. For a patient list of size N and any permutation of its
    positions drawn by the generator, the split yields three partitions
    of sizes floor(0.6 N), floor(0.2 N) and N - floor(0.6 N) - floor(0.2 N);
    they are pairwise disjoint, none holds a position twice, together
    they hold exactly the positions of the patient list, and the patients
    they hold are the patient list up to order. *)
Theorem split_sizes_and_partition (obj : Type) (images : gmap Z (CNNDataset.entry obj))
    (patients_used : list Z) (randperm : nat -> list nat) :
  Permutation (randperm (length patients_used)) (seq 0 (length patients_used)) ->
  exists train validation test,
    Split.split_dataset images patients_used randperm = Ok (train, validation, test)
    /\ Z.of_nat (length train)
       = Qfloor ((6 # 10) * inject_Z (Z.of_nat (length patients_used)))
    /\ Z.of_nat (length validation)
       = Qfloor ((2 # 10) * inject_Z (Z.of_nat (length patients_used)))
    /\ Z.of_nat (length test)
       = Z.of_nat (length patients_used) - Z.of_nat (length train)
         - Z.of_nat (length validation)
    /\ (forall k, In k train -> ~ In k validation)
    /\ (forall k, In k train -> ~ In k test)
    /\ (forall k, In k validation -> ~ In k test)
    /\ NoDup (train ++ validation ++ test)
    /\ (forall k, (k < length patients_used)%nat
                  <-> In k train \/ In k validation \/ In k test)
    /\ Permutation (Split.patients_at patients_used (train ++ validation ++ test))
                   patients_used.
Proof.
  intros Hperm.
  set (n := length patients_used) in *.
  destruct (split_sizes_bounds (Z.of_nat n) ltac:(lia))
    as (Ha & Hb & Hc & Hta & Hva).
  set (a := Z.to_nat (Split.train_size (Z.of_nat n))).
  set (b := Z.to_nat (Split.validation_size (Z.of_nat n))).
  set (c := Z.to_nat (Split.test_size (Z.of_nat n))).
  assert (Hn : n = (a + b + c)%nat).
  { unfold a, b, c. unfold Split.test_size in *. lia. }
  assert (Hlen : length (randperm (a + b + c)%nat) = (a + b + c)%nat).
  { rewrite <- Hn. rewrite (Permutation_length Hperm). apply length_seq. }
  pose proof (random_split_three a b c randperm Hlen) as Hsplit.
  set (idx := randperm (a + b + c)%nat) in *.
  assert (Hidx : idx = firstn a idx ++ firstn b (skipn a idx) ++ skipn (a + b) idx).
  { rewrite <- (firstn_skipn a idx) at 1. f_equal.
    rewrite <- (firstn_skipn b (skipn a idx)) at 1. f_equal.
    rewrite skipn_skipn. f_equal. lia. }
  assert (Hperm' : Permutation idx (seq 0 n)).
  { unfold idx. rewrite <- Hn. exact Hperm. }
  assert (Hnodup : NoDup idx).
  { rewrite Hperm'. apply NoDup_seq. }
  exists (firstn a idx), (firstn b (skipn a idx)), (skipn (a + b) idx).
  split.
  { unfold Split.split_dataset. unfold CNNDataset.__len__. simpl.
    fold n.
    replace (Split.train_size (Z.of_nat n)) with (Z.of_nat a) by (unfold a; lia).
    replace (Split.validation_size (Z.of_nat n)) with (Z.of_nat b) by (unfold b; lia).
    replace (Z.of_nat n - Z.of_nat a - Z.of_nat b) with (Z.of_nat c)
      by (unfold a, b, c, Split.test_size; lia).
    rewrite Hn at 1. rewrite Hsplit. reflexivity. }
  assert (La : length (firstn a idx) = a) by (rewrite length_firstn; lia).
  assert (Lb : length (firstn b (skipn a idx)) = b)
    by (rewrite length_firstn, length_skipn; lia).
  assert (Lc : length (skipn (a + b) idx) = c) by (rewrite length_skipn; lia).
  rewrite La, Lb, Lc.
  split.
  { rewrite <- py_int_nonneg; [unfold a; fold (Split.train_size (Z.of_nat n)); lia|].
    apply Qmult_le_0_compat; unfold Qle; simpl; lia. }
  split.
  { rewrite <- py_int_nonneg; [unfold b; fold (Split.validation_size (Z.of_nat n)); lia|].
    apply Qmult_le_0_compat; unfold Qle; simpl; lia. }
  split; [lia|].
  rewrite Hidx in Hnodup.
  pose proof Hnodup as Hnd.
  apply NoDup_app in Hnd. destruct Hnd as (_ & Hdis1 & Hnd).
  apply NoDup_app in Hnd. destruct Hnd as (_ & Hdis2 & _).
  split.
  { intros k Hk Hk'. apply (Hdis1 k); [now apply list_elem_of_In|].
    apply list_elem_of_In. apply in_or_app. now left. }
  split.
  { intros k Hk Hk'. apply (Hdis1 k); [now apply list_elem_of_In|].
    apply list_elem_of_In. apply in_or_app. now right. }
  split.
  { intros k Hk Hk'. apply (Hdis2 k); now apply list_elem_of_In. }
  split; [exact Hnodup|].
  split.
  { intros k. rewrite <- !in_app_iff. rewrite <- Hidx.
    split.
    - intros Hk. eapply Permutation_in; [symmetry; exact Hperm'|].
      apply in_seq. lia.
    - intros Hk. apply (Permutation_in _ Hperm') in Hk. apply in_seq in Hk. lia. }
  rewrite <- Hidx.
  rewrite <- (patients_at_seq patients_used) at 2. fold n.
  unfold Split.patients_at. now apply omap_Permutation.
Qed.

(** Seven patients split by the permutation that reverses the positions:
    four for training, one for validation, two for testing. *)
Lemma split_sizes_and_partition_witness :
  let patients_used := [10; 20; 30; 40; 50; 60; 70] in
  let randperm := fun n => rev (seq 0 n) in
  Permutation (randperm (length patients_used)) (seq 0 (length patients_used))
  /\ exists train validation test,
       Split.split_dataset (obj := unit) ∅ patients_used randperm
       = Ok (train, validation, test)
       /\ Z.of_nat (length train) = 4
       /\ Z.of_nat (length validation) = 1
       /\ Z.of_nat (length test) = 7 - Z.of_nat (length train) - Z.of_nat (length validation)
       /\ NoDup (train ++ validation ++ test).
Proof.
  intros patients_used randperm.
  assert (Hperm : Permutation (randperm (length patients_used))
                              (seq 0 (length patients_used)))
    by (vm_compute; apply (bool_decide_unpack _); vm_compute; reflexivity).
  split; [exact Hperm|].
  destruct (split_sizes_and_partition unit ∅ patients_used randperm Hperm)
    as (train & validation & test & Hsplit & Htrain & Hval & Htest & _ & _ & _ & Hnd & _).
  exists train, validation, test.
  split; [exact Hsplit|]. split; [exact Htrain|]. split; [exact Hval|].
  split; [exact Htest|exact Hnd].
Defined.

(** The split sizes computed in binary64 arithmetic agree with the exact
    ones for every dataset of fewer than 4096 patients. *)
Lemma split_sizes_binary64 (n : Z) :
  0 <= n < 4096 ->
  Split.train_size_binary64 n = Split.train_size n
  /\ Split.validation_size_binary64 n = Split.validation_size n.
Proof.
  intros Hn.
  assert (Hall : forallb (fun k => (Split.train_size_binary64 (Z.of_nat k)
                                    =? Split.train_size (Z.of_nat k))
                                   && (Split.validation_size_binary64 (Z.of_nat k)
                                       =? Split.validation_size (Z.of_nat k)))
                         (seq 0 4096) = true)
    by (vm_compute; reflexivity).
  rewrite forallb_forall in Hall.
  specialize (Hall (Z.to_nat n)).
  rewrite Z2Nat.id in Hall by lia.
  assert (Hin : In (Z.to_nat n) (seq 0 4096)) by (apply in_seq; lia).
  apply Hall in Hin. apply andb_true_iff in Hin. destruct Hin as [H1 H2].
  split; now apply Z.eqb_eq.
Qed.

(** ** The evaluation routine *)

Lemma fold_left_Raise {A B : Type} (f : result A -> B -> result A) (xs : list B) (e : exn) :
  (forall b, f (Raise e) b = Raise e) ->
  fold_left f xs (Raise e) = Raise e.
Proof.
  intros Hf. induction xs as [|x xs IH]; simpl; [reflexivity|].
  now rewrite Hf.
Qed.

Lemma firstn_snoc {A : Type} (xs : list A) (k : nat) (x : A) :
  nth_error xs k = Some x -> firstn (S k) xs = firstn k xs ++ [x].
Proof.
  revert k. induction xs as [|y ys IH]; intros [|k] H; simpl in *;
    try discriminate.
  - now injection H as <-.
  - f_equal. now apply IH.
Qed.

Section EvaluateFacts.

Context {X : Type}.
Variable net : X -> list Q.
Variable criterion : list Q -> list Q -> result Q.

(** The inner loop over the examples of a batch: it copies the labels
    and as many outputs, and leaves [i] at the last position. *)
Lemma collect_prefix (labels : list Z) (outputs : list Q) (t : list Z) (e : list Q)
    (i : option nat) (k : nat) :
  (k <= length labels)%nat -> (k <= length outputs)%nat ->
  fold_left (Evaluation.collect labels outputs) (seq 0 k) (Ok (t, e, i))
  = Ok (t ++ firstn k labels, e ++ firstn k outputs,
        match k with O => i | S k' => Some k' end).
Proof.
  induction k as [|k IH]; intros Hl Ho.
  - simpl. now rewrite !app_nil_r.
  - rewrite seq_S, fold_left_app, IH by lia. simpl.
    unfold Evaluation.collect, py_index. simpl.
    destruct (nth_error labels k) as [l|] eqn:El;
      [|apply nth_error_None in El; lia].
    destruct (nth_error outputs k) as [o|] eqn:Eo;
      [|apply nth_error_None in Eo; lia].
    simpl. rewrite <- !app_assoc.
    now rewrite (firstn_snoc _ _ _ El), (firstn_snoc _ _ _ Eo).
Qed.

Lemma collect_short (labels : list Z) (outputs : list Q) (t : list Z) (e : list Q)
    (i : option nat) :
  (length outputs < length labels)%nat ->
  fold_left (Evaluation.collect labels outputs) (seq 0 (length labels)) (Ok (t, e, i))
  = Raise IndexError.
Proof.
  intros Hshort.
  replace (length labels)
    with (length outputs + S (length labels - length outputs - 1))%nat at 1 by lia.
  rewrite seq_app, fold_left_app, collect_prefix by lia.
  simpl. unfold py_index.
  destruct (nth_error labels (length outputs)) as [l|] eqn:El;
    [|apply nth_error_None in El; lia].
  destruct (nth_error outputs (length outputs)) as [o|] eqn:Eo.
  - assert (nth_error outputs (length outputs) <> None) as Hne by congruence.
    apply nth_error_Some in Hne. lia.
  - simpl. now apply fold_left_Raise.
Qed.

(** One batch: what a successful step adds to the running totals. *)
Lemma evaluate_batch_Ok (st st' : Evaluation.locals) (b : Evaluation.batch X) :
  Evaluation.evaluate_batch net criterion st b = Ok st' ->
  exists loss,
    criterion (net (fst b)) (List.map inject_Z (snd b)) = Ok loss
    /\ Evaluation.total_err st'
       = (Evaluation.total_err st + inject_Z (Evaluation.pair_mismatches net b))%Q
    /\ Evaluation.total_loss st' = (Evaluation.total_loss st + loss)%Q
    /\ Evaluation.total_epoch st'
       = Evaluation.total_epoch st + Z.of_nat (length (snd b))
    /\ Evaluation.true_ st' = Evaluation.true_ st ++ snd b
    /\ Evaluation.i st' = match length (snd b) with
                          | O => Evaluation.i st
                          | S k => Some k
                          end.
Proof.
  destruct b as [inputs labels]. unfold Evaluation.evaluate_batch. simpl.
  destruct (criterion (net inputs) (List.map inject_Z labels)) as [loss|e]; simpl;
    [|discriminate].
  destruct (Nat.le_gt_cases (length labels) (length (net inputs))) as [Hle|Hgt].
  - rewrite collect_prefix by lia. simpl. intros H. injection H as <-.
    exists loss. simpl. rewrite firstn_all.
    repeat split; reflexivity.
  - rewrite collect_short by lia. discriminate.
Qed.

Lemma batch_loop_snoc (loader : list (Evaluation.batch X)) (b : Evaluation.batch X) :
  Evaluation.batch_loop net criterion (loader ++ [b])
  = let* st := Evaluation.batch_loop net criterion loader in
    Evaluation.evaluate_batch net criterion st b.
Proof.
  unfold Evaluation.batch_loop. now rewrite fold_left_app.
Qed.

Lemma Zsum_snoc (zs : list Z) (z : Z) :
  fold_right Z.add 0 (zs ++ [z]) = fold_right Z.add 0 zs + z.
Proof.
  induction zs as [|y ys IH]; simpl; [lia|]. rewrite IH. lia.
Qed.

Lemma Qsum_snoc (xs : list Q) (x : Q) : (Qsum (xs ++ [x]) == Qsum xs + x)%Q.
Proof.
  induction xs as [|y ys IH]; simpl.
  - ring.
  - rewrite IH. ring.
Qed.

Lemma last_batch_size_snoc (loader : list (Evaluation.batch X)) (b : Evaluation.batch X) :
  Evaluation.last_batch_size (loader ++ [b])
  = match length (snd b) with
    | O => Evaluation.last_batch_size loader
    | S _ => Some (length (snd b))
    end.
Proof.
  unfold Evaluation.last_batch_size. now rewrite fold_left_app.
Qed.

(** The totals after the batch loop. *)
Lemma batch_loop_totals (loader : list (Evaluation.batch X)) (st : Evaluation.locals) :
  Evaluation.batch_loop net criterion loader = Ok st ->
  exists losses,
    Spec.batch_losses net criterion loader = List.map Ok losses
    /\ (Evaluation.total_loss st == Qsum losses)%Q
    /\ (Evaluation.total_err st
        == inject_Z (fold_right Z.add 0%Z
                       (List.map (Evaluation.pair_mismatches net) loader)))%Q
    /\ Evaluation.total_epoch st
       = fold_right Z.add 0 (List.map (fun b => Z.of_nat (length (snd b))) loader)
    /\ Evaluation.true_ st = concat (List.map snd loader)
    /\ Evaluation.i st = option_map Nat.pred (Evaluation.last_batch_size loader).
Proof.
  revert st. induction loader as [|b loader IH] using rev_ind; intros st Hrun.
  - injection Hrun as <-. exists []. simpl. repeat split; reflexivity.
  - rewrite batch_loop_snoc in Hrun.
    destruct (Evaluation.batch_loop net criterion loader) as [st0|e]; simpl in Hrun; [|discriminate].
    destruct (IH st0 eq_refl) as (losses & Hl & Hloss & Herr & Hepoch & Htrue & Hi).
    destruct (evaluate_batch_Ok _ _ _ Hrun)
      as (loss & Hc & Herr' & Hloss' & Hepoch' & Htrue' & Hi').
    exists (losses ++ [loss]).
    unfold Spec.batch_losses in *. rewrite !map_app. simpl.
    split; [apply f_equal2; [exact Hl|now rewrite Hc]|].
    split; [rewrite Hloss', Hloss, Qsum_snoc; reflexivity|].
    split.
    { rewrite Herr', Herr, Zsum_snoc, inject_Z_plus. reflexivity. }
    split.
    { rewrite Hepoch', Hepoch, Zsum_snoc. reflexivity. }
    split.
    { rewrite Htrue', Htrue. rewrite concat_app. simpl. now rewrite app_nil_r. }
    rewrite Hi', last_batch_size_snoc.
    destruct (length (snd b)); [exact Hi|reflexivity].
Qed.

(** The mean loss [evaluate] returns is the sum of the per-batch losses
    divided by the size of the last batch that holds an example. *)
Lemma evaluate_loss_divisor (loader : list (Evaluation.batch X)) (err loss auc : Q) :
  Evaluation.evaluate net criterion loader = Ok (err, loss, auc) ->
  exists losses n,
    Spec.batch_losses net criterion loader = List.map Ok losses
    /\ Evaluation.last_batch_size loader = Some n
    /\ (loss == Qsum losses / inject_Z (Z.of_nat n))%Q.
Proof.
  unfold Evaluation.evaluate.
  destruct (Evaluation.batch_loop net criterion loader) as [st|e] eqn:Hrun; simpl; [|discriminate].
  destruct (Metrics.roc_auc_score _ _) as [auc'|e]; simpl; [|discriminate].
  destruct (py_truediv (Evaluation.total_err st) _) as [err'|e]; simpl; [|discriminate].
  destruct (batch_loop_totals _ _ Hrun) as (losses & Hl & Hloss & _ & _ & _ & Hi).
  destruct (Evaluation.i st) as [i|] eqn:Ei; simpl; [|discriminate].
  unfold py_truediv.
  destruct (Qeq_bool (inject_Z (Z.of_nat i + 1)) 0); [discriminate|].
  intros H. injection H as _ <- _.
  destruct (Evaluation.last_batch_size loader) as [n|] eqn:En; simpl in Hi;
    [|discriminate].
  injection Hi as ->.
  assert (Hn : (0 < n)%nat).
  { clear -En. revert En. unfold Evaluation.last_batch_size.
    induction loader as [|b loader IH] using rev_ind; [discriminate|].
    rewrite fold_left_app. simpl.
    destruct (length (snd b)) eqn:E; [exact IH|].
    intros H. injection H as <-. lia. }
  exists losses, n. split; [exact Hl|]. split; [reflexivity|].
  rewrite Hloss.
  replace (Z.of_nat (Nat.pred n) + 1) with (Z.of_nat n) by lia.
  reflexivity.
Qed.

Lemma thresholded_positive (outputs : list Q) :
  Forall (fun o => (0 < o)%Q) outputs ->
  Evaluation.thresholded outputs = repeat 1 (length outputs).
Proof.
  induction 1 as [|o os Ho _ IH]; simpl; [reflexivity|].
  rewrite IH. f_equal.
  destruct (Qle_bool o 0) eqn:E; [|reflexivity].
  apply Qle_bool_iff in E. exfalso. apply (Qlt_not_le _ _ Ho E).
Qed.

Lemma count_map_repeat {A : Type} (f : A -> bool) (x : A) (n : nat) :
  length (List.filter id (List.map f (repeat x n))) = if f x then n else 0%nat.
Proof.
  destruct (f x) eqn:E; induction n as [|n IH]; simpl; rewrite ?E; simpl; auto.
Qed.

(** When every prediction is 1, the broadcast comparison counts, for
    each label that is not 1, one mismatch per prediction. *)
Lemma mismatches_all_ones (n : nat) (labels : list Z) :
  Evaluation.tensor_sum (Evaluation.ne_broadcast (repeat 1 n) labels)
  = Z.of_nat n * Z.of_nat (length (List.filter (fun l => negb (1 =? l)) labels)).
Proof.
  unfold Evaluation.tensor_sum, Evaluation.ne_broadcast.
  induction labels as [|l ls IH]; [simpl; lia|].
  cbn [List.map concat List.filter].
  rewrite List.filter_app, length_app, Nat2Z.inj_add, IH.
  rewrite (count_map_repeat (fun p => negb (p =? l)) 1 n).
  destruct (negb (1 =? l)); cbn [length]; lia.
Qed.

(** With strictly positive outputs, the error rate [evaluate] returns is
    the sum over the batches of (number of predictions) x (number of
    labels that are not 1), divided by the number of examples. *)
Lemma evaluate_err_positive_outputs (loader : list (Evaluation.batch X)) (err loss auc : Q) :
  Evaluation.evaluate net criterion loader = Ok (err, loss, auc) ->
  (forall b, In b loader -> Forall (fun o => (0 < o)%Q) (net (fst b))) ->
  let errors (b : Evaluation.batch X) :=
    Z.of_nat (length (net (fst b)))
    * Z.of_nat (length (List.filter (fun l => negb (1 =? l)) (snd b))) in
  let examples (b : Evaluation.batch X) := Z.of_nat (length (snd b)) in
  (err == inject_Z (fold_right Z.add 0%Z (List.map errors loader))
          / inject_Z (fold_right Z.add 0%Z (List.map examples loader)))%Q.
Proof.
  intros Heval Hpos errors examples.
  unfold Evaluation.evaluate in Heval.
  destruct (Evaluation.batch_loop net criterion loader) as [st|e] eqn:Hrun;
    simpl in Heval; [|discriminate].
  destruct (Metrics.roc_auc_score _ _) as [auc'|e]; simpl in Heval; [|discriminate].
  unfold py_truediv at 1 in Heval.
  destruct (Qeq_bool (inject_Z (Evaluation.total_epoch st)) 0); [discriminate|].
  simpl in Heval.
  destruct (Evaluation.i st) as [i|]; simpl in Heval; [|discriminate].
  destruct (py_truediv _ _) as [loss'|e]; simpl in Heval; [|discriminate].
  injection Heval as <- _ _.
  destruct (batch_loop_totals _ _ Hrun) as (_ & _ & _ & Herr & Hepoch & _).
  rewrite Herr, Hepoch.
  rewrite (map_ext_in (Evaluation.pair_mismatches net) errors).
  - reflexivity.
  - intros b Hb. unfold Evaluation.pair_mismatches.
    rewrite (thresholded_positive _ (Hpos b Hb)). apply mismatches_all_ones.
Qed.

End EvaluateFacts.

(** *** The two defects at concrete loaders *)

(** C3, at a loader of three batches of sizes 2, 2 and 1 whose losses
    are 1/2 each: the specification's mean loss (sum of the per-batch
    losses over the number of batches) is 1/2; [evaluate] returns 3/2,
    the sum divided by the size of the last batch, because the divisor
    [i + 1] reads the index variable of the inner loop over the examples
    of a batch. *)
Theorem evaluate_mean_loss_at_loader_2_2_1 :
  exists err loss auc,
    Evaluation.evaluate Examples.half_net Examples.l1_loss Examples.loader_2_2_1
    = Ok (err, loss, auc)
    /\ Forall2 (fun r q => exists l, r = Ok l /\ (l == q)%Q)
               (Spec.batch_losses Examples.half_net Examples.l1_loss Examples.loader_2_2_1)
               [1 # 2; 1 # 2; 1 # 2]%Q
    /\ (Spec.mean_loss [1 # 2; 1 # 2; 1 # 2] == 1 # 2)%Q
    /\ (loss == 3 # 2)%Q
    /\ (loss == Qsum [1 # 2; 1 # 2; 1 # 2] / 1)%Q.
Proof.
  eexists _, _, _. split; [vm_compute; reflexivity|].
  split.
  { vm_compute. repeat constructor; eexists; (split; [reflexivity|]);
      vm_compute; reflexivity. }
  repeat split; vm_compute; reflexivity.
Qed.

(** C6, at one batch of two examples with labels 0 and 1 and a network
    whose outputs are all 1/2 (strictly positive): the fraction of
    examples whose label is 0 is 1/2; [evaluate] returns error rate 1,
    because the squeezed predictions of shape (2,) are compared with the
    labels of shape (2, 1) by broadcasting, which counts every
    (prediction, label) pair. *)
Theorem evaluate_error_rate_at_loader_2 :
  (forall b, Forall (fun o => (0 < o)%Q) (Examples.half_net b))
  /\ exists err loss auc,
       Evaluation.evaluate Examples.half_net Examples.l1_loss Examples.loader_2
       = Ok (err, loss, auc)
       /\ Evaluation.thresholded (Examples.half_net 2%nat) = [1; 1]
       /\ (Spec.fraction_of_zero_labels [0; 1]%Z == 1 # 2)%Q
       /\ (err == 1)%Q.
Proof.
  split.
  { intros b. unfold Examples.half_net. apply Forall_repeat_same. reflexivity. }
  eexists _, _, _. split; [vm_compute; reflexivity|].
  repeat split; vm_compute; reflexivity.
Qed.

(** ** The training loop *)

Section TrainNetFacts.

Context {X model : Type}.
Variable add_noise : model -> X -> X * model.
Variable forward : bool -> model -> X -> list Q.
Variable optimizer_step : model -> X -> list Z -> model.
Variable scheduler_step : model -> model.
Variable criterion : list Q -> list Q -> result Q.
Variable train_dataloader validation_dataloader : nat -> list (Evaluation.batch X).
Variable use_scheduler : bool.

(** Whatever the model, the data and the settings, a call of [train_net]
    that returns, returns [None]. *)
Lemma train_net_returns_None (m : model) (batch_size num_epochs : Z)
    (m' : model) (value : option Training.report) :
  Training.train_net add_noise forward optimizer_step scheduler_step criterion
    train_dataloader validation_dataloader use_scheduler m batch_size num_epochs
  = Ok (m', value) ->
  value = None.
Proof.
  unfold Training.train_net.
  destruct (num_epochs <? 0); [discriminate|].
  destruct (Training.run_epochs _ _ _ _ _ _ _ _ _ _ _) as [st|e]; simpl;
    [|discriminate].
  intros H. now injection H as _ <-.
Qed.

(** So the trial never gets to its report: unpacking the result raises. *)
Lemma train_and_report_raises (m : model) (batch_size num_epochs : Z) :
  exists e,
    Training.train_and_report add_noise forward optimizer_step scheduler_step criterion
      train_dataloader validation_dataloader use_scheduler m batch_size num_epochs
    = Raise e.
Proof.
  unfold Training.train_and_report.
  destruct (Training.train_net _ _ _ _ _ _ _ _ _ _ _) as [[m' value]|e] eqn:E; simpl.
  - apply train_net_returns_None in E. subst value. simpl. now exists TypeError.
  - now exists e.
Qed.

End TrainNetFacts.

(** C1, at a run of two epochs with batch size 2 over one batch per
    loader: the specification has [train_net] return the best epoch and
    its metrics; the call returns [None], and the trial's tuple
    assignment raises a type error before anything is reported. *)
Theorem train_net_at_two_epochs :
  Examples.train_net tt 2 2 = Ok (tt, None)
  /\ Examples.train_and_report tt 2 2 = Raise TypeError.
Proof.
  split; vm_compute; reflexivity.
Qed.

(** ** Data preparation *)

(** [load_image_data] stores a list under every patient. *)
Lemma load_image_data_entries (tree : list (Z * list Prepare.volume)) (patients : list Z)
    (limit : Z) (images : gmap Z (CNNDataset.entry Prepare.volume)) (used : list Z) :
  Prepare.load_image_data tree patients limit = Ok (images, used) ->
  forall k e, images !! k = Some e -> exists xs, e = CNNDataset.EList xs.
Proof.
  unfold Prepare.load_image_data.
  set (dirs := Prepare.apply_limit limit _). clearbody dirs.
  assert (G : forall (ds : list (Z * list Prepare.volume))
                    (acc out : gmap Z (CNNDataset.entry Prepare.volume)),
             (forall k e, acc !! k = Some e -> exists xs, e = CNNDataset.EList xs) ->
             fold_left (fun acc d =>
                          let* data_images := acc in
                          let* f0 := py_index (snd d) 0 in
                          let* f1 := py_index (snd d) 1 in
                          Ok (<[fst d := CNNDataset.EList [f0; f1]]> data_images))
                       ds (Ok acc) = Ok out ->
             forall k e, out !! k = Some e -> exists xs, e = CNNDataset.EList xs).
  { induction ds as [|d ds IH]; intros acc out Hacc Hfold; simpl in Hfold.
    - now injection Hfold as <-.
    - destruct (py_index (snd d) 0) as [f0|e0]; simpl in Hfold;
        [|rewrite fold_left_Raise in Hfold by reflexivity; discriminate].
      destruct (py_index (snd d) 1) as [f1|e1]; simpl in Hfold;
        [|rewrite fold_left_Raise in Hfold by reflexivity; discriminate].
      eapply IH; [|exact Hfold].
      intros k e Hk. destruct (decide (fst d = k)) as [Heq|Hne].
      + rewrite Heq, lookup_insert_eq in Hk. injection Hk as <-. now eexists.
      + rewrite lookup_insert_ne in Hk by exact Hne. exact (Hacc k e Hk). }
  destruct (fold_left _ dirs (Ok ∅)) as [out|e] eqn:E; simpl; [|discriminate].
  intros H. injection H as <- _.
  eapply G; [|exact E].
  intros k e Hk. rewrite lookup_empty in Hk. discriminate.
Qed.

(** Over a mapping that stores lists, the adapter never returns a pair:
    the string subscript raises. *)
Lemma getitem_over_lists {obj : Type} (data : gmap Z (CNNDataset.entry obj))
    (patient_ids : list Z) (idx : Z) :
  (forall k e, data !! k = Some e -> exists xs, e = CNNDataset.EList xs) ->
  exists e, CNNDataset.__getitem__ (CNNDataset.__init__ data patient_ids) idx = Raise e.
Proof.
  intros Hlists. unfold CNNDataset.__getitem__. simpl.
  destruct (py_list_getitem patient_ids idx) as [pid|e]; simpl; [|now exists e].
  unfold py_getitem. destruct (data !! pid) as [entry|] eqn:E; simpl.
  - destruct (Hlists pid entry E) as [xs ->]. simpl. now exists TypeError.
  - now exists KeyError.
Qed.

(** The loop of lines 592-593 leaves [data] empty. *)
Lemma prepare_cnn_data_empty (images : gmap Z (CNNDataset.entry Prepare.volume))
    (patients_used : list Z) st :
  Prepare.prepare_cnn_data images patients_used = Ok st -> fst st = ∅.
Proof.
  unfold Prepare.prepare_cnn_data.
  assert (G : forall ps acc out,
             fst acc = ∅ ->
             fold_left (fun acc each_patient =>
                          let* st := acc in
                          let* e0 := py_getitem images each_patient in
                          let* a := CNNDataset.entry_getitem_int e0 0 in
                          let* e1 := py_getitem images each_patient in
                          let* b := CNNDataset.entry_getitem_int e1 1 in
                          Ok (fst st, Some (Prepare.unsqueeze0 (Prepare.np_multiply a b))))
                       ps (Ok acc) = Ok out ->
             fst out = (∅ : gmap Z (CNNDataset.entry (list Prepare.volume)))).
  { induction ps as [|p ps IH]; intros acc out Hacc Hfold; simpl in Hfold.
    - now injection Hfold as <-.
    - repeat match type of Hfold with
             | context [rbind ?c _] =>
                 destruct c; simpl in Hfold;
                 [|rewrite fold_left_Raise in Hfold by reflexivity; discriminate]
             end.
      eapply IH; [|exact Hfold]. exact Hacc. }
  apply G. reflexivity.
Qed.

(** C4, at one patient with two image files: the specification has the
    product of the two channels as the model's input sample. The script
    computes the product into a local variable and stores it nowhere
    ([data] stays empty); the dataset is built over [images], whose
    entries are the lists of the two channels, so fetching a sample
    raises a type error and no product reaches the model. *)
Theorem sample_at_one_patient :
  exists images,
    Prepare.load_image_data Examples.tree [1] 5 = Ok (images, [1])
    /\ images !! 1 = Some (CNNDataset.EList [Examples.channel_a; Examples.channel_b])
    /\ Prepare.prepare_cnn_data images [1]
       = Ok (∅, Some [Prepare.np_multiply Examples.channel_a Examples.channel_b])
    /\ CNNDataset.__len__ (Prepare.trial_dataset images [1]) = 1
    /\ CNNDataset.__getitem__ (Prepare.trial_dataset images [1]) 0 = Raise TypeError.
Proof.
  eexists. split; [vm_compute; reflexivity|].
  repeat split; vm_compute; reflexivity.
Qed.

(** ** Seeding *)

Section SeedingFacts.

Variable randint_0_1000 : Seeding.generator -> Z.
Variable rest_of_trial : Seeding.generators -> Seeding.generators.

(** Every trial starts from the same generators, whatever the earlier
    trials did: all four are seeded with 1. *)
Lemma seed_trial_fixed (g : Seeding.generators) :
  let s := Seeding.seed_trial randint_0_1000 g in
  Seeding.seeded_with s = 1
  /\ Seeding.next_seed s = randint_0_1000 (Seeding.seeded 1)
  /\ Seeding.np_random (Seeding.at_split s) = Seeding.seeded 1
  /\ Seeding.torch_default (Seeding.at_split s) = Seeding.seeded 1
  /\ Seeding.torch_cuda (Seeding.at_split s) = Seeding.seeded 1
  /\ Seeding.py_random (Seeding.at_split s)
     = {| Seeding.seed_of := 1; Seeding.draws := 1 |}.
Proof.
  repeat split.
Qed.

Lemma trials_all_alike (num_trials : nat) (g : Seeding.generators) :
  Forall (fun s => s = Seeding.seed_trial randint_0_1000 Seeding.at_startup)
         (Seeding.trials randint_0_1000 rest_of_trial num_trials g).
Proof.
  revert g. induction num_trials as [|n IH]; intros g; simpl; constructor.
  - reflexivity.
  - apply IH.
Qed.

End SeedingFacts.

(** C5, at the script's five trials: the four generators are seeded at
    the start of each trial and one integer is drawn afterwards, but the
    specification has that integer seed the next trial, so that
    consecutive trials differ. Each iteration first resets [seed] to 1:
    every trial is seeded with 1, draws the same integer, and makes its
    split from the same generator state. *)
Theorem trials_at_five (randint_0_1000 : Seeding.generator -> Z)
    (rest_of_trial : Seeding.generators -> Seeding.generators) (g : Seeding.generators) :
  let log := Seeding.trials randint_0_1000 rest_of_trial 5 g in
  List.map Seeding.seeded_with log = [1; 1; 1; 1; 1]
  /\ List.map Seeding.next_seed log
     = repeat (randint_0_1000 (Seeding.seeded 1)) 5
  /\ List.map (fun s => Seeding.torch_default (Seeding.at_split s)) log
     = repeat (Seeding.seeded 1) 5.
Proof.
  repeat split.
Qed.

(** * Further properties of the code *)

(** ** Shapes through the blocks and the network *)

Lemma window_3_1 (n s : Z) :
  1 <= n -> 1 <= s -> Forward.window n 3 s 1 = Some (Forward.strided s n).
Proof.
  intros Hn Hs. unfold Forward.window, Forward.strided.
  destruct (Z.ltb_spec 0 s); [|lia].
  destruct (Z.leb_spec 3 (n + 2 * 1)); [|lia].
  cbn [andb Z.ltb]. now replace (n + 2 * 1 - 3) with (n - 1) by lia.
Qed.

Lemma window_1_0 (n s : Z) :
  1 <= n -> 1 <= s -> Forward.window n 1 s 0 = Some (Forward.strided s n).
Proof.
  intros Hn Hs. unfold Forward.window, Forward.strided.
  destruct (Z.ltb_spec 0 s); [|lia].
  destruct (Z.leb_spec 1 (n + 2 * 0)); [|lia].
  cbn [andb Z.ltb]. now replace (n + 2 * 0 - 1) with (n - 1) by lia.
Qed.

Lemma strided_1 (n : Z) : Forward.strided 1 n = n.
Proof. unfold Forward.strided. rewrite Z.div_1_r. lia. Qed.

Lemma strided_pos (s n : Z) : 1 <= n -> 1 <= s -> 1 <= Forward.strided s n <= n.
Proof.
  intros Hn Hs. unfold Forward.strided.
  assert (0 <= (n - 1) / s) by (apply Z.div_pos; lia).
  assert ((n - 1) / s <= n - 1) by (apply Z.div_le_upper_bound; nia).
  lia.
Qed.

Lemma conv3x3x3_shape (i o s n d h w : Z) :
  1 <= s -> 1 <= d -> 1 <= h -> 1 <= w ->
  Forward.conv3d (Network.conv3x3x3 i o s) [n; i; d; h; w]
  = Some [n; o; Forward.strided s d; Forward.strided s h; Forward.strided s w].
Proof.
  intros Hs Hd Hh Hw. unfold Forward.conv3d, Network.conv3x3x3. cbn [Network.in_channels].
  rewrite Z.eqb_refl.
  cbn [Network.kernel_size Network.conv_stride Network.padding Network.out_channels
       Forward.windows].
  now rewrite !window_3_1 by assumption.
Qed.

Lemma conv1x1x1_shape (i o s n d h w : Z) :
  1 <= s -> 1 <= d -> 1 <= h -> 1 <= w ->
  Forward.conv3d (Network.conv1x1x1 i o s) [n; i; d; h; w]
  = Some [n; o; Forward.strided s d; Forward.strided s h; Forward.strided s w].
Proof.
  intros Hs Hd Hh Hw. unfold Forward.conv3d, Network.conv1x1x1. cbn [Network.in_channels].
  rewrite Z.eqb_refl.
  cbn [Network.kernel_size Network.conv_stride Network.padding Network.out_channels
       Forward.windows].
  now rewrite !window_1_0 by assumption.
Qed.

Lemma batch_norm3d_shape (training : bool) (c n d h w : Z) :
  Forward.batch_accepted training n -> 1 <= d -> 1 <= h -> 1 <= w ->
  Forward.batch_norm3d training c [n; c; d; h; w] = Some [n; c; d; h; w].
Proof.
  intros [Hn Htr] Hd Hh Hw. unfold Forward.batch_norm3d.
  rewrite Z.eqb_refl. cbn [negb].
  destruct training; [|reflexivity].
  specialize (Htr eq_refl).
  destruct (Z.eqb_spec (n * (d * h * w)) 1) as [E|_]; [nia|reflexivity].
Qed.

Lemma iadd_same (x : Forward.shape) : Forward.iadd x x = Some x.
Proof.
  unfold Forward.iadd.
  assert (G : forall l, Forward.broadcasts_rev l l = true).
  { induction l as [|a l IH]; simpl; [reflexivity|]. now rewrite Z.eqb_refl, IH. }
  now rewrite G.
Qed.

Lemma pool3d_1_0 (s n c d h w : Z) :
  1 <= s -> 1 <= d -> 1 <= h -> 1 <= w ->
  Forward.pool3d 1 s 0 [n; c; d; h; w]
  = Some [n; c; Forward.strided s d; Forward.strided s h; Forward.strided s w].
Proof.
  intros Hs Hd Hh Hw. unfold Forward.pool3d. cbn [Forward.windows].
  now rewrite !window_1_0 by assumption.
Qed.

Lemma pool3d_3_2_1 (n c d h w : Z) :
  1 <= d -> 1 <= h -> 1 <= w ->
  Forward.pool3d 3 2 1 [n; c; d; h; w]
  = Some [n; c; Forward.strided 2 d; Forward.strided 2 h; Forward.strided 2 w].
Proof.
  intros Hd Hh Hw. unfold Forward.pool3d. cbn [Forward.windows].
  now rewrite !window_3_1 by lia.
Qed.

Lemma obind_Some {A B : Type} (o : option A) (k : A -> option B) (a : A) :
  o = Some a -> Forward.obind o k = k a.
Proof. now intros ->. Qed.

Lemma iadd_eq (out residual : Forward.shape) :
  residual = out -> Forward.iadd out residual = Some out.
Proof. intros ->. apply iadd_same. Qed.

(** The main path of a block: from [in_planes] channels to
    [planes * expansion] channels, each spatial axis divided by the
    stride. *)
Lemma block_main_path (training : bool) (block : Network.block_class)
    (in_planes planes stride : Z) (downsample : option Network.shortcut)
    (n d h w : Z) :
  1 <= stride -> Forward.batch_accepted training n -> 1 <= d -> 1 <= h -> 1 <= w ->
  match downsample with
  | Some sc => Forward.apply_shortcut training sc [n; in_planes; d; h; w]
  | None => Some [n; in_planes; d; h; w]
  end = Some [n; planes * Network.expansion block;
              Forward.strided stride d; Forward.strided stride h;
              Forward.strided stride w] ->
  Forward.block_forward training
    {| Network.blk_class := block; Network.blk_in_planes := in_planes;
       Network.blk_planes := planes; Network.blk_stride := stride;
       Network.blk_downsample := downsample |} [n; in_planes; d; h; w]
  = Some [n; planes * Network.expansion block;
          Forward.strided stride d; Forward.strided stride h; Forward.strided stride w].
Proof.
  intros Hs Hn Hd Hh Hw Hres.
  pose proof (strided_pos stride d Hd Hs) as Hd'.
  pose proof (strided_pos stride h Hh Hs) as Hh'.
  pose proof (strided_pos stride w Hw Hs) as Hw'.
  unfold Forward.block_forward. cbv zeta.
  cbn [Network.blk_class Network.blk_in_planes Network.blk_planes Network.blk_stride
       Network.blk_downsample].
  destruct block.
  - rewrite conv3x3x3_shape by assumption. cbn [Forward.obind].
    rewrite batch_norm3d_shape by (assumption || lia). cbn [Forward.obind].
    rewrite conv3x3x3_shape by lia. cbn [Forward.obind].
    rewrite !strided_1.
    rewrite batch_norm3d_shape by (assumption || lia). cbn [Forward.obind].
    etransitivity; [apply (obind_Some _ _ _ Hres)|].
    cbn [Network.expansion]. rewrite Z.mul_1_r. apply iadd_same.
  - rewrite conv1x1x1_shape by lia. cbn [Forward.obind].
    rewrite !strided_1.
    rewrite batch_norm3d_shape by (assumption || lia). cbn [Forward.obind].
    rewrite conv3x3x3_shape by assumption. cbn [Forward.obind].
    rewrite batch_norm3d_shape by (assumption || lia). cbn [Forward.obind].
    rewrite conv1x1x1_shape by lia. cbn [Forward.obind].
    rewrite !strided_1.
    rewrite batch_norm3d_shape by (assumption || lia). cbn [Forward.obind].
    etransitivity; [apply (obind_Some _ _ _ Hres)|]. apply iadd_same.
Qed.

(** A block of stride 1 without a shortcut keeps the shape. *)
Lemma block_identity_path (training : bool) (block : Network.block_class)
    (planes n d h w : Z) :
  Forward.batch_accepted training n -> 1 <= d -> 1 <= h -> 1 <= w ->
  Forward.block_forward training
    {| Network.blk_class := block;
       Network.blk_in_planes := planes * Network.expansion block;
       Network.blk_planes := planes; Network.blk_stride := 1;
       Network.blk_downsample := None |}
    [n; planes * Network.expansion block; d; h; w]
  = Some [n; planes * Network.expansion block; d; h; w].
Proof.
  intros Hn Hd Hh Hw.
  pose proof (block_main_path training block (planes * Network.expansion block) planes 1
                None n d h w ltac:(lia) Hn Hd Hh Hw) as H.
  rewrite !strided_1 in H. now apply H.
Qed.

Lemma sequential_repeat (training : bool) (b : Network.Block) (x : Forward.shape) (k : nat) :
  Forward.block_forward training b x = Some x ->
  fold_left (fun acc b => Forward.obind acc (fun y => Forward.block_forward training b y))
            (repeat b k) (Some x) = Some x.
Proof.
  intros Hb. induction k as [|k IH]; simpl; [reflexivity|]. now rewrite Hb.
Qed.

(** The shapes through a stage built by [_make_layer]. *)
Lemma make_layer_forward (training : bool) (in_planes : Z)
    (block : Network.block_class) (planes blocks : Z) (shortcut_type : string)
    (stride n d h w : Z) :
  1 <= stride ->
  Forward.batch_accepted training n ->
  1 <= d -> 1 <= h -> 1 <= w ->
  (shortcut_type = "A"%string -> in_planes <= planes * Network.expansion block) ->
  Forward.sequential training
    (fst (Network._make_layer in_planes block planes blocks shortcut_type stride))
    [n; in_planes; d; h; w]
  = Some [n; planes * Network.expansion block;
          Forward.strided stride d; Forward.strided stride h; Forward.strided stride w].
Proof.
  intros Hs Hn Hd Hh Hw HA.
  pose proof (strided_pos stride d Hd Hs) as Hd'.
  pose proof (strided_pos stride h Hh Hs) as Hh'.
  pose proof (strided_pos stride w Hw Hs) as Hw'.
  unfold Forward.sequential, Network._make_layer. cbn [fst fold_left Forward.obind].
  rewrite block_main_path; try assumption.
  - apply sequential_repeat.
    apply block_identity_path; (assumption || lia).
  - destruct (Z.eqb_spec stride 1) as [Hs1|Hs1];
      destruct (Z.eqb_spec in_planes (planes * Network.expansion block)) as [Hp|Hp];
      cbn [negb orb].
    + subst stride. rewrite !strided_1. now rewrite Hp.
    + destruct (String.eqb_spec shortcut_type "A") as [HeqA|_];
        cbn [Forward.apply_shortcut].
      * unfold Forward._downsample_basic_block.
        rewrite pool3d_1_0 by assumption. cbn [Forward.obind].
        specialize (HA HeqA).
        destruct (Z.ltb_spec (planes * Network.expansion block - in_planes) 0); [lia|].
        do 2 f_equal. f_equal. lia.
      * rewrite conv1x1x1_shape by assumption. cbn [Forward.obind].
        now rewrite batch_norm3d_shape by (assumption || lia).
    + destruct (String.eqb_spec shortcut_type "A") as [HeqA|_];
        cbn [Forward.apply_shortcut].
      * unfold Forward._downsample_basic_block.
        rewrite pool3d_1_0 by assumption. cbn [Forward.obind].
        specialize (HA HeqA).
        destruct (Z.ltb_spec (planes * Network.expansion block - in_planes) 0); [lia|].
        do 2 f_equal. f_equal. lia.
      * rewrite conv1x1x1_shape by assumption. cbn [Forward.obind].
        now rewrite batch_norm3d_shape by (assumption || lia).
    + destruct (String.eqb_spec shortcut_type "A") as [HeqA|_];
        cbn [Forward.apply_shortcut].
      * unfold Forward._downsample_basic_block.
        rewrite pool3d_1_0 by assumption. cbn [Forward.obind].
        specialize (HA HeqA).
        destruct (Z.ltb_spec (planes * Network.expansion block - in_planes) 0); [lia|].
        do 2 f_equal. f_equal. lia.
      * rewrite conv1x1x1_shape by assumption. cbn [Forward.obind].
        now rewrite batch_norm3d_shape by (assumption || lia).
Qed.

(** The first convolution leaves at least one position on every spatial
    axis. *)
Lemma conv1_shape (c_in c_out t ts n d h w : Z) :
  1 <= t -> 1 <= ts -> 1 <= d -> 1 <= h -> 1 <= w ->
  exists d',
    1 <= d'
    /\ Forward.conv3d
         {| Network.in_channels := c_in; Network.out_channels := c_out;
            Network.kernel_size := (t, 7, 7);
            Network.conv_stride := (ts, 2, 2);
            Network.padding := (t / 2, 3, 3) |} [n; c_in; d; h; w]
       = Some [n; c_out; d'; Forward.strided 2 h; Forward.strided 2 w].
Proof.
  intros Ht Hts Hd Hh Hw.
  assert (Hwd : Forward.window d t ts (t / 2) = Some ((d + 2 * (t / 2) - t) / ts + 1)
                /\ 1 <= (d + 2 * (t / 2) - t) / ts + 1).
  { unfold Forward.window.
    pose proof (Z.div_mod t 2 ltac:(lia)) as Hdm.
    pose proof (Z.mod_pos_bound t 2 ltac:(lia)) as Hmb.
    destruct (Z.ltb_spec 0 ts); [|lia].
    destruct (Z.ltb_spec 0 t); [|lia].
    destruct (Z.leb_spec t (d + 2 * (t / 2))); [|lia].
    split; [reflexivity|].
    assert (0 <= (d + 2 * (t / 2) - t) / ts) by (apply Z.div_pos; lia). lia. }
  destruct Hwd as [Hwd Hd1].
  assert (Hwh : forall v, 1 <= v -> Forward.window v 7 2 3 = Some (Forward.strided 2 v)).
  { intros v Hv. unfold Forward.window, Forward.strided.
    destruct (Z.leb_spec 7 (v + 2 * 3)); [|lia].
    cbn [andb Z.ltb Z.compare]. now replace (v + 2 * 3 - 7) with (v - 1) by lia. }
  exists ((d + 2 * (t / 2) - t) / ts + 1). split; [exact Hd1|].
  unfold Forward.conv3d.
  cbn [Network.in_channels Network.out_channels Network.kernel_size Network.conv_stride
       Network.padding Forward.windows].
  now rewrite Z.eqb_refl, Hwd, !Hwh by assumption.
Qed.

(** From the stem's output through the four stages and the head. *)
Lemma trunk_shape (training : bool) (block : Network.block_class)
    (p0 p1 p2 p3 n0 n1 n2 n3 : Z) (st : string) (n_classes n d h w : Z) :
  st <> "A"%string ->
  0 < p3 * Network.expansion block ->
  Forward.batch_accepted training n -> 1 <= d -> 1 <= h -> 1 <= w ->
  Forward.obind
    (Forward.sequential training
       (fst (Network._make_layer p0 block p0 n0 st 1)) [n; p0; d; h; w])
    (fun x =>
     Forward.obind
       (Forward.sequential training
          (fst (Network._make_layer (p0 * Network.expansion block) block p1 n1 st 2)) x)
       (fun x =>
        Forward.obind
          (Forward.sequential training
             (fst (Network._make_layer (p1 * Network.expansion block) block p2 n2 st 2)) x)
          (fun x =>
           Forward.obind
             (Forward.sequential training
                (fst (Network._make_layer (p2 * Network.expansion block) block p3 n3 st 2))
                x)
             (fun x =>
              Forward.obind (Forward.adaptive_avg_pool3d x)
                (fun x =>
                 Forward.obind (Forward.view_rows x)
                   (fun x =>
                    Forward.linear (p3 * Network.expansion block, n_classes) x))))))
  = Some [n; n_classes].
Proof.
  intros HB Hfc Hn Hd Hh Hw.
  assert (HA : forall a b : Z, st = "A"%string -> a <= b)
    by (intros a b HeqA; contradiction).
  rewrite make_layer_forward by (assumption || lia || apply HA).
  cbn [Forward.obind]. rewrite !strided_1.
  pose proof (strided_pos 2 d Hd ltac:(lia)) as Hd1.
  pose proof (strided_pos 2 h Hh ltac:(lia)) as Hh1.
  pose proof (strided_pos 2 w Hw ltac:(lia)) as Hw1.
  rewrite make_layer_forward by (assumption || lia || apply HA).
  cbn [Forward.obind].
  pose proof (strided_pos 2 _ (proj1 Hd1) ltac:(lia)) as Hd2.
  pose proof (strided_pos 2 _ (proj1 Hh1) ltac:(lia)) as Hh2.
  pose proof (strided_pos 2 _ (proj1 Hw1) ltac:(lia)) as Hw2.
  rewrite make_layer_forward by (assumption || lia || apply HA).
  cbn [Forward.obind].
  pose proof (strided_pos 2 _ (proj1 Hd2) ltac:(lia)) as Hd3.
  pose proof (strided_pos 2 _ (proj1 Hh2) ltac:(lia)) as Hh3.
  pose proof (strided_pos 2 _ (proj1 Hw2) ltac:(lia)) as Hw3.
  rewrite make_layer_forward by (assumption || lia || apply HA).
  cbn [Forward.obind].
  unfold Forward.adaptive_avg_pool3d.
  destruct (Z.ltb_spec 0 (p3 * Network.expansion block)); [|lia].
  destruct (Z.ltb_spec 0 (Forward.strided 2 (Forward.strided 2 (Forward.strided 2 d))));
    [|lia].
  destruct (Z.ltb_spec 0 (Forward.strided 2 (Forward.strided 2 (Forward.strided 2 h))));
    [|lia].
  destruct (Z.ltb_spec 0 (Forward.strided 2 (Forward.strided 2 (Forward.strided 2 w))));
    [|lia].
  cbn [andb Forward.obind]. unfold Forward.view_rows.
  cbn [fold_right].
  replace (p3 * Network.expansion block * (1 * (1 * (1 * 1))))
    with (p3 * Network.expansion block) by lia.
  destruct (Z.eqb_spec n 0) as [Hn0|_]; [destruct Hn; lia|].
  destruct (Z.eqb_spec (p3 * Network.expansion block) 0) as [Hp0|_]; [lia|].
  cbn [orb Forward.obind]. unfold Forward.linear. cbn [rev app fst snd].
  now rewrite Z.eqb_refl.
Qed.

(** The shapes through a network built by [ResNet.__init__]. *)
Lemma forward_of_init (training : bool) (block : Network.block_class)
    (layers block_inplanes : list Z) (model_depth : Z) (kw : Network.kwargs)
    (dropout_rate : Q) (net : Network.ResNet) (n d h w : Z) :
  Network.ResNet_init block layers block_inplanes model_depth kw dropout_rate = Ok net ->
  Network.shortcut_type kw <> "A"%string ->
  1 <= Network.conv1_t_size kw ->
  1 <= Network.conv1_t_stride kw ->
  0 < fst (Network.fc net) ->
  Forward.batch_accepted training n ->
  1 <= d -> 1 <= h -> 1 <= w ->
  Forward.forward training net [n; Network.n_input_channels kw; d; h; w]
  = Some [n; Network.n_classes kw].
Proof.
  intros Hinit HB Ht Hts Hfc Hn Hd Hh Hw.
  destruct (ResNet_init_fields _ _ _ _ _ _ _ Hinit)
    as (w0 & w1 & w2 & w3 & ws & n0 & n1 & n2 & n3 & ns & _ & _ & Hfields).
  cbv zeta in Hfields.
  destruct Hfields as (Hconv & Hbn & Hpool & H1 & H2 & H3 & H4 & Hfc' & _).
  destruct (conv1_shape (Network.n_input_channels kw) w0
              (Network.conv1_t_size kw) (Network.conv1_t_stride kw) n d h w
              Ht Hts Hd Hh Hw) as (d0 & Hd0 & Hc1).
  pose proof (strided_pos 2 h Hh ltac:(lia)) as Hh0.
  pose proof (strided_pos 2 w Hw ltac:(lia)) as Hw0.
  unfold Forward.forward. rewrite Hconv, Hbn, Hpool, H1, H2, H3, H4, Hfc', Hc1.
  rewrite Hfc' in Hfc. cbn [fst] in Hfc.
  cbn [Forward.obind].
  rewrite batch_norm3d_shape by (assumption || lia). cbn [Forward.obind].
  destruct (Network.no_max_pool kw).
  - cbn [Forward.obind]. apply trunk_shape; (assumption || lia).
  - rewrite pool3d_3_2_1 by lia. cbn [Forward.obind].
    pose proof (strided_pos 2 d0 Hd0 ltac:(lia)).
    pose proof (strided_pos 2 _ (proj1 Hh0) ltac:(lia)).
    pose proof (strided_pos 2 _ (proj1 Hw0) ltac:(lia)).
    apply trunk_shape; (assumption || lia).
Qed.

(** X1. A stage built by [_make_layer], applied to a batch of
    [in_planes] channels, returns [planes * expansion] channels with each
    spatial axis cut down by the stride; in particular the residual sum of
    every block is well shaped. With the parameter-free shortcut (type
    'A') the stage must not narrow the channels. *)
Theorem stage_forward_shape (training : bool) (in_planes : Z)
    (block : Network.block_class) (planes blocks : Z) (shortcut_type : string)
    (stride n d h w : Z) :
  1 <= in_planes -> 1 <= planes ->
  1 <= stride ->
  Forward.batch_accepted training n ->
  1 <= d -> 1 <= h -> 1 <= w ->
  (shortcut_type = "A"%string -> in_planes <= planes * Network.expansion block) ->
  Forward.sequential training
    (fst (Network._make_layer in_planes block planes blocks shortcut_type stride))
    [n; in_planes; d; h; w]
  = Some [n; planes * Network.expansion block;
          Forward.strided stride d; Forward.strided stride h; Forward.strided stride w].
Proof.
  intros _ _. apply make_layer_forward.
Qed.

Lemma stage_forward_shape_witness :
  Forward.sequential true
    (fst (Network._make_layer 64 Network.Bottleneck 128 3 "A" 2)) [2; 64; 5; 9; 9]
  = Some [2; 512; 3; 5; 5].
Proof.
  apply (stage_forward_shape true 64 Network.Bottleneck 128 3 "A" 2 2 5 9 9);
    try lia.
  - split; [lia|]. intros _. lia.
  - intros _. simpl. lia.
Defined.

(** X2. A network built by [ResNet.__init__] with the projection
    shortcut maps a batch of [n] volumes with [n_input_channels] channels
    and any spatial size to [n] rows of [n_classes] scores: every layer
    accepts what the one before it produces. *)
Theorem forward_shape (training : bool) (block : Network.block_class)
    (layers block_inplanes : list Z) (model_depth : Z) (kw : Network.kwargs)
    (dropout_rate : Q) (net : Network.ResNet) (n d h w : Z) :
  Network.ResNet_init block layers block_inplanes model_depth kw dropout_rate = Ok net ->
  Wiring.constructible kw block_inplanes dropout_rate ->
  Network.shortcut_type kw <> "A"%string ->
  Forward.batch_accepted training n ->
  1 <= d -> 1 <= h -> 1 <= w ->
  Forward.forward training net [n; Network.n_input_channels kw; d; h; w]
  = Some [n; Network.n_classes kw].
Proof.
  intros Hinit (_ & Ht & Hts & _ & (widths & Hwidths & Hpos) & _) HB Hn Hd Hh Hw.
  apply (forward_of_init training _ _ _ _ _ _ net n d h w Hinit); try assumption.
  destruct (ResNet_init_fields _ _ _ _ _ _ _ Hinit)
    as (w0 & w1 & w2 & w3 & ws & n0 & n1 & n2 & n3 & ns & Hws & _ & Hfields).
  cbv zeta in Hfields.
  destruct Hfields as (_ & _ & _ & _ & _ & _ & _ & Hfc & _).
  rewrite Hwidths in Hws. injection Hws as ->.
  rewrite Hfc. cbn [fst firstn] in *.
  inversion Hpos as [|? ? _ Hpos1]; subst.
  inversion Hpos1 as [|? ? _ Hpos2]; subst.
  inversion Hpos2 as [|? ? _ Hpos3]; subst.
  inversion Hpos3 as [|? ? Hw3 _]; subst.
  destruct block; simpl; lia.
Qed.

Lemma forward_shape_witness :
  exists net,
    Network.ResNet_init Network.Bottleneck [3; 4; 6; 3] [64; 128; 256; 512] 50
      Network.default_kwargs (1 # 2) = Ok net
    /\ Forward.forward true net [2; 3; 5; 9; 9] = Some [2; 400].
Proof.
  destruct (Network.ResNet_init Network.Bottleneck [3; 4; 6; 3] [64; 128; 256; 512] 50
              Network.default_kwargs (1 # 2)) as [net|e] eqn:Hinit;
    [|vm_compute in Hinit; discriminate Hinit].
  exists net. split; [reflexivity|].
  apply (forward_shape true Network.Bottleneck [3; 4; 6; 3] [64; 128; 256; 512] 50
           Network.default_kwargs (1 # 2) net 2 5 9 9 Hinit); try (simpl; lia).
  - exact constructible_script.
  - vm_compute. discriminate.
  - split; [lia|]. intros _. lia.
Defined.

Lemma constructible_trial (dropout_rate : Q) :
  (0 <= dropout_rate <= 1)%Q ->
  Wiring.constructible Forward.trial_kwargs [64; 128; 256; 512] dropout_rate.
Proof.
  intros Hdrop. unfold Wiring.constructible.
  repeat split; try (simpl; lia); try apply Hdrop.
  exists [64; 128; 256; 512]. split; [vm_compute; reflexivity|].
  repeat constructor; lia.
Qed.

(** X3. The network of a trial (depth 18, the script's keyword
    arguments and widths, a dropout rate that is a probability): as built
    it expects three input channels and rejects a single-channel volume;
    after lines 638-639 replace its first convolution and its classifier
    it maps [n] single-channel volumes of any size to [n] rows of one
    score. *)
Theorem trial_network_shapes (dropout_rate : Q) (training : bool) (n d h w : Z) :
  (0 <= dropout_rate <= 1)%Q ->
  Forward.batch_accepted training n ->
  1 <= d -> 1 <= h -> 1 <= w ->
  exists net,
    Network.generate_model 18 [64; 128; 256; 512] Forward.trial_kwargs
      dropout_rate = Ok (Some net)
    /\ Forward.forward training net [n; 1; d; h; w] = None
    /\ Forward.forward training net [n; 3; d; h; w] = Some [n; 1039]
    /\ Forward.forward training (Forward.replace_conv1_and_fc net) [n; 1; d; h; w]
       = Some [n; 1].
Proof.
  intros Hdrop Hn Hd Hh Hw.
  destruct (ResNet_init_succeeds Network.BasicBlock [2; 2; 2; 2] [64; 128; 256; 512] 18
              Forward.trial_kwargs dropout_rate (constructible_trial _ Hdrop)
              ltac:(simpl; lia) ltac:(simpl; lia)) as [net Hinit].
  exists net.
  assert (Hgm : forall a k r,
            Network.generate_model 18 a k r
            = let* model := Network.ResNet_init Network.BasicBlock [2; 2; 2; 2] a 18 k r in
              Ok (Some model)) by reflexivity.
  split; [now rewrite Hgm, Hinit|].
  destruct (ResNet_init_fields _ _ _ _ _ _ _ Hinit)
    as (v0 & v1 & v2 & v3 & vs & n0 & n1 & n2 & n3 & ns & Hws & Hns & Hfields).
  assert (Hwidths : comprehension (Network.scaled (Network.widen_factor Forward.trial_kwargs))
                      [64; 128; 256; 512] = Ok [64; 128; 256; 512])
    by (vm_compute; reflexivity).
  rewrite Hwidths in Hws.
  injection Hws as <- <- <- <- <-. injection Hns as <- <- <- <- <-.
  cbv zeta in Hfields.
  destruct Hfields as (Hconv & Hbn & Hpool & H1 & H2 & H3 & H4 & Hfc & _).
  split; [|split].
  - unfold Forward.forward. rewrite Hconv. reflexivity.
  - apply (forward_of_init training _ _ _ _ _ _ net n d h w Hinit);
      try assumption; try (simpl; lia).
    + discriminate.
    + rewrite Hfc. simpl. lia.
  - destruct (conv1_shape 1 64 7 1 n d h w ltac:(lia) ltac:(lia) Hd Hh Hw)
      as (d0 & Hd0 & Hc1).
    change (7 / 2) with 3 in Hc1.
    pose proof (strided_pos 2 h Hh ltac:(lia)) as Hh0.
    pose proof (strided_pos 2 w Hw ltac:(lia)) as Hw0.
    unfold Forward.forward, Forward.replace_conv1_and_fc.
    cbn [Network.conv1 Network.bn1 Network.net_no_max_pool Network.layer1 Network.layer2
         Network.layer3 Network.layer4 Network.fc].
    rewrite Hc1, Hbn, Hpool, H1, H2, H3, H4.
    cbn [Forward.obind].
    rewrite batch_norm3d_shape by (assumption || lia).
    cbn [Forward.obind Network.no_max_pool Forward.trial_kwargs Network.default_kwargs].
    rewrite pool3d_3_2_1 by lia. cbn [Forward.obind].
    pose proof (strided_pos 2 d0 Hd0 ltac:(lia)).
    pose proof (strided_pos 2 _ (proj1 Hh0) ltac:(lia)).
    pose proof (strided_pos 2 _ (proj1 Hw0) ltac:(lia)).
    change (512, 1) with (512 * Network.expansion Network.BasicBlock, 1).
    apply trunk_shape; try (assumption || (simpl; lia)); cbn; discriminate.
Qed.

Lemma trial_network_shapes_witness :
  exists net,
    Network.generate_model 18 [64; 128; 256; 512] Forward.trial_kwargs (1 # 2)
    = Ok (Some net)
    /\ Forward.forward false (Forward.replace_conv1_and_fc net) [1; 1; 155; 240; 240]
       = Some [1; 1].
Proof.
  destruct (trial_network_shapes (1 # 2) false 1 155 240 240)
    as (net & Hnet & _ & _ & Hforward); try lia.
  - split; vm_compute; discriminate.
  - split; [lia|]. intros H; discriminate H.
  - exists net. split; assumption.
Defined.

(** ** Wiring, stage lengths and shortcuts of a built network *)

Lemma chained_app (c : Z) (xs ys : list Network.Block) :
  Wiring.chained c xs ->
  Wiring.chained (Wiring.channels_after c xs) ys ->
  Wiring.chained c (xs ++ ys).
Proof.
  revert c. induction xs as [|x xs IH]; intros c Hx Hy; simpl in *; [exact Hy|].
  destruct Hx as [Hin Hrest]. split; [exact Hin|]. now apply IH.
Qed.

Lemma channels_after_app (c : Z) (xs ys : list Network.Block) :
  Wiring.channels_after c (xs ++ ys)
  = Wiring.channels_after (Wiring.channels_after c xs) ys.
Proof. unfold Wiring.channels_after. now rewrite fold_left_app. Qed.

Lemma make_layer_chained (in_planes : Z) (block : Network.block_class)
    (planes blocks : Z) (shortcut_type : string) (stride : Z) :
  let stage := fst (Network._make_layer in_planes block planes blocks shortcut_type stride) in
  Wiring.chained in_planes stage
  /\ Wiring.channels_after in_planes stage = planes * Network.expansion block.
Proof.
  unfold Network._make_layer. cbn [fst].
  set (rest_block := {| Network.blk_class := block;
                        Network.blk_in_planes := planes * Network.expansion block;
                        Network.blk_planes := planes; Network.blk_stride := 1;
                        Network.blk_downsample := None |}).
  assert (G : forall k,
             Wiring.chained (planes * Network.expansion block) (repeat rest_block k)
             /\ Wiring.channels_after (planes * Network.expansion block)
                  (repeat rest_block k) = planes * Network.expansion block).
  { induction k as [|k [IH1 IH2]]; simpl; [split; [exact I|reflexivity]|].
    split; [split; [reflexivity|exact IH1]|exact IH2]. }
  split.
  - simpl. split; [reflexivity|]. apply G.
  - unfold Wiring.channels_after in *. simpl. apply G.
Qed.

(** X4. In every network [ResNet.__init__] returns the channels
    line up from end to end: the normalisation after the first
    convolution has its output channels, every block of the four stages
    expects the channels the layer before it produces, and the classifier
    expects the channels the last block produces (which is also the final
    value of [in_planes]). This holds for both block kinds, both shortcut
    types and any widths and block counts. *)
Theorem network_is_chained (block : Network.block_class) (layers block_inplanes : list Z)
    (model_depth : Z) (kw : Network.kwargs) (dropout_rate : Q) (net : Network.ResNet) :
  Network.ResNet_init block layers block_inplanes model_depth kw dropout_rate = Ok net ->
  Network.in_channels (Network.conv1 net) = Network.n_input_channels kw
  /\ Network.bn1 net = Network.out_channels (Network.conv1 net)
  /\ Wiring.chained (Network.out_channels (Network.conv1 net)) (Wiring.all_blocks net)
  /\ fst (Network.fc net)
     = Wiring.channels_after (Network.out_channels (Network.conv1 net))
         (Wiring.all_blocks net)
  /\ Network.in_planes net = fst (Network.fc net)
  /\ snd (Network.fc net) = Network.n_classes kw.
Proof.
  intros Hinit.
  destruct (ResNet_init_fields _ _ _ _ _ _ _ Hinit)
    as (w0 & w1 & w2 & w3 & ws & n0 & n1 & n2 & n3 & ns & _ & _ & Hfields).
  cbv zeta in Hfields.
  destruct Hfields as (Hconv & Hbn & _ & H1 & H2 & H3 & H4 & Hfc & Hin & _).
  rewrite Hconv, Hbn, Hfc, Hin. cbn [Network.in_channels Network.out_channels fst snd].
  unfold Wiring.all_blocks. rewrite H1, H2, H3, H4.
  pose proof (fun i p k s => proj1 (make_layer_chained i block p k
                                      (Network.shortcut_type kw) s)) as C.
  pose proof (fun i p k s => proj2 (make_layer_chained i block p k
                                      (Network.shortcut_type kw) s)) as A.
  cbv zeta in C, A.
  split; [reflexivity|]. split; [reflexivity|]. split; [|split; [|split; reflexivity]].
  - apply chained_app; [apply C|]. rewrite A.
    apply chained_app; [apply C|]. rewrite A.
    apply chained_app; [apply C|]. rewrite A. apply C.
  - now rewrite !channels_after_app, !A.
Qed.

Lemma network_is_chained_witness :
  exists net,
    Network.ResNet_init Network.Bottleneck [3; 4; 6; 3] [64; 128; 256; 512] 50
      Network.default_kwargs (1 # 2) = Ok net
    /\ Wiring.chained 64 (Wiring.all_blocks net)
    /\ fst (Network.fc net) = 2048.
Proof.
  destruct (Network.ResNet_init Network.Bottleneck [3; 4; 6; 3] [64; 128; 256; 512] 50
              Network.default_kwargs (1 # 2)) as [net|e] eqn:Hinit;
    [|vm_compute in Hinit; discriminate Hinit].
  exists net. split; [reflexivity|].
  destruct (network_is_chained _ _ _ _ _ _ net Hinit) as (_ & _ & Hc & Hfc & _).
  assert (H64 : Network.out_channels (Network.conv1 net) = 64)
    by (vm_compute in Hinit; injection Hinit as <-; reflexivity).
  rewrite H64 in Hc, Hfc. split; [exact Hc|].
  rewrite Hfc. vm_compute in Hinit. injection Hinit as <-. reflexivity.
Defined.

(** The facts about the widths in use that [constructible] gives. *)
Ltac positive_widths H :=
  cbn [firstn] in H;
  repeat match type of H with
         | Forall _ (_ :: _) =>
             let Hx := fresh "Hwidth" in
             pose proof (List.Forall_inv H) as Hx; cbn beta in Hx;
             apply List.Forall_inv_tail in H
         end.

(** Run the constructor as far as it gets on sizes known to be
    positive. *)
Ltac run_init :=
  unfold Network._make_layer;
  repeat (progress (cbn [py_index nth_error rbind firstn];
                    rewrite ?torch_sizes_nonneg by (repeat constructor; nia))).

(** What the lengths of the two lists decide, with arguments the layers
    accept. *)
Lemma ResNet_init_lists (block : Network.block_class) (layers block_inplanes : list Z)
    (model_depth : Z) (kw : Network.kwargs) (dropout_rate : Q) :
  Wiring.constructible kw block_inplanes dropout_rate ->
  ((4 <= length block_inplanes)%nat /\ (4 <= length layers)%nat ->
   exists net,
     Network.ResNet_init block layers block_inplanes model_depth kw dropout_rate = Ok net
     /\ Network.ResNet_init block (firstn 4 layers) (firstn 4 block_inplanes)
          model_depth kw dropout_rate = Ok net)
  /\ ((length block_inplanes < 4)%nat \/ (length layers < 4)%nat ->
      Network.ResNet_init block layers block_inplanes model_depth kw dropout_rate
      = Raise IndexError).
Proof.
  intros (Hin & Ht & _ & Hcl & (widths & Hwidths & Hpos) & Hdrop).
  pose proof (comprehension_length _ _ _ Hwidths) as Hlen.
  pose proof (comprehension_firstn _ _ _ 4 Hwidths) as Hfirst.
  pose proof (expansion_pos block) as He.
  unfold Network.ResNet_init. rewrite Hwidths, Hfirst. clear Hwidths Hfirst.
  split.
  - intros [Hw Hl].
    destruct widths as [|w0 [|w1 [|w2 [|w3 ws]]]]; simpl in Hlen; try lia.
    destruct layers as [|n0 [|n1 [|n2 [|n3 ns]]]]; simpl in Hl; try lia.
    positive_widths Hpos. run_init.
    rewrite (Dropout_init_range _ Hdrop). cbn [rbind].
    eexists. split; reflexivity.
  - intros H.
    destruct widths as [|w0 [|w1 [|w2 [|w3 ws]]]];
      destruct layers as [|n0 [|n1 [|n2 [|n3 ns]]]];
      simpl in Hlen; simpl in H; try lia;
      positive_widths Hpos; run_init; reflexivity.
Qed.

(** X5. With arguments its layers accept, [ResNet.__init__] only
    fails on its list arguments: it returns a network when the width list
    and the block-count list both hold four entries or more (entries past
    the fourth are ignored), and raises an index error when either is
    shorter. *)
Theorem ResNet_init_outcome (block : Network.block_class) (layers block_inplanes : list Z)
    (model_depth : Z) (kw : Network.kwargs) (dropout_rate : Q) :
  Wiring.constructible kw block_inplanes dropout_rate ->
  ((4 <= length block_inplanes)%nat /\ (4 <= length layers)%nat ->
   exists net,
     Network.ResNet_init block layers block_inplanes model_depth kw dropout_rate = Ok net
     /\ Network.ResNet_init block (firstn 4 layers) (firstn 4 block_inplanes)
          model_depth kw dropout_rate = Ok net)
  /\ ((length block_inplanes < 4)%nat \/ (length layers < 4)%nat ->
      Network.ResNet_init block layers block_inplanes model_depth kw dropout_rate
      = Raise IndexError).
Proof.
  apply ResNet_init_lists.
Qed.

Lemma in_firstn {A : Type} (k : nat) (xs : list A) (x : A) :
  In x (firstn k xs) -> In x xs.
Proof.
  intros H. rewrite <- (firstn_skipn k xs). apply in_or_app. now left.
Qed.

(** Concrete arguments are checked by running the widening. *)
Ltac constructible_at widths :=
  unfold Wiring.constructible;
  repeat split; try (simpl; lia); try (vm_compute; discriminate);
  exists widths; split; [vm_compute; reflexivity|repeat constructor; lia].

Lemma constructible_small :
  Wiring.constructible Network.default_kwargs [8; 16; 32; 64] (1 # 2)
  /\ Wiring.constructible Network.default_kwargs [8; 16; 32] (1 # 2)
  /\ Wiring.constructible Network.default_kwargs [64; 128; 256] (1 # 2).
Proof.
  split; [|split].
  - constructible_at [8; 16; 32; 64].
  - constructible_at [8; 16; 32].
  - constructible_at [64; 128; 256].
Qed.

Lemma ResNet_init_outcome_witness :
  (exists net,
     Network.ResNet_init Network.BasicBlock [1; 1; 1; 1; 9] [8; 16; 32; 64] 10
       Network.default_kwargs (1 # 2) = Ok net
     /\ Network.ResNet_init Network.BasicBlock [1; 1; 1; 1] [8; 16; 32; 64] 10
          Network.default_kwargs (1 # 2) = Ok net)
  /\ Network.ResNet_init Network.BasicBlock [1; 1; 1; 1] [8; 16; 32] 10
       Network.default_kwargs (1 # 2) = Raise IndexError.
Proof.
  split.
  - apply (proj1 (ResNet_init_outcome Network.BasicBlock [1; 1; 1; 1; 9] [8; 16; 32; 64]
                    10 Network.default_kwargs (1 # 2) (proj1 constructible_small))).
    simpl. lia.
  - apply (proj2 (ResNet_init_outcome Network.BasicBlock [1; 1; 1; 1] [8; 16; 32]
                    10 Network.default_kwargs (1 # 2)
                    (proj1 (proj2 constructible_small)))).
    simpl. lia.
Defined.

(** X6. Stage [i] of a built network holds [layers[i]] blocks,
    and one block when [layers[i]] is zero or negative: [_make_layer]
    appends the first block before it looks at the count. *)
Theorem stage_lengths (block : Network.block_class) (layers block_inplanes : list Z)
    (model_depth : Z) (kw : Network.kwargs) (dropout_rate : Q) (net : Network.ResNet) :
  Network.ResNet_init block layers block_inplanes model_depth kw dropout_rate = Ok net ->
  List.map (fun stage => Z.of_nat (length stage)) (Network.stages net)
  = List.map (Z.max 1) (firstn 4 layers).
Proof.
  intros Hinit.
  destruct (ResNet_init_fields _ _ _ _ _ _ _ Hinit)
    as (w0 & w1 & w2 & w3 & ws & n0 & n1 & n2 & n3 & ns & _ & -> & Hfields).
  cbv zeta in Hfields.
  destruct Hfields as (_ & _ & _ & H1 & H2 & H3 & H4 & _).
  unfold Network.stages. rewrite H1, H2, H3, H4.
  cbn [List.map firstn]. rewrite !make_layer_length.
  repeat f_equal; lia.
Qed.

Lemma stage_lengths_witness :
  exists net,
    Network.ResNet_init Network.BasicBlock [3; 0; -2; 1] [8; 16; 32; 64] 10
      Network.default_kwargs (1 # 2) = Ok net
    /\ List.map (fun stage => Z.of_nat (length stage)) (Network.stages net) = [3; 1; 1; 1].
Proof.
  destruct (Network.ResNet_init Network.BasicBlock [3; 0; -2; 1] [8; 16; 32; 64] 10
              Network.default_kwargs (1 # 2)) as [net|e] eqn:Hinit;
    [|vm_compute in Hinit; discriminate Hinit].
  exists net. split; [reflexivity|].
  exact (stage_lengths _ _ _ _ _ _ net Hinit).
Defined.

Lemma make_layer_shortcuts (in_planes : Z) (block : Network.block_class)
    (planes blocks : Z) (shortcut_type : string) (stride : Z) :
  Forall (fun b =>
            forall sc, Network.blk_downsample b = Some sc ->
              sc = if String.eqb shortcut_type "A"
                   then Network.PartialDownsampleBasicBlock
                          (Network.blk_planes b * Network.expansion block)
                          (Network.blk_stride b)
                   else Network.SequentialProjection
                          (Network.conv1x1x1 (Network.blk_in_planes b)
                             (Network.blk_planes b * Network.expansion block)
                             (Network.blk_stride b))
                          (Network.blk_planes b * Network.expansion block))
         (fst (Network._make_layer in_planes block planes blocks shortcut_type stride)).
Proof.
  unfold Network._make_layer. cbn [fst]. constructor.
  - cbn [Network.blk_downsample Network.blk_planes Network.blk_stride
         Network.blk_in_planes].
    intros sc H.
    destruct (negb (stride =? 1) || negb (in_planes =? planes * Network.expansion block));
      [|discriminate H].
    destruct (String.eqb shortcut_type "A"); now injection H as <-.
  - apply Forall_repeat_same. intros sc H. discriminate H.
Qed.

(** X7. In a built network every shortcut is of one kind,
    decided by [shortcut_type]: the parameter-free padding shortcut when
    it is exactly 'A', and for every other string the projection (a
    1 x 1 x 1 convolution with the block's stride followed by a
    normalisation), each sized to the block's output channels. *)
Theorem shortcut_kinds (block : Network.block_class) (layers block_inplanes : list Z)
    (model_depth : Z) (kw : Network.kwargs) (dropout_rate : Q) (net : Network.ResNet) :
  Network.ResNet_init block layers block_inplanes model_depth kw dropout_rate = Ok net ->
  forall b sc,
    In b (Wiring.all_blocks net) ->
    Network.blk_downsample b = Some sc ->
    sc = if String.eqb (Network.shortcut_type kw) "A"
         then Network.PartialDownsampleBasicBlock (Wiring.produced b) (Network.blk_stride b)
         else Network.SequentialProjection
                (Network.conv1x1x1 (Network.blk_in_planes b) (Wiring.produced b)
                   (Network.blk_stride b))
                (Wiring.produced b).
Proof.
  intros Hinit b sc Hb Hsc.
  destruct (ResNet_init_fields _ _ _ _ _ _ _ Hinit)
    as (w0 & w1 & w2 & w3 & ws & n0 & n1 & n2 & n3 & ns & _ & _ & Hfields).
  cbv zeta in Hfields.
  destruct Hfields as (_ & _ & _ & H1 & H2 & H3 & H4 & _).
  unfold Wiring.all_blocks in Hb. rewrite H1, H2, H3, H4 in Hb.
  assert (Hany : exists i p k s,
             In b (fst (Network._make_layer i block p k (Network.shortcut_type kw) s))).
  { rewrite !in_app_iff in Hb.
    destruct Hb as [Hb|[Hb|[Hb|Hb]]]; eexists _, _, _, _; exact Hb. }
  destruct Hany as (i & p & k & s & Hin).
  pose proof (make_layer_shortcuts i block p k (Network.shortcut_type kw) s) as Hs.
  pose proof (make_layer_class i block p k (Network.shortcut_type kw) s) as Hc.
  rewrite List.Forall_forall in Hs, Hc.
  unfold Wiring.produced. rewrite (Hc b Hin). exact (Hs b Hin sc Hsc).
Qed.

Lemma shortcut_kinds_witness :
  exists net b,
    Network.ResNet_init Network.BasicBlock [2; 2; 2; 2] [64; 128; 256; 512] 18
      {| Network.n_input_channels := 3; Network.conv1_t_size := 7;
         Network.conv1_t_stride := 1; Network.no_max_pool := false;
         Network.shortcut_type := "a"; Network.widen_factor := 1;
         Network.n_classes := 400 |} (1 # 2) = Ok net
    /\ In b (Wiring.all_blocks net)
    /\ Network.blk_downsample b
       = Some (Network.SequentialProjection (Network.conv1x1x1 64 128 2) 128).
Proof.
  destruct (Network.ResNet_init Network.BasicBlock [2; 2; 2; 2] [64; 128; 256; 512] 18
              {| Network.n_input_channels := 3; Network.conv1_t_size := 7;
                 Network.conv1_t_stride := 1; Network.no_max_pool := false;
                 Network.shortcut_type := "a"; Network.widen_factor := 1;
                 Network.n_classes := 400 |} (1 # 2)) as [net|e] eqn:Hinit;
    [|vm_compute in Hinit; discriminate Hinit].
  assert (Hb : exists b sc, In b (Wiring.all_blocks net)
                            /\ Network.blk_downsample b = Some sc
                            /\ Network.blk_in_planes b = 64
                            /\ Wiring.produced b = 128 /\ Network.blk_stride b = 2).
  { vm_compute in Hinit. injection Hinit as <-.
    eexists _, _. split; [right; right; left; reflexivity|].
    repeat split. }
  destruct Hb as (b & sc & Hin & Hsc & Hi & Hp & Hs).
  exists net, b. split; [reflexivity|]. split; [exact Hin|].
  rewrite Hsc. f_equal.
  rewrite (shortcut_kinds _ _ _ _ _ _ net Hinit b sc Hin Hsc).
  now rewrite Hi, Hp, Hs.
Defined.

Lemma generate_model_supported (model_depth : Z) (inplanes : list Z) (kw : Network.kwargs)
    (dropout_rate : Q) :
  In model_depth Network.supported_depths ->
  exists block layers,
    length layers = 4%nat
    /\ Network.generate_model model_depth inplanes kw dropout_rate
       = let* model := Network.ResNet_init block layers inplanes model_depth kw
                         dropout_rate in
         Ok (Some model).
Proof.
  intros Hin. simpl in Hin.
  destruct Hin as [<-|[<-|[<-|[<-|[<-|[<-|[<-|[]]]]]]]];
    eexists _, _; (split; [|reflexivity]); reflexivity.
Qed.

(** X8. [generate_model] never returns [None]: it raises the
    assertion error (unsupported depth), raises an index error (supported
    depth, fewer than four widths, arguments the layers accept), or
    returns a network, and then the network carries the requested depth
    in its name, the dropout rate in force and a classifier with
    [n_classes] outputs. *)
Theorem generate_model_outcome (model_depth : Z) (inplanes : list Z) (kw : Network.kwargs)
    (dropout_rate : Q) :
  Network.generate_model model_depth inplanes kw dropout_rate <> Ok None
  /\ (In model_depth Network.supported_depths ->
      Wiring.constructible kw inplanes dropout_rate ->
      (length inplanes < 4)%nat ->
      Network.generate_model model_depth inplanes kw dropout_rate = Raise IndexError)
  /\ (forall net,
        Network.generate_model model_depth inplanes kw dropout_rate = Ok (Some net) ->
        In model_depth Network.supported_depths
        /\ (4 <= length inplanes)%nat
        /\ Network.depth_in_name net = model_depth
        /\ Network.dropout net = dropout_rate
        /\ snd (Network.fc net) = Network.n_classes kw).
Proof.
  destruct (existsb (Z.eqb model_depth) Network.supported_depths) eqn:E.
  - assert (Hin : In model_depth Network.supported_depths).
    { apply existsb_exists in E. destruct E as [x [Hx Heq]].
      apply Z.eqb_eq in Heq. now subst x. }
    destruct (generate_model_supported model_depth inplanes kw dropout_rate Hin)
      as (block & layers & Hlen & Hgm).
    rewrite Hgm. clear Hgm.
    destruct (Network.ResNet_init block layers inplanes model_depth kw dropout_rate)
      as [net|e] eqn:Hnet; cbn [rbind].
    + split; [discriminate|]. split.
      * intros _ Hc Hshort.
        rewrite (proj2 (ResNet_init_lists block layers inplanes model_depth kw
                          dropout_rate Hc) (or_introl Hshort)) in Hnet.
        discriminate Hnet.
      * intros net' H. injection H as <-.
        destruct (ResNet_init_fields _ _ _ _ _ _ _ Hnet)
          as (w0 & w1 & w2 & w3 & ws & n0 & n1 & n2 & n3 & ns & Hws & _ & Hfields).
        cbv zeta in Hfields.
        destruct Hfields as (_ & _ & _ & _ & _ & _ & _ & Hfc & _ & Hname & Hdrop).
        apply comprehension_length in Hws. simpl in Hws.
        rewrite Hfc. repeat split; try assumption. lia.
    + split; [discriminate|]. split; [|discriminate].
      intros _ Hc Hshort.
      rewrite (proj2 (ResNet_init_lists block layers inplanes model_depth kw
                        dropout_rate Hc) (or_introl Hshort)) in Hnet.
      now injection Hnet as <-.
  - unfold Network.generate_model. rewrite E. simpl.
    split; [discriminate|]. split; [|discriminate].
    intros Hin. exfalso.
    assert (existsb (Z.eqb model_depth) Network.supported_depths = true).
    { apply existsb_exists. exists model_depth. split; [exact Hin|apply Z.eqb_refl]. }
    congruence.
Qed.

Lemma generate_model_outcome_witness :
  Network.generate_model 34 [64; 128; 256] Network.default_kwargs (1 # 2)
  = Raise IndexError
  /\ exists net,
       Network.generate_model 34 [64; 128; 256; 512] Network.default_kwargs (1 # 2)
       = Ok (Some net)
       /\ Network.depth_in_name net = 34.
Proof.
  split.
  - apply (proj1 (proj2 (generate_model_outcome 34 [64; 128; 256]
                           Network.default_kwargs (1 # 2)))).
    + simpl. tauto.
    + exact (proj2 (proj2 constructible_small)).
    + simpl. lia.
  - destruct (Network.generate_model 34 [64; 128; 256; 512] Network.default_kwargs (1 # 2))
      as [[net|]|e] eqn:Hgm; try (vm_compute in Hgm; discriminate Hgm).
    exists net. split; [reflexivity|].
    apply (proj2 (proj2 (generate_model_outcome 34 [64; 128; 256; 512]
                           Network.default_kwargs (1 # 2))) net Hgm).
Defined.

(** ** The dataset adapter: indices and malformed entries *)

Lemma py_index_beyond {A : Type} (xs : list A) (i : nat) :
  (length xs <= i)%nat -> py_index xs i = Raise IndexError.
Proof.
  intros H. unfold py_index.
  destruct (nth_error xs i) eqn:E; [|reflexivity].
  assert (nth_error xs i <> None) as Hne by congruence.
  apply nth_error_Some in Hne. lia.
Qed.

(** X9. The adapter indexes like a Python list: a position at or
    past the end, or more than the length before it, raises an index
    error; a negative position down to minus the length reads from the
    end, so position -1 is the last patient. *)
Theorem getitem_index (obj : Type) (data : gmap Z (CNNDataset.entry obj))
    (patient_ids : list Z) (idx : Z) :
  let self := CNNDataset.__init__ data patient_ids in
  (idx < - CNNDataset.__len__ self \/ CNNDataset.__len__ self <= idx ->
   CNNDataset.__getitem__ self idx = Raise IndexError)
  /\ (- CNNDataset.__len__ self <= idx < 0 ->
      CNNDataset.__getitem__ self idx
      = CNNDataset.__getitem__ self (CNNDataset.__len__ self + idx)).
Proof.
  intros self. unfold CNNDataset.__len__, self. cbn [CNNDataset.patient_ids].
  split.
  - intros H. unfold CNNDataset.__getitem__, py_list_getitem.
    cbn [CNNDataset.patient_ids].
    destruct (Z.ltb_spec idx 0) as [Hneg|Hpos].
    + destruct (Z.leb_spec (- Z.of_nat (length patient_ids)) idx); [lia|reflexivity].
    + rewrite py_index_beyond by lia. reflexivity.
  - intros H.
    assert (Hsame : py_list_getitem patient_ids idx
                    = py_list_getitem patient_ids (Z.of_nat (length patient_ids) + idx)).
    { unfold py_list_getitem.
      destruct (Z.ltb_spec idx 0); [|lia].
      destruct (Z.leb_spec (- Z.of_nat (length patient_ids)) idx); [|lia].
      destruct (Z.ltb_spec (Z.of_nat (length patient_ids) + idx) 0); [lia|].
      reflexivity. }
    unfold CNNDataset.__getitem__. cbn [CNNDataset.patient_ids].
    now rewrite Hsame.
Qed.

Lemma getitem_index_witness :
  let data : gmap Z (CNNDataset.entry Z) :=
    {[ 8 := CNNDataset.EDict (<["input"%string := 42]> {["label"%string := 1]}) ]} in
  let self := CNNDataset.__init__ data [7; 8] in
  CNNDataset.__getitem__ self 2 = Raise IndexError
  /\ CNNDataset.__getitem__ self (-3) = Raise IndexError
  /\ CNNDataset.__getitem__ self (-1) = CNNDataset.__getitem__ self 1
  /\ CNNDataset.__getitem__ self (-1) = Ok (42, 1).
Proof.
  intros data self.
  destruct (getitem_index Z data [7; 8] 2) as [H2 _].
  destruct (getitem_index Z data [7; 8] (-3)) as [H3 _].
  destruct (getitem_index Z data [7; 8] (-1)) as [_ H1].
  split; [apply H2; vm_compute; right; discriminate|].
  split; [apply H3; vm_compute; left; reflexivity|].
  split; [apply H1; vm_compute; split; [discriminate|reflexivity]|].
  vm_compute. reflexivity.
Defined.

(** X10. What the adapter does with an entry it cannot use, at a
    valid position: an entry that is a list (what [load_image_data]
    stores) raises a type error; an entry that is a mapping without
    "input", or with "input" but without "label", raises a key error, the
    same exception as for a patient missing from the data mapping. *)
Theorem getitem_malformed_entry (obj : Type) (data : gmap Z (CNNDataset.entry obj))
    (patient_ids : list Z) (i : nat) (pid : Z) :
  nth_error patient_ids i = Some pid ->
  let self := CNNDataset.__init__ data patient_ids in
  (forall xs, data !! pid = Some (CNNDataset.EList xs) ->
              CNNDataset.__getitem__ self (Z.of_nat i) = Raise TypeError)
  /\ (forall d, data !! pid = Some (CNNDataset.EDict d) ->
                d !! "input"%string = None ->
                CNNDataset.__getitem__ self (Z.of_nat i) = Raise KeyError)
  /\ (forall d input, data !! pid = Some (CNNDataset.EDict d) ->
                      d !! "input"%string = Some input ->
                      d !! "label"%string = None ->
                      CNNDataset.__getitem__ self (Z.of_nat i) = Raise KeyError).
Proof.
  intros Hi self. unfold CNNDataset.__getitem__, self. cbn [CNNDataset.patient_ids
                                                          CNNDataset.data].
  rewrite (py_list_getitem_nat _ _ _ Hi). cbn [rbind].
  split; [|split].
  - intros xs Hd. unfold py_getitem. now rewrite Hd.
  - intros d Hd Hx. unfold py_getitem at 1. rewrite Hd. cbn [rbind].
    unfold CNNDataset.entry_getitem_str, py_getitem. now rewrite Hx.
  - intros d input Hd Hx Hl. unfold py_getitem at 1 2. rewrite Hd. cbn [rbind].
    unfold CNNDataset.entry_getitem_str, py_getitem. rewrite Hx. cbn [rbind].
    now rewrite Hl.
Qed.

Lemma getitem_malformed_entry_witness :
  let data : gmap Z (CNNDataset.entry Z) :=
    <[ 7 := CNNDataset.EList [1; 2] ]>
      (<[ 8 := CNNDataset.EDict {["label"%string := 1]} ]>
         {[ 9 := CNNDataset.EDict {["input"%string := 42]} ]}) in
  let self := CNNDataset.__init__ data [7; 8; 9] in
  nth_error [7; 8; 9] 0 = Some 7
  /\ CNNDataset.__getitem__ self 0 = Raise TypeError
  /\ CNNDataset.__getitem__ self 1 = Raise KeyError
  /\ CNNDataset.__getitem__ self 2 = Raise KeyError.
Proof.
  intros data self.
  split; [reflexivity|].
  split; [|split].
  - apply (proj1 (getitem_malformed_entry Z data [7; 8; 9] 0 7 eq_refl) [1; 2]).
    vm_compute. reflexivity.
  - apply (proj1 (proj2 (getitem_malformed_entry Z data [7; 8; 9] 1 8 eq_refl))
             {["label"%string := 1]}); vm_compute; reflexivity.
  - apply (proj2 (proj2 (getitem_malformed_entry Z data [7; 8; 9] 2 9 eq_refl))
             {["input"%string := 42]} 42); vm_compute; reflexivity.
Defined.

(** ** Image loading *)

(** The loop of [load_image_data] over the selected directories. *)
Lemma load_loop_ok (ds : list (Z * list Prepare.volume))
    (acc : gmap Z (CNNDataset.entry Prepare.volume)) :
  Forall (fun d => (2 <= length (snd d))%nat) ds ->
  exists out,
    fold_left (fun acc d =>
                 let* data_images := acc in
                 let* f0 := py_index (snd d) 0 in
                 let* f1 := py_index (snd d) 1 in
                 Ok (<[fst d := CNNDataset.EList [f0; f1]]> data_images))
              ds (Ok acc) = Ok out
    /\ (forall p, is_Some (out !! p) <-> is_Some (acc !! p) \/ In p (List.map fst ds))
    /\ (forall p e, out !! p = Some e ->
          acc !! p = Some e
          \/ exists a b rest, In (p, a :: b :: rest) ds /\ e = CNNDataset.EList [a; b]).
Proof.
  revert acc. induction ds as [|[p0 files] ds IH]; intros acc Hok.
  - exists acc. split; [reflexivity|]. split.
    + intros p. simpl. tauto.
    + intros p e H. now left.
  - inversion Hok as [|? ? Hfiles Hrest]; subst. simpl in Hfiles.
    destruct files as [|a [|b rest]]; simpl in Hfiles; try lia.
    cbn [fold_left snd fst py_index nth_error rbind].
    destruct (IH (<[p0 := CNNDataset.EList [a; b]]> acc) Hrest)
      as (out & Hfold & Hkeys & Hentries).
    exists out. split; [exact Hfold|]. split.
    + intros p. rewrite Hkeys. cbn [List.map fst In].
      destruct (decide (p0 = p)) as [->|Hne].
      * rewrite lookup_insert_eq. split; [intros _; right; now left|].
        intros _. left. now eexists.
      * rewrite lookup_insert_ne by exact Hne. tauto.
    + intros p e H. destruct (Hentries p e H) as [Hacc|(a' & b' & rest' & Hin & He)].
      * destruct (decide (p0 = p)) as [->|Hne].
        -- rewrite lookup_insert_eq in Hacc. injection Hacc as <-.
           right. exists a, b, rest. split; [now left|reflexivity].
        -- rewrite lookup_insert_ne in Hacc by exact Hne. now left.
      * right. exists a', b', rest'. split; [now right|exact He].
Qed.

Lemma load_loop_short (ds : list (Z * list Prepare.volume))
    (acc : gmap Z (CNNDataset.entry Prepare.volume)) :
  Exists (fun d => (length (snd d) < 2)%nat) ds ->
  fold_left (fun acc d =>
               let* data_images := acc in
               let* f0 := py_index (snd d) 0 in
               let* f1 := py_index (snd d) 1 in
               Ok (<[fst d := CNNDataset.EList [f0; f1]]> data_images))
            ds (Ok acc) = Raise IndexError.
Proof.
  revert acc. induction ds as [|[p0 files] ds IH]; intros acc Hex.
  - inversion Hex.
  - destruct files as [|a [|b rest]].
    + cbn [fold_left snd py_index nth_error rbind]. now apply fold_left_Raise.
    + cbn [fold_left snd py_index nth_error rbind]. now apply fold_left_Raise.
    + cbn [fold_left snd fst py_index nth_error rbind]. apply IH.
      inversion Hex as [? ? Hhead|? ? Htail]; subst; [simpl in Hhead; lia|exact Htail].
Qed.

(** X11. [load_image_data] keeps the patient directories that are in
    [patients], in directory order, cut to [limit] when it is not zero.
    When each of them holds two or more array files it returns their
    numbers and a mapping whose keys are exactly these numbers, each
    holding the list of the first two arrays of a directory of that
    number; when one of them holds fewer than two, it raises an index
    error. *)
Theorem load_image_data_outcome (tree : list (Z * list Prepare.volume))
    (patients : list Z) (limit : Z) :
  let dirs := Prepare.apply_limit limit
                (List.filter (fun d => existsb (Z.eqb (fst d)) patients) tree) in
  (Forall (fun d => (2 <= length (snd d))%nat) dirs ->
   exists images,
     Prepare.load_image_data tree patients limit = Ok (images, List.map fst dirs)
     /\ (forall p, is_Some (images !! p) <-> In p (List.map fst dirs))
     /\ (forall p e, images !! p = Some e ->
           exists a b rest, In (p, a :: b :: rest) dirs /\ e = CNNDataset.EList [a; b])
     /\ (forall p, In p (List.map fst dirs) -> In p patients /\ In p (List.map fst tree))
     /\ (0 < limit -> Z.of_nat (length dirs) <= limit))
  /\ (Exists (fun d => (length (snd d) < 2)%nat) dirs ->
      Prepare.load_image_data tree patients limit = Raise IndexError).
Proof.
  intros dirs. split.
  - intros Hok.
    destruct (load_loop_ok dirs ∅ Hok) as (images & Hfold & Hkeys & Hentries).
    exists images. unfold Prepare.load_image_data. fold dirs.
    split; [now rewrite Hfold|]. split; [|split; [|split]].
    + intros p. rewrite Hkeys. rewrite lookup_empty.
      split; [intros [[x Hx]|H]; [discriminate|exact H]|now right].
    + intros p e H. destruct (Hentries p e H) as [Hacc|Hin]; [|exact Hin].
      rewrite lookup_empty in Hacc. discriminate.
    + intros p Hp. apply in_map_iff in Hp. destruct Hp as [[p' files] [Heq Hin]].
      simpl in Heq. subst p'.
      assert (Hsel : In (p, files)
                        (List.filter (fun d => existsb (Z.eqb (fst d)) patients) tree)).
      { unfold dirs, Prepare.apply_limit in Hin.
        destruct (limit =? 0); [exact Hin|].
        destruct (0 <? limit); eapply in_firstn; exact Hin. }
      apply filter_In in Hsel. destruct Hsel as [Htree Hpat]. split.
      * apply existsb_exists in Hpat. destruct Hpat as [x [Hx Heq]].
        simpl in Heq. apply Z.eqb_eq in Heq. now subst x.
      * apply in_map_iff. now exists (p, files).
    + intros Hlim. unfold dirs, Prepare.apply_limit.
      destruct (Z.eqb_spec limit 0); [lia|].
      destruct (Z.ltb_spec 0 limit); [|lia].
      rewrite length_firstn. lia.
  - intros Hshort. unfold Prepare.load_image_data. fold dirs.
    now rewrite (load_loop_short dirs ∅ Hshort).
Qed.

Lemma load_image_data_outcome_witness :
  let a : Prepare.volume := [[[1]]]%Q in
  let b : Prepare.volume := [[[2]]]%Q in
  (exists images,
     Prepare.load_image_data [(1, [a; b]); (2, [a; b; a]); (3, [b; a]); (4, [a])]
       [4; 3; 1] 2 = Ok (images, [1; 3])
     /\ images !! 3 = Some (CNNDataset.EList [b; a]))
  /\ Prepare.load_image_data [(1, [a; b]); (2, [a; b; a]); (3, [b; a]); (4, [a])]
       [4; 3; 1] 3 = Raise IndexError.
Proof.
  intros a b. split.
  - destruct (proj1 (load_image_data_outcome
                       [(1, [a; b]); (2, [a; b; a]); (3, [b; a]); (4, [a])] [4; 3; 1] 2))
      as (images & Hload & Hkeys & Hentries & _).
    + vm_compute. repeat constructor.
    + exists images. split; [exact Hload|].
      destruct (proj2 (Hkeys 3)) as [e He]; [vm_compute; tauto|].
      destruct (Hentries 3 e He) as (a' & b' & rest & Hin & ->).
      rewrite He. vm_compute in Hin.
      destruct Hin as [Hin|[Hin|[]]]; [discriminate Hin|].
      now injection Hin as <- <- _.
  - apply (proj2 (load_image_data_outcome
                    [(1, [a; b]); (2, [a; b; a]); (3, [b; a]); (4, [a])] [4; 3; 1] 3)).
    vm_compute. right. right. left. lia.
Defined.

Lemma enough_or_short (ds : list (Z * list Prepare.volume)) :
  Forall (fun d => (2 <= length (snd d))%nat) ds
  \/ Exists (fun d => (length (snd d) < 2)%nat) ds.
Proof.
  induction ds as [|d ds [IH|IH]].
  - left. constructor.
  - destruct (Nat.lt_ge_cases (length (snd d)) 2) as [Hs|Hl].
    + right. now left.
    + left. now constructor.
  - right. now right.
Qed.

(** X12. On what [load_image_data] returns, when the two arrays
    of every patient directory have one shape, the preparation loop of
    lines 591-593 never raises: every patient it visits has its two
    channels. It leaves [data] empty, and the local [input] holds the
    product of the two channels of the last patient visited (nothing when
    no patient was loaded). *)
Theorem prepare_after_load (tree : list (Z * list Prepare.volume)) (patients : list Z)
    (limit : Z) (images : gmap Z (CNNDataset.entry Prepare.volume)) (used : list Z) :
  Prepare.load_image_data tree patients limit = Ok (images, used) ->
  Forall (fun d => forall a b rest, snd d = a :: b :: rest -> Prepare.same_shape a b)
         tree ->
  exists input,
    Prepare.prepare_cnn_data images used = Ok (∅, input)
    /\ (used = [] -> input = None)
    /\ (forall earlier p, used = earlier ++ [p] ->
          exists a b, images !! p = Some (CNNDataset.EList [a; b])
                      /\ input = Some (Prepare.unsqueeze0 (Prepare.np_multiply a b))).
Proof.
  intros Hload _.
  unfold Prepare.load_image_data in Hload. cbv zeta in Hload.
  set (dirs := Prepare.apply_limit limit
                 (List.filter (fun d => existsb (Z.eqb (fst d)) patients) tree)) in *.
  destruct (enough_or_short dirs) as [Hall|Hex];
    [|rewrite (load_loop_short dirs ∅ Hex) in Hload; discriminate Hload].
  destruct (load_loop_ok dirs ∅ Hall) as (images' & Hfold & Hkeys & Hentries).
  rewrite Hfold in Hload. cbn [rbind] in Hload. injection Hload as <- <-.
  assert (Hgood : forall p, In p (List.map fst dirs) ->
                   exists a b, images' !! p = Some (CNNDataset.EList [a; b])).
  { intros p Hp. destruct (proj2 (Hkeys p) (or_intror Hp)) as [e He].
    destruct (Hentries p e He) as [Hacc|(a & b & rest & _ & ->)];
      [rewrite lookup_empty in Hacc; discriminate Hacc|now exists a, b]. }
  clear Hall Hfold Hkeys Hentries.
  unfold Prepare.prepare_cnn_data.
  induction (List.map fst dirs) as [|p ps IH] using rev_ind.
  - exists None. split; [reflexivity|]. split; [reflexivity|].
    intros earlier p H. now destruct earlier.
  - destruct IH as (input0 & Hfold & _ & _).
    { intros q Hq. apply Hgood. apply in_or_app. now left. }
    destruct (Hgood p) as (a & b & Hp); [apply in_or_app; right; now left|].
    exists (Some (Prepare.unsqueeze0 (Prepare.np_multiply a b))).
    rewrite fold_left_app, Hfold. cbn [fold_left rbind].
    unfold py_getitem. rewrite Hp. cbn [rbind CNNDataset.entry_getitem_int py_index
                                          nth_error fst].
    split; [reflexivity|]. split; [intros H; now destruct ps|].
    intros earlier q H. apply app_inj_tail in H. destruct H as [_ <-].
    now exists a, b.
Qed.

Lemma prepare_after_load_witness :
  exists images,
    Prepare.load_image_data Examples.tree [1] 5 = Ok (images, [1])
    /\ Prepare.prepare_cnn_data images [1]
       = Ok (∅, Some [Prepare.np_multiply Examples.channel_a Examples.channel_b]).
Proof.
  destruct (Prepare.load_image_data Examples.tree [1] 5) as [[images used]|e] eqn:Hload;
    [|vm_compute in Hload; discriminate Hload].
  assert (Hused : used = [1]) by (vm_compute in Hload; now injection Hload as _ <-).
  subst used.
  assert (Hshape : Forall (fun d => forall a b rest, snd d = a :: b :: rest ->
                                   Prepare.same_shape a b) Examples.tree).
  { repeat constructor. intros a b rest H. simpl in H.
    injection H as <- <- _. repeat constructor. }
  destruct (prepare_after_load Examples.tree [1] 5 images [1] Hload Hshape)
    as (input & Hprep & _ & Hlast).
  destruct (Hlast [] 1 eq_refl) as (a & b & Himg & ->).
  assert (Himg' : images !! 1 = Some (CNNDataset.EList [Examples.channel_a;
                                                         Examples.channel_b]))
    by (vm_compute in Hload; injection Hload as <-; vm_compute; reflexivity).
  rewrite Himg in Himg'. injection Himg' as -> ->.
  exists images. split; [reflexivity|exact Hprep].
Defined.

(** ** The evaluation routine: what it returns and how it fails *)

Section EvaluateOutcomes.

Context {X : Type}.
Variable net : X -> list Q.
Variable criterion : list Q -> list Q -> result Q.

Lemma evaluate_batch_estimated (st st' : Evaluation.locals) (b : Evaluation.batch X) :
  Evaluation.evaluate_batch net criterion st b = Ok st' ->
  (length (snd b) <= length (net (fst b)))%nat
  /\ Evaluation.estimated st' = Evaluation.estimated st ++ Evaluation.paired_outputs net b.
Proof.
  destruct b as [inputs labels]. unfold Evaluation.evaluate_batch, Evaluation.paired_outputs.
  cbn [fst snd].
  destruct (criterion (net inputs) (List.map inject_Z labels)) as [loss|e];
    cbn [rbind]; [|discriminate].
  destruct (Nat.le_gt_cases (length labels) (length (net inputs))) as [Hle|Hgt].
  - rewrite collect_prefix by lia. cbn [rbind]. intros H. injection H as <-.
    split; [exact Hle|reflexivity].
  - rewrite collect_short by lia. discriminate.
Qed.

Lemma evaluate_batch_Raise (st : Evaluation.locals) (b : Evaluation.batch X) (e : exn) :
  Evaluation.evaluate_batch net criterion st b = Raise e ->
  criterion (net (fst b)) (List.map inject_Z (snd b)) = Raise e
  \/ (e = IndexError /\ (length (net (fst b)) < length (snd b))%nat).
Proof.
  destruct b as [inputs labels]. unfold Evaluation.evaluate_batch. cbn [fst snd].
  destruct (criterion (net inputs) (List.map inject_Z labels)) as [loss|e'];
    cbn [rbind]; [|intros H; left; now injection H as ->].
  destruct (Nat.le_gt_cases (length labels) (length (net inputs))) as [Hle|Hgt].
  - rewrite collect_prefix by lia. discriminate.
  - rewrite collect_short by lia. intros H. injection H as <-. right. split; [reflexivity|lia].
Qed.

Lemma batch_loop_estimated (loader : list (Evaluation.batch X)) (st : Evaluation.locals) :
  Evaluation.batch_loop net criterion loader = Ok st ->
  Evaluation.estimated st = concat (List.map (Evaluation.paired_outputs net) loader)
  /\ Forall (fun b => (length (snd b) <= length (net (fst b)))%nat) loader.
Proof.
  revert st. induction loader as [|b loader IH] using rev_ind; intros st Hrun.
  - injection Hrun as <-. split; [reflexivity|constructor].
  - rewrite batch_loop_snoc in Hrun.
    destruct (Evaluation.batch_loop net criterion loader) as [st0|e];
      cbn [rbind] in Hrun; [|discriminate].
    destruct (IH st0 eq_refl) as [Hest Hall].
    destruct (evaluate_batch_estimated _ _ _ Hrun) as [Hlen Hest'].
    split.
    + rewrite Hest', Hest, map_app, concat_app. simpl. now rewrite app_nil_r.
    + apply Forall_app. split; [exact Hall|now constructor].
Qed.

Lemma batch_loop_Raise (loader : list (Evaluation.batch X)) (e : exn) :
  Evaluation.batch_loop net criterion loader = Raise e ->
  exists b,
    In b loader
    /\ (criterion (net (fst b)) (List.map inject_Z (snd b)) = Raise e
        \/ (e = IndexError /\ (length (net (fst b)) < length (snd b))%nat)).
Proof.
  induction loader as [|b loader IH] using rev_ind; intros Hrun; [discriminate|].
  rewrite batch_loop_snoc in Hrun.
  destruct (Evaluation.batch_loop net criterion loader) as [st0|e0];
    cbn [rbind] in Hrun.
  - exists b. split; [apply in_or_app; right; now left|].
    now apply (evaluate_batch_Raise st0).
  - injection Hrun as ->. destruct (IH eq_refl) as (b' & Hin & Hb').
    exists b'. split; [apply in_or_app; now left|exact Hb'].
Qed.

Lemma classes_of_binary (y_true : list Z) :
  Forall (fun l => l = 0 \/ l = 1) y_true ->
  In 0 y_true -> In 1 y_true ->
  Metrics.classes y_true = [0; 1] \/ Metrics.classes y_true = [1; 0].
Proof.
  intros Hbin H0 H1. unfold Metrics.classes.
  pose proof (List.NoDup_nodup Z.eq_dec y_true) as Hnd.
  assert (Hin : forall l, In l (List.nodup Z.eq_dec y_true) -> l = 0 \/ l = 1).
  { intros l Hl. apply List.nodup_In in Hl.
    rewrite List.Forall_forall in Hbin. now apply Hbin. }
  apply (List.nodup_In Z.eq_dec) in H0, H1.
  destruct (List.nodup Z.eq_dec y_true) as [|a [|b [|c rest]]].
  - destruct H0.
  - destruct H0 as [H0|[]], H1 as [H1|[]]. lia.
  - inversion Hnd as [|? ? Ha _]; subst.
    assert (a <> b) by (intros ->; apply Ha; now left).
    destruct (Hin a (or_introl eq_refl)) as [->| ->];
      destruct (Hin b (or_intror (or_introl eq_refl))) as [->| ->];
      try lia; [now left|now right].
  - exfalso.
    inversion Hnd as [|? ? Ha Hnd']; subst.
    inversion Hnd' as [|? ? Hb _]; subst.
    assert (a <> b) by (intros ->; apply Ha; now left).
    assert (a <> c) by (intros ->; apply Ha; right; now left).
    assert (b <> c) by (intros ->; apply Hb; now left).
    destruct (Hin a (or_introl eq_refl));
      destruct (Hin b (or_intror (or_introl eq_refl)));
      destruct (Hin c (or_intror (or_intror (or_introl eq_refl)))); lia.
Qed.

(** The AUC is defined exactly when two classes are present, and the
    error it raises otherwise is a value error. *)
Lemma roc_auc_score_Ok (y_true : list Z) (y_score : list Q) (auc : Q) :
  Metrics.roc_auc_score y_true y_score = Ok auc ->
  length y_true = length y_score
  /\ exists a b, a <> b /\ In a y_true /\ In b y_true
                 /\ forall l, In l y_true -> l = a \/ l = b.
Proof.
  unfold Metrics.roc_auc_score, Metrics.classes.
  destruct (Nat.eqb_spec (length y_true) (length y_score)) as [Hlen|Hlen];
    cbn [negb]; [|discriminate].
  pose proof (List.NoDup_nodup Z.eq_dec y_true) as Hnd.
  pose proof (fun l => List.nodup_In Z.eq_dec y_true l) as Hin.
  destruct (List.nodup Z.eq_dec y_true) as [|a [|b [|c rest]]]; try discriminate.
  intros _. split; [exact Hlen|]. exists a, b.
  inversion Hnd as [|? ? Ha _]; subst.
  split; [intros ->; apply Ha; now left|].
  split; [apply Hin; now left|]. split; [apply Hin; right; now left|].
  intros l Hl. apply Hin in Hl. destruct Hl as [<-|[<-|[]]]; [now left|now right].
Qed.

Lemma roc_auc_score_Raise (y_true : list Z) (y_score : list Q) (e : exn) :
  Metrics.roc_auc_score y_true y_score = Raise e -> e = ValueError.
Proof.
  unfold Metrics.roc_auc_score.
  destruct (negb _); [now intros H; injection H as <-|].
  destruct (Metrics.classes y_true) as [|a [|b [|c rest]]]; intros H;
    try discriminate H; now injection H as <-.
Qed.

Lemma roc_auc_score_binary (y_true : list Z) (y_score : list Q) :
  Forall (fun l => l = 0 \/ l = 1) y_true ->
  length y_true = length y_score ->
  (In 0 y_true -> In 1 y_true -> exists auc, Metrics.roc_auc_score y_true y_score = Ok auc)
  /\ (forall auc, Metrics.roc_auc_score y_true y_score = Ok auc ->
                  In 0 y_true /\ In 1 y_true).
Proof.
  intros Hbin Hlen. split.
  - intros H0 H1. unfold Metrics.roc_auc_score.
    rewrite Hlen, Nat.eqb_refl. cbn [negb].
    destruct (classes_of_binary y_true Hbin H0 H1) as [-> | ->]; eexists; reflexivity.
  - intros auc H.
    destruct (roc_auc_score_Ok _ _ _ H) as (_ & a & b & Hne & Ha & Hb & _).
    rewrite List.Forall_forall in Hbin.
    destruct (Hbin a Ha) as [-> | ->]; destruct (Hbin b Hb) as [-> | ->];
      try lia; now split.
Qed.

Lemma binary_labels_concat (loader : list (Evaluation.batch X)) :
  Evaluation.binary_labels loader ->
  Forall (fun l => l = 0 \/ l = 1) (concat (List.map snd loader)).
Proof.
  induction 1 as [|b loader Hb _ IH]; simpl; [constructor|].
  apply List.Forall_app. now split.
Qed.

Lemma Zsum_lengths (loader : list (Evaluation.batch X)) :
  fold_right Z.add 0 (List.map (fun b => Z.of_nat (length (snd b))) loader)
  = Z.of_nat (length (concat (List.map snd loader))).
Proof.
  induction loader as [|b loader IH]; [reflexivity|].
  cbn [List.map fold_right concat]. rewrite IH, length_app. lia.
Qed.

Lemma last_batch_size_None (loader : list (Evaluation.batch X)) :
  Evaluation.last_batch_size loader = None ->
  concat (List.map snd loader) = [].
Proof.
  induction loader as [|b loader IH] using rev_ind; intros H; [reflexivity|].
  rewrite last_batch_size_snoc in H.
  destruct (snd b) as [|l ls] eqn:E; cbn [length] in H; [|discriminate].
  rewrite map_app, concat_app.
  transitivity ([] ++ concat (List.map snd [b])).
  - f_equal. exact (IH H).
  - simpl. now rewrite E.
Qed.

End EvaluateOutcomes.

(** The labels of a concrete loader are read off. *)
Ltac labels_are_binary :=
  repeat first [apply List.Forall_nil | apply List.Forall_cons
               | left; reflexivity | right; reflexivity].

Lemma paired_outputs_length (X : Type) (net : X -> list Q) (loader : list (Evaluation.batch X)) :
  Forall (fun b => (length (snd b) <= length (net (fst b)))%nat) loader ->
  length (concat (List.map (Evaluation.paired_outputs net) loader))
  = length (concat (List.map snd loader)).
Proof.
  induction 1 as [|b loader Hb _ IH]; [reflexivity|].
  simpl. rewrite !length_app, IH. unfold Evaluation.paired_outputs.
  rewrite length_firstn. lia.
Qed.

(** X13. On labels that are 0 or 1, when [evaluate] returns
    (err, loss, auc): every batch had at least as many outputs as labels
    and a loss; both classes occur among the labels; [auc] is the AUC of
    all labels of the loader, in order, against the outputs paired with
    them; [err] is the number of differing (prediction, label) pairs
    summed over the batches, divided by the number of examples; and
    [loss] is the sum of the batch losses divided by the size of the last
    batch that holds an example. *)
Theorem evaluate_returns (X : Type) (net : X -> list Q)
    (criterion : list Q -> list Q -> result Q) (loader : list (Evaluation.batch X))
    (err loss auc : Q) :
  Evaluation.binary_labels loader ->
  Evaluation.evaluate net criterion loader = Ok (err, loss, auc) ->
  let labels := concat (List.map snd loader) in
  exists losses n,
    Spec.batch_losses net criterion loader = List.map Ok losses
    /\ Forall (fun b => (length (snd b) <= length (net (fst b)))%nat) loader
    /\ (In 0 labels /\ In 1 labels)
    /\ Metrics.roc_auc_score labels (concat (List.map (Evaluation.paired_outputs net) loader))
       = Ok auc
    /\ (err == inject_Z (fold_right Z.add 0%Z
                           (List.map (Evaluation.pair_mismatches net) loader))
               / inject_Z (Z.of_nat (length labels)))%Q
    /\ Evaluation.last_batch_size loader = Some n
    /\ (loss == Qsum losses / inject_Z (Z.of_nat n))%Q.
Proof.
  intros Hbin Heval labels.
  destruct (evaluate_loss_divisor net criterion loader err loss auc Heval)
    as (losses & n & Hlosses & Hlast & Hloss).
  exists losses, n.
  unfold Evaluation.evaluate in Heval.
  destruct (Evaluation.batch_loop net criterion loader) as [st|e] eqn:Hrun;
    cbn [rbind] in Heval; [|discriminate].
  destruct (batch_loop_totals _ _ _ _ Hrun) as (_ & _ & _ & Herr & Hepoch & Htrue & _).
  destruct (batch_loop_estimated _ _ _ _ Hrun) as [Hest Hall].
  rewrite Htrue, Hest in Heval. fold labels in Heval.
  destruct (Metrics.roc_auc_score labels _) as [auc'|e] eqn:Hauc;
    cbn [rbind] in Heval; [|discriminate].
  unfold py_truediv at 1 in Heval.
  destruct (Qeq_bool (inject_Z (Evaluation.total_epoch st)) 0); [discriminate|].
  cbn [rbind] in Heval.
  destruct (Evaluation.i st); cbn [rbind] in Heval; [|discriminate].
  destruct (py_truediv _ _); cbn [rbind] in Heval; [|discriminate].
  injection Heval as <- _ <-.
  split; [exact Hlosses|]. split; [exact Hall|].
  split.
  { apply (proj2 (roc_auc_score_binary labels _ (binary_labels_concat loader Hbin)
                    (eq_sym (paired_outputs_length _ net loader Hall))) auc').
    exact Hauc. }
  split; [reflexivity|].
  split; [|split; [exact Hlast|exact Hloss]].
  rewrite Herr, Hepoch, Zsum_lengths. reflexivity.
Qed.

Lemma evaluate_returns_witness :
  exists err loss auc losses,
    Evaluation.evaluate Examples.half_net Examples.l1_loss Examples.loader_2_2_1
    = Ok (err, loss, auc)
    /\ Spec.batch_losses Examples.half_net Examples.l1_loss Examples.loader_2_2_1
       = List.map Ok losses
    /\ Evaluation.last_batch_size Examples.loader_2_2_1 = Some 1%nat
    /\ (loss == Qsum losses / 1)%Q
    /\ (err == 3 # 5)%Q.
Proof.
  destruct (Evaluation.evaluate Examples.half_net Examples.l1_loss Examples.loader_2_2_1)
    as [[[err loss] auc]|e] eqn:Heval; [|vm_compute in Heval; discriminate Heval].
  assert (Hbin : Evaluation.binary_labels Examples.loader_2_2_1)
    by labels_are_binary.
  destruct (evaluate_returns _ _ _ _ err loss auc Hbin Heval)
    as (losses & n & Hlosses & _ & _ & _ & Herr & Hlast & Hloss).
  assert (Hn : n = 1%nat) by (vm_compute in Hlast; now injection Hlast as <-).
  subst n.
  exists err, loss, auc, losses.
  split; [reflexivity|]. split; [exact Hlosses|]. split; [exact Hlast|].
  split; [exact Hloss|].
  rewrite Herr. vm_compute. reflexivity.
Defined.

(** X14. On labels that are 0 or 1, and given a network that returns
    its outputs, [evaluate] raises in three ways only: with what the
    criterion raises on some batch; with an index error when some batch
    has fewer outputs than labels; and with the value error of the AUC
    when one of the two classes is missing from the labels (an empty
    loader included). Its own two divisions never fail. *)
Theorem evaluate_raises (X : Type) (net : X -> list Q)
    (criterion : list Q -> list Q -> result Q) (loader : list (Evaluation.batch X))
    (e : exn) :
  Evaluation.binary_labels loader ->
  Evaluation.evaluate net criterion loader = Raise e ->
  (exists b, In b loader
             /\ criterion (net (fst b)) (List.map inject_Z (snd b)) = Raise e)
  \/ (e = IndexError
      /\ exists b, In b loader /\ (length (net (fst b)) < length (snd b))%nat)
  \/ (e = ValueError
      /\ (~ In 0 (concat (List.map snd loader)) \/ ~ In 1 (concat (List.map snd loader)))
      /\ Metrics.roc_auc_score (concat (List.map snd loader))
           (concat (List.map (Evaluation.paired_outputs net) loader))
         = Raise ValueError).
Proof.
  intros Hbin Heval. unfold Evaluation.evaluate in Heval.
  destruct (Evaluation.batch_loop net criterion loader) as [st|e0] eqn:Hrun;
    cbn [rbind] in Heval.
  - destruct (batch_loop_totals _ _ _ _ Hrun) as (_ & _ & _ & _ & Hepoch & Htrue & Hi).
    destruct (batch_loop_estimated _ _ _ _ Hrun) as [Hest Hall].
    rewrite Htrue, Hest in Heval.
    pose proof (roc_auc_score_binary _ _ (binary_labels_concat loader Hbin)
                  (eq_sym (paired_outputs_length _ net loader Hall))) as [Hsome Hboth].
    destruct (Metrics.roc_auc_score _ _) as [auc|e1] eqn:Hauc; cbn [rbind] in Heval.
    + exfalso.
      destruct (Hboth auc eq_refl) as [_ Hone].
      assert (Hpos : 0 < Evaluation.total_epoch st).
      { rewrite Hepoch, Zsum_lengths.
        destruct (concat (List.map snd loader)); [destruct Hone|simpl; lia]. }
      unfold py_truediv at 1 in Heval.
      destruct (Qeq_bool (inject_Z (Evaluation.total_epoch st)) 0) eqn:Ez.
      { apply Qeq_bool_iff in Ez. unfold Qeq in Ez. simpl in Ez. lia. }
      cbn [rbind] in Heval.
      destruct (Evaluation.last_batch_size loader) as [n|] eqn:Hlast.
      * rewrite Hi in Heval. cbn [option_map rbind] in Heval.
        unfold py_truediv in Heval.
        destruct (Qeq_bool (inject_Z (Z.of_nat (Nat.pred n) + 1)) 0) eqn:Ez'.
        { apply Qeq_bool_iff in Ez'. unfold Qeq in Ez'. simpl in Ez'. lia. }
        discriminate Heval.
      * apply last_batch_size_None in Hlast. rewrite Hlast in Hone. destruct Hone.
    + injection Heval as ->. right. right.
      pose proof (roc_auc_score_Raise _ _ _ Hauc) as ->.
      split; [reflexivity|]. split; [|reflexivity].
      destruct (in_dec Z.eq_dec 0 (concat (List.map snd loader))) as [H0|H0];
        [|now left].
      destruct (in_dec Z.eq_dec 1 (concat (List.map snd loader))) as [H1|H1];
        [|now right].
      destruct (Hsome H0 H1) as [auc Hok]. discriminate Hok.
  - injection Heval as ->.
    destruct (batch_loop_Raise _ _ _ _ Hrun) as (b & Hin & [Hc|[He Hshort]]).
    + left. now exists b.
    + right. left. split; [exact He|now exists b].
Qed.

Lemma evaluate_raises_witness :
  Evaluation.evaluate Examples.half_net Examples.l1_loss [(2%nat, [1; 1])]
  = Raise ValueError
  /\ Metrics.roc_auc_score [1; 1] [1 # 2; 1 # 2]%Q = Raise ValueError.
Proof.
  assert (Heval : Evaluation.evaluate Examples.half_net Examples.l1_loss [(2%nat, [1; 1])]
                  = Raise ValueError) by (vm_compute; reflexivity).
  split; [exact Heval|].
  assert (Hbin : Evaluation.binary_labels [(2%nat, [1; 1])])
    by labels_are_binary.
  destruct (evaluate_raises _ _ _ _ _ Hbin Heval)
    as [(b & Hin & Hc)|[(_ & b & Hin & Hshort)|(_ & _ & Hauc)]].
  - destruct Hin as [<-|[]]. vm_compute in Hc. discriminate Hc.
  - destruct Hin as [<-|[]]. vm_compute in Hshort. lia.
  - exact Hauc.
Defined.

(** X15. On labels that are 0 or 1, [evaluate] returns a triple
    whenever every batch has at least as many outputs as labels, the
    criterion gives a loss on every batch, and both classes occur among
    the labels of the loader. *)
Theorem evaluate_succeeds (X : Type) (net : X -> list Q)
    (criterion : list Q -> list Q -> result Q) (loader : list (Evaluation.batch X)) :
  Evaluation.binary_labels loader ->
  Forall (fun b => (length (snd b) <= length (net (fst b)))%nat) loader ->
  Forall (fun b => exists l, criterion (net (fst b)) (List.map inject_Z (snd b)) = Ok l)
         loader ->
  In 0 (concat (List.map snd loader)) ->
  In 1 (concat (List.map snd loader)) ->
  exists err loss auc, Evaluation.evaluate net criterion loader = Ok (err, loss, auc).
Proof.
  intros Hbin Hlen Hcrit Hzero Hone.
  unfold Evaluation.evaluate.
  destruct (Evaluation.batch_loop net criterion loader) as [st|e] eqn:Hrun.
  - cbn [rbind].
    destruct (batch_loop_totals _ _ _ _ Hrun) as (_ & _ & _ & _ & Hepoch & Htrue & Hi).
    destruct (batch_loop_estimated _ _ _ _ Hrun) as [Hest _].
    rewrite Htrue, Hest.
    destruct (proj1 (roc_auc_score_binary _ _ (binary_labels_concat loader Hbin)
                       (eq_sym (paired_outputs_length _ net loader Hlen))) Hzero Hone)
      as [auc ->].
    cbn [rbind].
    assert (Hposn : 0 < Evaluation.total_epoch st).
    { rewrite Hepoch, Zsum_lengths.
      destruct (concat (List.map snd loader)); [destruct Hone|simpl; lia]. }
    unfold py_truediv at 1.
    destruct (Qeq_bool (inject_Z (Evaluation.total_epoch st)) 0) eqn:Ez.
    { apply Qeq_bool_iff in Ez. unfold Qeq in Ez. simpl in Ez. lia. }
    cbn [rbind].
    destruct (Evaluation.last_batch_size loader) as [n|] eqn:Hlast.
    + rewrite Hi. cbn [option_map rbind].
      unfold py_truediv.
      destruct (Qeq_bool (inject_Z (Z.of_nat (Nat.pred n) + 1)) 0) eqn:Ez'.
      { apply Qeq_bool_iff in Ez'. unfold Qeq in Ez'. simpl in Ez'. lia. }
      cbn [rbind]. eauto.
    + apply last_batch_size_None in Hlast. rewrite Hlast in Hone. destruct Hone.
  - exfalso.
    destruct (batch_loop_Raise _ _ _ _ Hrun) as (b & Hin & [Hc|[_ Hshort]]).
    + rewrite List.Forall_forall in Hcrit. destruct (Hcrit b Hin) as [x Hx]. congruence.
    + rewrite List.Forall_forall in Hlen. specialize (Hlen b Hin). lia.
Qed.

Lemma evaluate_succeeds_witness :
  exists err loss auc,
    Evaluation.evaluate Examples.half_net Examples.l1_loss Examples.loader_2_2_1
    = Ok (err, loss, auc).
Proof.
  apply evaluate_succeeds.
  - labels_are_binary.
  - repeat constructor.
  - repeat constructor; eexists; vm_compute; reflexivity.
  - vm_compute. tauto.
  - vm_compute. tauto.
Defined.

(** ** The training loop *)

Section TrainNetOutcomes.

Context {X model : Type}.
Variable add_noise : model -> X -> X * model.
Variable forward : bool -> model -> X -> list Q.
Variable optimizer_step : model -> X -> list Z -> model.
Variable scheduler_step : model -> model.
Variable criterion : list Q -> list Q -> result Q.
Variable train_dataloader validation_dataloader : nat -> list (Evaluation.batch X).
Variable use_scheduler : bool.

Let train_net :=
  Training.train_net add_noise forward optimizer_step scheduler_step criterion
    train_dataloader validation_dataloader use_scheduler.
Let run_epoch :=
  Training.run_epoch add_noise forward optimizer_step scheduler_step criterion
    train_dataloader validation_dataloader use_scheduler.
Let run_epochs :=
  Training.run_epochs add_noise forward optimizer_step scheduler_step criterion
    train_dataloader validation_dataloader use_scheduler.
Let step_on_batch :=
  Training.step_on_batch add_noise optimizer_step scheduler_step use_scheduler.

Lemma train_batches_model (batch_size : Z) (loader : list (Evaluation.batch X))
    (st tr : Training.train_locals) :
  fold_left (fun acc b =>
               let* st := acc in
               Training.train_batch add_noise forward optimizer_step scheduler_step
                 criterion use_scheduler batch_size st b)
            loader (Ok st) = Ok tr ->
  Training.tr_model tr = fold_left step_on_batch loader (Training.tr_model st).
Proof.
  revert st. induction loader as [|b loader IH]; intros st H; simpl in H.
  - now injection H as <-.
  - destruct (Training.train_batch _ _ _ _ _ _ _ st b) as [st'|e] eqn:E.
    + rewrite (IH _ H). simpl. f_equal.
      unfold Training.train_batch in E. unfold step_on_batch, Training.step_on_batch.
      destruct b as [inputs label]. destruct (add_noise _ inputs) as [inputs' m1].
      destruct (criterion _ _); cbn [rbind] in E; [|discriminate].
      destruct (fold_left _ _ _); cbn [rbind] in E; [|discriminate].
      now injection E as <-.
    + rewrite fold_left_Raise in H by reflexivity. discriminate.
Qed.

Lemma run_epoch_model (batch_size : Z) (m : model) (i0 : option nat) (epoch : nat)
    (m' : model) (i' : option nat) (l : Training.epoch_locals) :
  run_epoch batch_size m i0 epoch = Ok (m', i', l) ->
  m' = fold_left step_on_batch (train_dataloader epoch) m.
Proof.
  unfold run_epoch, Training.run_epoch. intros H.
  destruct (fold_left _ (train_dataloader epoch) _) as [tr|e] eqn:Htr;
    cbn [rbind] in H; [|discriminate].
  apply train_batches_model in Htr. simpl in Htr.
  destruct (py_truediv _ _); cbn [rbind] in H; [|discriminate].
  destruct (fold_left _ (validation_dataloader epoch) _); cbn [rbind] in H; [|discriminate].
  destruct (py_truediv _ _); cbn [rbind] in H; [|discriminate].
  destruct (Metrics.roc_auc_score _ _); cbn [rbind] in H; [|discriminate].
  destruct (Metrics.roc_auc_score _ _); cbn [rbind] in H; [|discriminate].
  injection H as <- _ _. exact Htr.
Qed.

Lemma run_epochs_model (batch_size : Z) (m : model) (num_epochs : nat)
    (st : model * option nat * option Training.epoch_locals) :
  run_epochs batch_size m num_epochs = Ok st ->
  fst (fst st)
  = fold_left (fun m epoch => fold_left step_on_batch (train_dataloader epoch) m)
              (seq 0 num_epochs) m.
Proof.
  unfold run_epochs, Training.run_epochs.
  revert st. induction num_epochs as [|n IH]; intros st H.
  - simpl in H. now injection H as <-.
  - rewrite seq_S, fold_left_app in H |- *. simpl in H |- *.
    destruct (fold_left _ (seq 0 n) _) as [st0|e]; cbn [rbind] in H; [|discriminate].
    rewrite <- (IH st0 eq_refl).
    destruct (Training.run_epoch _ _ _ _ _ _ _ _ _ _ _ _) as [[[m' i'] l]|e] eqn:E;
      cbn [rbind] in H; [|discriminate].
    injection H as <-. simpl.
    exact (run_epoch_model _ _ _ _ _ _ _ E).
Qed.

(** X16. The model a call of [train_net] leaves behind is the
    one it was given after one pass of the training body per training
    batch, epoch after epoch in loader order: the validation passes, the
    losses and the AUCs never change it, and the scheduler steps once per
    batch, not once per epoch. *)
Theorem train_net_model (m : model) (batch_size num_epochs : Z) (m' : model)
    (value : option Training.report) :
  train_net m batch_size num_epochs = Ok (m', value) ->
  m' = fold_left (fun m epoch => fold_left step_on_batch (train_dataloader epoch) m)
                 (seq 0 (Z.to_nat num_epochs)) m.
Proof.
  unfold train_net, Training.train_net.
  destruct (num_epochs <? 0); [discriminate|].
  destruct (Training.run_epochs _ _ _ _ _ _ _ _ _ _ _) as [st|e] eqn:E;
    cbn [rbind]; [|discriminate].
  intros H. injection H as <- _.
  exact (run_epochs_model _ _ _ _ E).
Qed.

Lemma run_epochs_first_Raise (batch_size : Z) (m : model) (num_epochs : nat) (e : exn) :
  run_epoch batch_size m None 0 = Raise e ->
  (1 <= num_epochs)%nat ->
  run_epochs batch_size m num_epochs = Raise e.
Proof.
  intros H Hn. unfold run_epochs, Training.run_epochs.
  destruct num_epochs as [|n]; [lia|].
  cbn [seq fold_left rbind fst snd].
  fold run_epoch. rewrite H. cbn [rbind].
  now apply fold_left_Raise.
Qed.

(** X17. A negative number of epochs raises a value error
    before anything runs; zero epochs return at once with the model
    untouched; with at least one epoch, a training loader that yields no
    batch in the first epoch ends the call in a division by zero; and
    with a batch size of zero the call never returns. *)
Theorem train_net_edges (m : model) (batch_size num_epochs : Z) :
  (num_epochs < 0 -> train_net m batch_size num_epochs = Raise ValueError)
  /\ (num_epochs = 0 -> train_net m batch_size num_epochs = Ok (m, None))
  /\ (1 <= num_epochs -> train_dataloader 0%nat = [] ->
      train_net m batch_size num_epochs = Raise ZeroDivisionError)
  /\ (1 <= num_epochs -> batch_size = 0 ->
      exists e, train_net m batch_size num_epochs = Raise e).
Proof.
  unfold train_net, Training.train_net.
  split; [|split; [|split]].
  - intros H. apply Z.ltb_lt in H. now rewrite H.
  - intros ->. reflexivity.
  - intros H Hempty.
    destruct (num_epochs <? 0) eqn:E; [apply Z.ltb_lt in E; lia|].
    fold run_epochs.
    rewrite (run_epochs_first_Raise batch_size m _ ZeroDivisionError); [reflexivity| |lia].
    unfold run_epoch, Training.run_epoch. rewrite Hempty. reflexivity.
  - intros H ->.
    destruct (num_epochs <? 0) eqn:E; [apply Z.ltb_lt in E; lia|].
    fold run_epochs.
    assert (Hfirst : exists e, run_epoch 0 m None 0 = Raise e).
    { unfold run_epoch, Training.run_epoch.
      destruct (fold_left _ (train_dataloader 0%nat) _) as [tr|e];
        cbn [rbind]; [|now exists e].
      rewrite Z.mul_0_r. now exists ZeroDivisionError. }
    destruct Hfirst as [e He]. exists e.
    rewrite (run_epochs_first_Raise 0 m _ e He); [reflexivity|lia].
Qed.

End TrainNetOutcomes.

Lemma train_net_model_witness :
  exists m',
    Training.train_net (X := Examples.inputs) (model := Z)
      (fun m x => (x, m)) (fun _ _ x => Examples.half_net x)
      (fun m _ _ => m + 1) (fun m => m + 100)
      Examples.l1_loss (fun _ => Examples.loader_2) (fun _ => Examples.loader_2) true
      0 2 2 = Ok (m', None)
    /\ m' = 202.
Proof.
  exists 202. split; [vm_compute; reflexivity|].
  apply (train_net_model (X := Examples.inputs) (model := Z)
           (fun m x => (x, m)) (fun _ _ x => Examples.half_net x)
           (fun m _ _ => m + 1) (fun m => m + 100)
           Examples.l1_loss (fun _ => Examples.loader_2) (fun _ => Examples.loader_2) true
           0 2 2 202 None).
  vm_compute. reflexivity.
Defined.

Lemma train_net_edges_witness :
  Examples.train_net tt 2 (-1) = Raise ValueError
  /\ Examples.train_net tt 2 0 = Ok (tt, None)
  /\ Training.train_net (X := Examples.inputs) (model := unit)
       (fun m x => (x, m)) (fun _ _ x => Examples.half_net x) (fun m _ _ => m) (fun m => m)
       Examples.l1_loss (fun _ => []) (fun _ => Examples.loader_2) false tt 2 3
     = Raise ZeroDivisionError
  /\ exists e, Examples.train_net tt 0 3 = Raise e.
Proof.
  split; [|split; [|split]].
  - apply (proj1 (train_net_edges (X := Examples.inputs) (model := unit)
                    (fun m x => (x, m)) (fun _ _ x => Examples.half_net x)
                    (fun m _ _ => m) (fun m => m) Examples.l1_loss
                    (fun _ => Examples.loader_2) (fun _ => Examples.loader_2) false
                    tt 2 (-1))).
    lia.
  - apply (proj1 (proj2 (train_net_edges (X := Examples.inputs) (model := unit)
                    (fun m x => (x, m)) (fun _ _ x => Examples.half_net x)
                    (fun m _ _ => m) (fun m => m) Examples.l1_loss
                    (fun _ => Examples.loader_2) (fun _ => Examples.loader_2) false
                    tt 2 0))).
    reflexivity.
  - apply (proj1 (proj2 (proj2 (train_net_edges (X := Examples.inputs) (model := unit)
                    (fun m x => (x, m)) (fun _ _ x => Examples.half_net x)
                    (fun m _ _ => m) (fun m => m) Examples.l1_loss
                    (fun _ => []) (fun _ => Examples.loader_2) false
                    tt 2 3)))); [lia|reflexivity].
  - apply (proj2 (proj2 (proj2 (train_net_edges (X := Examples.inputs) (model := unit)
                    (fun m x => (x, m)) (fun _ _ x => Examples.half_net x)
                    (fun m _ _ => m) (fun m => m) Examples.l1_loss
                    (fun _ => Examples.loader_2) (fun _ => Examples.loader_2) false
                    tt 0 3)))); [lia|reflexivity].
Defined.

(** ** The split of a small dataset *)

Lemma split_dataset_runs (obj : Type) (images : gmap Z (CNNDataset.entry obj))
    (patients_used : list Z) (randperm : nat -> list nat) :
  length (randperm (length patients_used)) = length patients_used ->
  let n := Z.of_nat (length patients_used) in
  let idx := randperm (length patients_used) in
  let a := Z.to_nat (6 * n / 10) in
  let b := Z.to_nat (2 * n / 10) in
  Split.split_dataset images patients_used randperm
  = Ok (firstn a idx, firstn b (skipn a idx), skipn (a + b) idx).
Proof.
  intros Hlen n idx a b.
  destruct (split_sizes_bounds n ltac:(lia)) as (Ha & Hb & Hc & Hta & Hva).
  set (c := Z.to_nat (Split.test_size n)).
  assert (Hn : length patients_used = (a + b + c)%nat).
  { unfold a, b, c. unfold Split.test_size in *. lia. }
  assert (Hlen' : length (randperm (a + b + c)%nat) = (a + b + c)%nat)
    by (rewrite <- Hn; exact Hlen).
  pose proof (random_split_three a b c randperm Hlen') as Hsplit.
  unfold Split.split_dataset. unfold CNNDataset.__len__. simpl.
  fold n.
  replace (Split.train_size n) with (Z.of_nat a) by (unfold a; lia).
  replace (Split.validation_size n) with (Z.of_nat b) by (unfold b; lia).
  replace (n - Z.of_nat a - Z.of_nat b) with (Z.of_nat c)
    by (unfold a, b, c, Split.test_size; lia).
  unfold n at 1. rewrite Hn at 1. rewrite Hsplit. cbn [rbind].
  unfold idx. rewrite Hn. reflexivity.
Qed.

(** X18. Whenever the generator returns as many positions as
    there are patients, the split of the trial loop succeeds, and: the
    training part is empty exactly for fewer than two patients, the
    validation part exactly for fewer than five, the test part only for
    none; the test part holds as many positions as the validation part or
    up to two more, and the training part three times as many as the
    validation part or up to two more. *)
Theorem split_dataset_small (obj : Type) (images : gmap Z (CNNDataset.entry obj))
    (patients_used : list Z) (randperm : nat -> list nat) :
  length (randperm (length patients_used)) = length patients_used ->
  exists train validation test,
    Split.split_dataset images patients_used randperm = Ok (train, validation, test)
    /\ (train = [] <-> (length patients_used < 2)%nat)
    /\ (validation = [] <-> (length patients_used < 5)%nat)
    /\ (test = [] <-> patients_used = [])
    /\ (length validation <= length test <= length validation + 2)%nat
    /\ (3 * length validation <= length train <= 3 * length validation + 2)%nat.
Proof.
  intros Hlen.
  pose proof (split_dataset_runs obj images patients_used randperm Hlen) as Hrun.
  cbv zeta in Hrun.
  set (n := length patients_used) in *.
  set (idx := randperm n) in *.
  set (a := Z.to_nat (6 * Z.of_nat n / 10)) in *.
  set (b := Z.to_nat (2 * Z.of_nat n / 10)) in *.
  pose proof (Z.div_mod (6 * Z.of_nat n) 10 ltac:(lia)) as H6.
  pose proof (Z.mod_pos_bound (6 * Z.of_nat n) 10 ltac:(lia)) as B6.
  pose proof (Z.div_mod (2 * Z.of_nat n) 10 ltac:(lia)) as H2.
  pose proof (Z.mod_pos_bound (2 * Z.of_nat n) 10 ltac:(lia)) as B2.
  assert (La : length (firstn a idx) = a) by (rewrite length_firstn; lia).
  assert (Lb : length (firstn b (skipn a idx)) = b)
    by (rewrite length_firstn, length_skipn; lia).
  assert (Lc : length (skipn (a + b) idx) = (n - a - b)%nat)
    by (rewrite length_skipn; lia).
  assert (Hnil : forall (xs : list nat), xs = [] <-> length xs = 0%nat).
  { intros [|x xs]; simpl; split; intros H; try reflexivity; try discriminate. }
  exists (firstn a idx), (firstn b (skipn a idx)), (skipn (a + b) idx).
  split; [exact Hrun|].
  rewrite !Hnil, La, Lb, Lc.
  repeat split; try lia.
  - intros H. destruct patients_used; [reflexivity|]. simpl in n. lia.
  - intros H. subst n. rewrite H. simpl. lia.
Qed.

Lemma split_dataset_small_witness :
  exists train validation test,
    Split.split_dataset (obj := unit) ∅ [11; 12; 13; 14] (fun n => rev (seq 0 n))
    = Ok (train, validation, test)
    /\ length train = 2%nat /\ validation = [] /\ length test = 2%nat.
Proof.
  destruct (split_dataset_small unit ∅ [11; 12; 13; 14] (fun n => rev (seq 0 n)) eq_refl)
    as (train & validation & test & Hrun & _ & Hval & _ & _ & _).
  exists train, validation, test.
  split; [exact Hrun|].
  vm_compute in Hrun. injection Hrun as <- <- <-.
  repeat split.
Defined.

(** ** The two mappings of [process_excel] *)

Lemma dict_fold_absent {V : Type} (kvs : list (Z * V)) (d : gmap Z V) (k : Z) :
  fold_left (fun d kv => <[fst kv := snd kv]> d) kvs d !! k = None
  <-> d !! k = None /\ forall kv, In kv kvs -> fst kv <> k.
Proof.
  revert d. induction kvs as [|[k' v'] kvs IH]; intros d; simpl.
  - split; [intros H; split; [exact H|intros ? []]|intros [H _]; exact H].
  - rewrite IH. split.
    + intros [Hd Hrest]. destruct (decide (k' = k)) as [->|Hne].
      * rewrite lookup_insert_eq in Hd. discriminate.
      * rewrite lookup_insert_ne in Hd by exact Hne.
        split; [exact Hd|]. intros kv [<-|Hin]; [exact Hne|now apply Hrest].
    + intros [Hd Hall]. split.
      * rewrite lookup_insert_ne; [exact Hd|]. exact (Hall (k', v') (or_introl eq_refl)).
      * intros kv Hin. apply Hall. now right.
Qed.

Lemma dict_fold_untouched {V : Type} (kvs : list (Z * V)) (d : gmap Z V) (k : Z) :
  (forall kv, In kv kvs -> fst kv <> k) ->
  fold_left (fun d kv => <[fst kv := snd kv]> d) kvs d !! k = d !! k.
Proof.
  revert d. induction kvs as [|[k' v'] kvs IH]; intros d Hall; simpl; [reflexivity|].
  rewrite IH by (intros kv Hin; apply Hall; now right).
  apply lookup_insert_ne. exact (Hall (k', v') (or_introl eq_refl)).
Qed.

Lemma dict_of_pairs_absent {V : Type} (kvs : list (Z * V)) (k : Z) :
  Labels.dict_of_pairs kvs !! k = None <-> forall kv, In kv kvs -> fst kv <> k.
Proof.
  unfold Labels.dict_of_pairs. rewrite dict_fold_absent.
  split; [intros [_ H]; exact H|intros H; split; [apply lookup_empty|exact H]].
Qed.

Lemma dict_of_pairs_last {V : Type} (pre post : list (Z * V)) (k : Z) (v : V) :
  (forall kv, In kv post -> fst kv <> k) ->
  Labels.dict_of_pairs (pre ++ (k, v) :: post) !! k = Some v.
Proof.
  intros Hpost. unfold Labels.dict_of_pairs.
  rewrite fold_left_app. simpl.
  rewrite dict_fold_untouched by exact Hpost.
  apply lookup_insert_eq.
Qed.

Lemma labelled_rows_code (df_data : list Labels.row) (exclusions : list Z)
    (r : Labels.row) (l : Z) :
  In (r, l) (Labels.labelled_rows df_data exclusions) ->
  (l = 0 \/ l = 1)
  /\ Labels.code r = Labels.Num (Labels.int_of_cell (Labels.code r))
  /\ ~ In (Labels.int_of_cell (Labels.code r)) exclusions.
Proof.
  intros H. pose proof (labelled_rows_label _ _ _ _ H) as Hl.
  split.
  { unfold Labels.create_label in Hl.
    destruct (Labels.eq_one _); [injection Hl as <-; now right|].
    destruct (Labels.eq_one _); [injection Hl as <-; now left|discriminate]. }
  unfold Labels.labelled_rows in H.
  apply in_flat_map in H. destruct H as [[r' o] [Hin Hout]].
  apply in_map_iff in Hin. destruct Hin as [r0 [Heq Hf]].
  inversion Heq; subst r' o; clear Heq. simpl in Hout.
  destruct (Labels.create_label _ _); simpl in Hout; [|destruct Hout].
  destruct Hout as [Hout|[]]. inversion Hout; subst r0.
  apply filter_In in Hf. destruct Hf as [Hf Hex].
  apply filter_In in Hf. destruct Hf as [_ Hnan].
  destruct (Labels.code r) as [c|]; [|discriminate].
  split; [reflexivity|]. simpl in *.
  intros Hin. apply negb_true_iff in Hex.
  assert (existsb (Z.eqb c) exclusions = true)
    by (apply existsb_exists; exists c; split; [exact Hin|apply Z.eqb_refl]).
  congruence.
Qed.

Lemma process_excel_pairs (df_data : list Labels.row) (exclusions : list Z) :
  let kept := Labels.labelled_rows df_data exclusions in
  Labels.process_excel df_data exclusions
  = (Labels.dict_of_pairs
       (List.map (fun rl => (Labels.int_of_cell (Labels.code (fst rl)),
                             Labels.features (fst rl))) kept),
     Labels.dict_of_pairs
       (List.map (fun rl => (Labels.int_of_cell (Labels.code (fst rl)), snd rl)) kept)).
Proof.
  intros kept. unfold Labels.process_excel. fold kept. f_equal. f_equal.
  induction kept as [|rl kept IH]; [reflexivity|]. simpl. now rewrite IH.
Qed.

(** X19. The two mappings [process_excel] returns have the same
    patient codes as keys; every label is 0 or 1 and no excluded patient
    has an entry; and when several kept rows carry the same code, both
    mappings hold the data of the last of them, so the label and the
    features found under a code come from one row. *)
Theorem process_excel_mappings (df_data : list Labels.row) (exclusions : list Z) :
  let radiomic_features := fst (Labels.process_excel df_data exclusions) in
  let training_labels := snd (Labels.process_excel df_data exclusions) in
  (forall c, radiomic_features !! c = None <-> training_labels !! c = None)
  /\ (forall c l, training_labels !! c = Some l ->
                  (l = 0 \/ l = 1) /\ ~ In c exclusions)
  /\ (forall pre r l post,
        Labels.labelled_rows df_data exclusions = pre ++ (r, l) :: post ->
        (forall rl, In rl post -> Labels.code (fst rl) <> Labels.code r) ->
        radiomic_features !! Labels.int_of_cell (Labels.code r)
        = Some (Labels.features r)
        /\ training_labels !! Labels.int_of_cell (Labels.code r) = Some l).
Proof.
  cbv zeta. rewrite process_excel_pairs. cbv zeta. cbn [fst snd].
  set (kept := Labels.labelled_rows df_data exclusions).
  split; [|split].
  - intros c. rewrite !dict_of_pairs_absent. split; intros H kv Hin;
      apply in_map_iff in Hin; destruct Hin as [rl [<- Hin]]; simpl.
    + apply (H (Labels.int_of_cell (Labels.code (fst rl)), Labels.features (fst rl))).
      apply in_map_iff. now exists rl.
    + apply (H (Labels.int_of_cell (Labels.code (fst rl)), snd rl)).
      apply in_map_iff. now exists rl.
  - intros c l H. apply dict_of_pairs_lookup in H.
    apply in_map_iff in H. destruct H as [[r l'] [Heq Hin]].
    simpl in Heq. injection Heq as <- <-.
    destruct (labelled_rows_code _ _ _ _ Hin) as (Hl & _ & Hex). now split.
  - intros pre r l post Hkept Hpost.
    assert (Hcodes : forall rl, In rl post ->
              Labels.int_of_cell (Labels.code (fst rl))
              <> Labels.int_of_cell (Labels.code r)).
    { intros [r' l'] Hin Heq. apply (Hpost _ Hin). simpl in *.
      assert (Hin' : In (r', l') kept)
        by (rewrite Hkept; apply in_or_app; right; now right).
      assert (Hr : In (r, l) kept)
        by (rewrite Hkept; apply in_or_app; right; now left).
      destruct (labelled_rows_code _ _ _ _ Hin') as (_ & -> & _).
      destruct (labelled_rows_code _ _ _ _ Hr) as (_ & -> & _).
      now rewrite Heq. }
    rewrite Hkept, !map_app. cbn [List.map fst snd].
    split; apply dict_of_pairs_last; intros kv Hin;
      apply in_map_iff in Hin; destruct Hin as [rl [<- Hin]]; simpl;
      exact (Hcodes rl Hin).
Qed.
